(** * getSQLServerDiagnostics: a shallow embedding and its properties

    The repository holds three revisions of one pipeline that runs a catalog
    of SQL statements and renders the results:

    - [CsvOnly]      the first revision: one CSV file per query;
    - [CsvStaging]   [golang/getSQLServerDiagnostics/app.go]: CSV files staged
                     in a temporary directory, then merged into a workbook;
    - [DirectExcel]  revision 2.0.0: query results written straight into the
                     worksheets of the workbook, with the repeat schedule.

    Go strings are byte sequences; they are modelled as [list ascii], [len]
    is the byte length, and Go's [int] is a 64-bit two's complement integer
    carried in [Z] with its wrap-around written out where the program does
    arithmetic. *)

From Stdlib Require Import ZArith List Ascii String Lia Bool.
From stdpp Require Import base option list gmap sorting.

Local Open Scope Z_scope.

(* ===================================================================== *)
(** ** Go strings *)
(* ===================================================================== *)

Abbreviation gostring := (list ascii).

(** A string literal of the source. *)
Definition str (s : string) : gostring := list_ascii_of_string s.

(** [len(s)]: the number of bytes, a Go [int]. *)
Definition len (s : gostring) : Z := Z.of_nat (length s).

(** [s[:n]]: Go panics unless [0 <= n <= len(s)]; the panic is [None]. *)
Definition slice_to (s : gostring) (n : Z) : option gostring :=
  if (0 <=? n) && (n <=? len s) then Some (take (Z.to_nat n) s) else None.

(** [strings.ReplaceAll(s, old, new)] for a one-byte [old] and a one-byte
    [new], the only way the program calls it: every occurrence of the byte
    is substituted in place. *)
Definition ReplaceAll (s : gostring) (old new : ascii) : gostring :=
  map (fun c => if Ascii.eqb c old then new else c) s.

(** [re.ReplaceAllString(s, "")] for a pattern of the shape [[class]+]:
    every maximal run of bytes of the class is deleted, which leaves exactly
    the bytes outside the class.  Both classes of the program are decided
    on single bytes: one is a set of ASCII characters, the other the
    complement of one, so every byte of a multi-byte (or broken) UTF-8
    sequence falls in the complement as a whole. *)
Definition ReplaceAllString_empty (class : ascii -> bool) (s : gostring) : gostring :=
  List.filter (fun c => negb (class c)) s.

Definition code (c : ascii) : Z := Z.of_N (N_of_ascii c).

Definition in_range (lo hi : Z) (c : ascii) : bool :=
  (lo <=? code c) && (code c <=? hi).

(** The class of [[\\\/\?\*\[\]:]+]. *)
Definition sheet_forbidden (c : ascii) : bool :=
  existsb (Ascii.eqb c) (str "\/?*[]:").

(** The class of [[^a-zA-Z0-9_]+]. *)
Definition word_char (c : ascii) : bool :=
  in_range 97 122 c || in_range 65 90 c || in_range 48 57 c || Ascii.eqb c "_".
Definition not_word_char (c : ascii) : bool := negb (word_char c).

(* ===================================================================== *)
(** ** Go integers and their decimal text *)
(* ===================================================================== *)

Definition min_int : Z := - 2 ^ 63.
Definition max_int : Z := 2 ^ 63 - 1.

(** Two's complement wrap-around of a 64-bit [int] result. *)
Definition wrap (z : Z) : Z := (z + 2 ^ 63) mod 2 ^ 64 - 2 ^ 63.

Definition is_int (z : Z) : Prop := min_int <= z <= max_int.

Definition digit_char (d : Z) : ascii := ascii_of_N (Z.to_N (48 + d)).

(** The digits of a non-negative number, least significant first: the loop
    of [strconv]'s [formatBits], which emits [u mod 10] and goes on with
    [u / 10] while [u >= 10]. *)
Fixpoint digits_le (fuel : nat) (u : Z) : list Z :=
  match fuel with
  | O => []
  | S fuel' => (u mod 10) :: (if u <? 10 then [] else digits_le fuel' (u / 10))
  end.

(** The number a list of decimal digits stands for, least significant
    first. *)
Definition value_le (ds : list Z) : Z := fold_right (fun d v => d + 10 * v) 0 ds.

(** The binary size of [u] is room enough for its decimal digits. *)
Definition digit_fuel (u : Z) : nat := S (Z.to_nat (Z.log2 u)).

Definition utoa (u : Z) : gostring :=
  map digit_char (rev (digits_le (digit_fuel u) u)).

(** [strconv.Itoa(z)], which is also what [%d] of [fmt.Sprintf] and [%v] of
    an integer print. *)
Definition Itoa (z : Z) : gostring :=
  if z <? 0 then "-"%char :: utoa (- z) else utoa z.

Definition is_digit (c : ascii) : bool := in_range 48 57 c.

(** The characters [%d] can print. *)
Definition decimal_char (c : ascii) : bool := is_digit c || Ascii.eqb c "-".

(** The value of a run of decimal digits, read left to right; [None] at a
    byte that is no digit. *)
Fixpoint digits_value (acc : Z) (s : gostring) : option Z :=
  match s with
  | [] => Some acc
  | c :: s' => if is_digit c then digits_value (acc * 10 + (code c - 48)) s' else None
  end.

(** [strconv.Atoi(s)]: an optional sign, then at least one digit and nothing
    but digits; a value outside [int] is an error as well. *)
Definition Atoi (s : gostring) : option Z :=
  let '(neg, body) :=
    match s with
    | c :: s' => if Ascii.eqb c "-" then (true, s')
                 else if Ascii.eqb c "+" then (false, s') else (false, s)
    | [] => (false, [])
    end in
  match body with
  | [] => None
  | _ =>
    match digits_value 0 body with
    | Some v =>
      let z := if neg then - v else v in
      if (min_int <=? z) && (z <=? max_int) then Some z else None
    | None => None
    end
  end.

(* ===================================================================== *)
(** ** The name sanitizer *)
(* ===================================================================== *)

(** The first statements of [createFileName] (both CSV revisions): spaces
    become underscores, then everything outside [[a-zA-Z0-9_]] goes. *)
Definition clean_file_query_name (queryName : gostring) : gostring :=
  let queryName := ReplaceAll queryName " " "_" in
  ReplaceAllString_empty not_word_char queryName.

(** The first statements of [createSheetName]: as above, with the pass over
    the characters Excel refuses in between. *)
Definition clean_sheet_query_name (queryName : gostring) : gostring :=
  let queryName := ReplaceAll queryName " " "_" in
  let queryName := ReplaceAllString_empty sheet_forbidden queryName in
  ReplaceAllString_empty not_word_char queryName.

(** [createSheetName] of revision 2.0.0.  [None] is a slice panic. *)
Definition createSheetName (index : Z) (queryName : gostring) : option gostring :=
  let queryName := clean_sheet_query_name queryName in
  let sheetName := Itoa index ++ str "_" ++ queryName in
  if 31 <? len sheetName then
    let indexPart := Itoa index ++ str "_" in
    let maxNameLength := 31 - len indexPart in
    if 0 <? maxNameLength then
      name ← slice_to queryName maxNameLength;
      Some (indexPart ++ name)
    else
      let sheetName := Itoa index in
      if 31 <? len sheetName then slice_to sheetName 31 else Some sheetName
  else Some sheetName.

(** [createFileName], the same text in both CSV revisions. *)
Definition createFileName (index : Z) (queryName : gostring) : gostring :=
  let queryName := clean_file_query_name queryName in
  Itoa index ++ str "_" ++ queryName ++ str ".csv".

(* ===================================================================== *)
(** ** Database values and their text *)
(* ===================================================================== *)

(** What [rows.Scan] stores behind an [*interface{}]: [nil] for a database
    NULL, a byte slice, or another scalar.  A float or a time is carried by
    the text [%v] prints for it, which the program neither inspects nor
    changes. *)
Inductive Value :=
| VNil
| VBytes (b : gostring)
| VString (s : gostring)
| VInt (z : Z)
| VBool (b : bool)
| VOther (text : gostring).

Fixpoint join_space (l : list gostring) : gostring :=
  match l with
  | [] => []
  | [x] => x
  | x :: l' => x ++ str " " ++ join_space l'
  end.

(** [fmt.Sprintf("%v", v)]. *)
Definition Sprintf_v (v : Value) : gostring :=
  match v with
  | VNil => str "<nil>"
  | VBytes b => str "[" ++ join_space (map (fun c => Itoa (code c)) b) ++ str "]"
  | VString s => s
  | VInt z => Itoa z
  | VBool b => if b then str "true" else str "false"
  | VOther text => text
  end.

(** [strings.ReplaceAll(strings.ReplaceAll(s, "\n", " "), "\r", " ")]. *)
Definition LF : ascii := ascii_of_N 10.
Definition CR : ascii := ascii_of_N 13.
Definition clean_newlines (s : gostring) : gostring :=
  ReplaceAll (ReplaceAll s LF " ") CR " ".

(** The database as the program sees it: [db.Query] either fails or hands
    back a cursor, whose [Columns], successive [Next]/[Scan] and final [Err]
    are listed in [ResultSet]; the connection state is threaded through. *)
Record ResultSet := {
  rs_columns : gostring + list gostring;       (* rows.Columns(): inl is err *)
  rs_rows : list (gostring + list Value);      (* per rows.Next(): the row, or the error of its Scan *)
  rs_err : option gostring                     (* rows.Err() *)
}.

(** [rows.Scan(values...)] into [ncols] destinations of type
    [*interface{}]: it fails on a driver error and on a row of another
    width. *)
Definition Scan (ncols : nat) (r : gostring + list Value) : gostring + list Value :=
  match r with
  | inl err => inl err
  | inr vs =>
    if Nat.eqb (length vs) ncols then inr vs
    else inl (str "sql: expected " ++ Itoa (Z.of_nat (length vs)) ++
              str " destination arguments in Scan, not " ++ Itoa (Z.of_nat ncols))
  end.

(** The catalog. *)
Record Query := {
  q_Name : gostring;
  q_Description : gostring;
  q_Query : gostring;
  q_Notes : gostring
}.

(** [for i, x := range l { s = body(i, x, s) }]. *)
Fixpoint range_from {A St : Type} (body : Z -> A -> St -> St) (i : Z) (l : list A) (s : St) : St :=
  match l with
  | [] => s
  | x :: l' => range_from body (i + 1) l' (body i x s)
  end.
Definition for_range {A St : Type} (body : Z -> A -> St -> St) (l : list A) (s : St) : St :=
  range_from body 0 l s.

(* ===================================================================== *)
(** ** The workbook *)
(* ===================================================================== *)

(** The spreadsheet writer is an external collaborator.  The model keeps
    what the program relies on: a workbook is an ordered list of named
    sheets, a sheet a finite map from (column, row) to a value; [NewFile]
    holds the one sheet [Sheet1]; [NewSheet] appends a sheet unless the
    name is taken or is no worksheet name; [SetSheetName] renames under the
    same conditions; [SetCellValue] writes into the sheet of that name, if
    any.  The program drops the errors of all three, so a refused call
    leaves the workbook as it was.  A worksheet name has 1 to 31
    characters, none of them one of [\ / ? * [ ] :] (the limits
    [createSheetName] quotes), and no single quote at either end; the
    names the program makes are ASCII, so that characters are bytes.  The
    writer's limits on rows, columns and cell sizes are outside the
    model. *)
Inductive CellValue :=
| CellStr (s : gostring)
| CellInt (z : Z).

Record Sheet := {
  sheet_name : gostring;
  sheet_cells : gmap (Z * Z) CellValue
}.

Abbreviation File := (list Sheet).

Definition name_eqb (a b : gostring) : bool := bool_decide (a = b).

Definition has_sheet (name : gostring) (f : File) : bool :=
  existsb (fun s => name_eqb (sheet_name s) name) f.

Definition valid_sheet_name (name : gostring) : bool :=
  (1 <=? len name) && (len name <=? 31)
  && negb (bool_decide (head name = Some "'"%char))
  && negb (bool_decide (last name = Some "'"%char))
  && forallb (fun c => negb (sheet_forbidden c)) name.

Definition NewFile : File := [ {| sheet_name := str "Sheet1"; sheet_cells := ∅ |} ].

Definition NewSheet (name : gostring) (f : File) : File :=
  if valid_sheet_name name && negb (has_sheet name f)
  then f ++ [ {| sheet_name := name; sheet_cells := ∅ |} ]
  else f.

Definition SetSheetName (source target : gostring) (f : File) : File :=
  if negb (valid_sheet_name target) || has_sheet target f then f
  else map (fun s => if name_eqb (sheet_name s) source
                     then {| sheet_name := target; sheet_cells := sheet_cells s |}
                     else s) f.

Definition SetCellValue (sheet : gostring) (cell : Z * Z) (v : CellValue) (f : File) : File :=
  map (fun s => if name_eqb (sheet_name s) sheet
                then {| sheet_name := sheet_name s; sheet_cells := <[cell := v]> (sheet_cells s) |}
                else s) f.

(** Reading back: the sheet of a name, and one of its cells. *)
Definition get_sheet (name : gostring) (f : File) : option Sheet :=
  List.find (fun s => name_eqb (sheet_name s) name) f.

Definition GetCellValue (sheet : gostring) (cell : Z * Z) (f : File) : option CellValue :=
  s ← get_sheet sheet f; sheet_cells s !! cell.

(* ===================================================================== *)
(** ** Files and sorting *)
(* ===================================================================== *)

(** A CSV file is kept as the records handed to the [csv.Writer] that
    wrote it.  A directory lists its files by name. *)
Abbreviation CsvRecord := (list gostring).
Abbreviation Dir := (list (gostring * list CsvRecord)).

Definition file_exists (name : gostring) (d : Dir) : bool :=
  existsb (fun e => name_eqb (fst e) name) d.

(** [os.Open(name)]: the content of the file, [None] when there is no
    such file. *)
Definition read_file (name : gostring) (d : Dir) : option (list CsvRecord) :=
  snd <$> List.find (fun e => name_eqb (fst e) name) d.

(** [os.Create], then the records flushed into the file: an existing file
    of that name is truncated and rewritten. *)
Definition write_file (name : gostring) (records : list CsvRecord) (d : Dir) : Dir :=
  if file_exists name d
  then map (fun e => if name_eqb (fst e) name then (name, records) else e) d
  else d ++ [(name, records)].

(** The CSV codec is an external collaborator, and it does not give back
    everything it was given.  [csv.Writer] writes a record without a field
    and a record of one empty field as an empty line, and [csv.Reader]
    skips empty lines; the reader turns a carriage return that is followed
    by a line feed inside a field into the line feed alone; and it fails
    when the records it is left with differ in their number of fields
    (its [FieldsPerRecord] is 0, so the first record sets the number).
    Everything else comes back as it was written. *)
Definition blank_record (record : CsvRecord) : bool :=
  match record with
  | [] => true
  | [[]] => true
  | _ => false
  end.

Fixpoint crlf_to_lf (s : gostring) : gostring :=
  match s with
  | c1 :: ((c2 :: s'') as s') =>
    if Ascii.eqb c1 CR && Ascii.eqb c2 LF then LF :: crlf_to_lf s''
    else c1 :: crlf_to_lf s'
  | _ => s
  end.

(** [csv.NewReader(file).ReadAll()] on a file written from the given
    records; [None] is the error. *)
Definition ReadAll (written : list CsvRecord) : option (list CsvRecord) :=
  let records := map (map crlf_to_lf)
                     (List.filter (fun record => negb (blank_record record)) written) in
  match records with
  | [] => Some []
  | first :: _ =>
    if forallb (fun record => Nat.eqb (length record) (length first)) records
    then Some records else None
  end.

(** [os.Open] and [ReadAll] as the merge does them, one after the other:
    the records read, [None] when the file is not there or cannot be
    read. *)
Definition read_records (name : gostring) (d : Dir) : option (list CsvRecord) :=
  read_file name d ≫= ReadAll.

(** [a < b] on strings: bytewise lexicographic. *)
Fixpoint string_lt (a b : gostring) : bool :=
  match a, b with
  | _, [] => false
  | [], _ :: _ => true
  | x :: a', y :: b' =>
    if code x <? code y then true
    else if code y <? code x then false
    else string_lt a' b'
  end.

(** A stable sort by [less]: each element goes behind the ones that are
    less than it or tie with it.  This is what [sort.SliceStable] returns
    whenever [less] orders the elements at hand. *)
Fixpoint insert_sorted {A : Type} (less : A -> A -> bool) (x : A) (l : list A) : list A :=
  match l with
  | [] => [x]
  | y :: l' => if less x y then x :: y :: l' else y :: insert_sorted less x l'
  end.
Definition SliceStable {A : Type} (less : A -> A -> bool) (l : list A) : list A :=
  foldl (fun sorted x => insert_sorted less x sorted) [] l.

(** [os.ReadDir(".")]: the entries sorted by file name. *)
Definition ReadDir (d : Dir) : list gostring :=
  SliceStable string_lt (map fst d).

Definition HasSuffix (s suffix : gostring) : bool :=
  bool_decide (drop (length s - length suffix) s = suffix).

Definition TrimSuffix (s suffix : gostring) : gostring :=
  if HasSuffix s suffix then take (length s - length suffix) s else s.

(** [strings.SplitN(s, "_", 2)[0]]: what stands before the first
    underscore, the whole of [s] when it has none. *)
Fixpoint before_underscore (s : gostring) : gostring :=
  match s with
  | [] => []
  | c :: s' => if Ascii.eqb c "_" then [] else c :: before_underscore s'
  end.

(** What a CSV run owns: the working directory, the log, the connection. *)
Record CsvWorld (DB : Type) := {
  dir : Dir;
  csv_logged : list gostring;
  csv_conn : DB
}.
Arguments dir {DB} _.
Arguments csv_logged {DB} _.
Arguments csv_conn {DB} _.

Section CsvQuery.
Context {DB : Type}.
Variable db_Query : DB -> gostring -> (gostring + ResultSet) * DB.
(** [os.Create(name)] in the working directory: whether the file system
    lets the program create, or truncate, a file of that name.  What it
    refuses is the file system's business (the empty name, a name longer
    than it allows, a directory that may not be written), so the answer
    is a parameter of the run, as the answers of the database are. *)
Variable creatable : gostring -> bool.
(** The conversion of one scanned value, the one place where the two CSV
    revisions of [executeQuery] differ. *)
Variable render : Value -> gostring.

(** The loop over [rows.Next()]: the records written and the lines logged. *)
Fixpoint csv_rows (ncols : nat) (rows : list (gostring + list Value))
    : list CsvRecord * list gostring :=
  match rows with
  | [] => ([], [])
  | r :: rows' =>
    let '(records, lines) := csv_rows ncols rows' in
    match Scan ncols r with
    | inl err => (records, (str "Failed to scan row: " ++ err) :: lines)
    | inr values => (map render values :: records, lines)
    end
  end.

(** [executeQuery(db, query, fileName)] of the CSV revisions; [None] is
    [log.Fatalf], which ends the process: when the database refuses the
    statement, and when the file cannot be created. *)
Definition csv_executeQuery (query fileName : gostring) (w : CsvWorld DB)
    : option (CsvWorld DB) :=
  let '(rows, db) := db_Query (csv_conn w) query in
  match rows with
  | inl err => None
  | inr rows =>
    if negb (creatable fileName) then None else
    match rs_columns rows with
    | inl err =>
      Some {| dir := write_file fileName [] (dir w);
              csv_logged := csv_logged w ++ [str "Failed to get columns: " ++ err];
              csv_conn := db |}
    | inr columns =>
      let '(records, lines) := csv_rows (length columns) (rs_rows rows) in
      let lines := lines ++ match rs_err rows with
                            | Some err => [str "Error occurred during row iteration: " ++ err]
                            | None => []
                            end in
      Some {| dir := write_file fileName (columns :: records) (dir w);
              csv_logged := csv_logged w ++ lines;
              csv_conn := db |}
    end
  end.

End CsvQuery.

(** What one run owns: the workbook under construction, the lines written
    with [log.Printf], and the connection. *)
Record World (DB : Type) := {
  xlsx : File;
  logged : list gostring;
  conn : DB
}.
Arguments xlsx {DB} _.
Arguments logged {DB} _.
Arguments conn {DB} _.

Definition log_Printf {DB : Type} (line : gostring) (w : World DB) : World DB :=
  {| xlsx := xlsx w; logged := logged w ++ [line]; conn := conn w |}.

Definition on_xlsx {DB : Type} (g : File -> File) (w : World DB) : World DB :=
  {| xlsx := g (xlsx w); logged := logged w; conn := conn w |}.

(** One minute, in the nanoseconds of [time.Duration]. *)
Definition Minute : Z := 60000000000.

(** The events of the repeat schedule of [main]. *)
Inductive Event :=
| Executes                 (* one call of executeSQLQueriesAndCreateExcel *)
| Sleeps (nanoseconds : Z) (* one call of time.Sleep *).

(* ===================================================================== *)
(** ** Revision 2.0.0: straight into the workbook *)
(* ===================================================================== *)

Module DirectExcel.

(** The value written for one scanned cell, lines 429-439. *)
Definition render_cell (v : Value) : gostring :=
  match v with
  | VNil => str "NULL"
  | VBytes b => clean_newlines b
  | _ => clean_newlines (Sprintf_v v)
  end.

Section Run.
Context {DB : Type}.
(** [db.Query(query)]: [inl] is the error. *)
Variable db_Query : DB -> gostring -> (gostring + ResultSet) * DB.

(** The loop over [rows.Next()]: a row that fails to scan is logged and
    skipped, and [rowIndex] moves on only after a row was written. *)
Fixpoint write_rows (sheetName : gostring) (ncols : nat)
    (rows : list (gostring + list Value)) (rowIndex : Z) (w : World DB) : World DB :=
  match rows with
  | [] => w
  | r :: rows' =>
    match Scan ncols r with
    | inl err =>
      write_rows sheetName ncols rows' rowIndex
        (log_Printf (str "Failed to scan row: " ++ err) w)
    | inr values =>
      let w := on_xlsx (for_range (fun colIndex val f =>
                  SetCellValue sheetName (colIndex + 1, rowIndex)
                               (CellStr (render_cell val)) f) values) w in
      write_rows sheetName ncols rows' (rowIndex + 1) w
    end
  end.

(** [executeQueryToExcel]: the returned error, and the world after it. *)
Definition executeQueryToExcel (query sheetName : gostring) (w : World DB)
    : option gostring * World DB :=
  let '(rows, db) := db_Query (conn w) query in
  let w := {| xlsx := xlsx w; logged := logged w; conn := db |} in
  match rows with
  | inl err => (Some (str "failed to execute query: " ++ err), w)
  | inr rows =>
    let w := on_xlsx (NewSheet sheetName) w in
    match rs_columns rows with
    | inl err => (Some (str "failed to get columns: " ++ err), w)
    | inr columns =>
      let w := on_xlsx (for_range (fun colIndex colName f =>
                  SetCellValue sheetName (colIndex + 1, 1) (CellStr colName) f) columns) w in
      let w := write_rows sheetName (length columns) (rs_rows rows) 2 w in
      match rs_err rows with
      | Some err => (Some (str "error occurred during row iteration: " ++ err), w)
      | None => (None, w)
      end
    end
  end.

Definition executedQueriesSheetName : gostring := str "executed_queries".

(** The index sheet, lines 223-240. *)
Definition write_executed_queries (queries : list Query) (f : File) : File :=
  let f := SetSheetName (str "Sheet1") executedQueriesSheetName f in
  let f := SetCellValue executedQueriesSheetName (1, 1) (CellStr (str "Sr.No")) f in
  let f := SetCellValue executedQueriesSheetName (2, 1) (CellStr (str "Query")) f in
  let f := SetCellValue executedQueriesSheetName (3, 1) (CellStr (str "Query Notes")) f in
  for_range (fun i query f =>
     let rowNum := i + 2 in
     let f := SetCellValue executedQueriesSheetName (1, rowNum) (CellInt (i + 1)) f in
     let f := SetCellValue executedQueriesSheetName (2, rowNum) (CellStr (q_Query query)) f in
     SetCellValue executedQueriesSheetName (3, rowNum) (CellStr (q_Notes query)) f)
    queries f.

(** The loop of lines 243-255 from position [i] on: one sheet per query; a
    failed query is logged and the loop goes on.  [None] is a panic of
    [createSheetName]. *)
Fixpoint execute_queries (i : Z) (queries : list Query) (w : World DB) : option (World DB) :=
  match queries with
  | [] => Some w
  | query :: queries' =>
    sheetName ← createSheetName (i + 1) (q_Name query);
    let '(err, w) := executeQueryToExcel (q_Query query) sheetName w in
    let w := match err with
             | Some err => log_Printf (str "Failed to execute query " ++ q_Name query
                                        ++ str ": " ++ err) w
             | None => w
             end in
    execute_queries (i + 1) queries' w
  end.

(** [executeSQLQueriesAndCreateExcel] between [readQueries] and [f.SaveAs]:
    the configuration, the connection and the catalog are there (the
    program stops before this point otherwise), and the world returned is
    the one whose workbook is saved. *)
Definition executeSQLQueriesAndCreateExcel (db : DB) (queries : list Query)
    : option (World DB) :=
  let f := NewFile in
  let f := write_executed_queries queries f in
  execute_queries 0 queries {| xlsx := f; logged := []; conn := db |}.

End Run.

(** The repeat loop of [main], lines 158-166, from [i] on. *)
Fixpoint iterations (fuel : nat) (i totalIterations interval : Z) : list Event :=
  match fuel with
  | O => []
  | S fuel' =>
    if i <? totalIterations then
      Executes ::
      (if i <? wrap (totalIterations - 1)
       then [Sleeps (wrap (interval * Minute))] else [])
      ++ iterations fuel' (wrap (i + 1)) totalIterations interval
    else []
  end.

(** Lines 153-173 of [main]: what happens once the operator has confirmed.
    [interval] and [duration] are the parsed flags, Go [int]s. *)
Definition schedule (interval duration : Z) : list Event :=
  if (0 <? interval) && (0 <? duration) then
    let totalIterations := Z.quot (wrap (duration * 60)) interval in
    iterations (Z.to_nat totalIterations) 0 totalIterations interval
  else [Executes].

(** [strings.ToLower] on the ASCII letters, which are all that can make
    the answer equal to ["yes"]. *)
Definition ToLower (s : gostring) : gostring :=
  map (fun c => if in_range 65 90 c then ascii_of_N (N_of_ascii c + 32) else c) s.

(** [main]: nothing runs unless the line typed at the prompt is "yes". *)
Definition main (confirmation : gostring) (interval duration : Z) : list Event :=
  if bool_decide (ToLower confirmation = str "yes") then schedule interval duration
  else [].

End DirectExcel.

(* ===================================================================== *)
(** ** The first revision: CSV files only *)
(* ===================================================================== *)

Module CsvOnly.

(** Line 176: every value goes through [%v]. *)
Definition render_field (v : Value) : gostring :=
  clean_newlines (Sprintf_v v).

Definition executeQuery {DB : Type} (db_Query : DB -> gostring -> (gostring + ResultSet) * DB)
    (creatable : gostring -> bool) :=
  csv_executeQuery db_Query creatable render_field.

End CsvOnly.

(* ===================================================================== *)
(** ** app.go: CSV files staged, then merged into the workbook *)
(* ===================================================================== *)

Module CsvStaging.

Definition executed_queries : gostring := str "executed_queries.csv".

(** Lines 553-560. *)
Definition render_field (v : Value) : gostring :=
  match v with
  | VNil => str "NULL"
  | VBytes b => clean_newlines b
  | _ => clean_newlines (Sprintf_v v)
  end.

Section Run.
Context {DB : Type}.
Variable db_Query : DB -> gostring -> (gostring + ResultSet) * DB.
Variable creatable : gostring -> bool.

Definition executeQuery := csv_executeQuery db_Query creatable render_field.

(** The loop of [executeSQLQueries] from position [i] on, with the records
    handed to the writer of [executed_queries.csv] so far. *)
Fixpoint stage_queries (i fileCounter : Z) (queries : list Query)
    (index : list CsvRecord) (w : CsvWorld DB) : option (list CsvRecord * CsvWorld DB) :=
  match queries with
  | [] => Some (index, w)
  | query :: queries' =>
    let index := index ++ [[Itoa (i + 1); q_Query query; q_Notes query]] in
    let fileName := createFileName fileCounter (q_Name query) in
    w ← executeQuery (q_Query query) fileName w;
    stage_queries (i + 1) (wrap (fileCounter + 1)) queries' index w
  end.

(** [executeSQLQueries] inside the fresh temporary directory, from the
    creation of [executed_queries.csv] to the deferred [writer.Flush];
    [None] is [log.Fatalf], after which nothing is flushed and no workbook
    is made. *)
Definition executeSQLQueries (db : DB) (queries : list Query) : option (CsvWorld DB) :=
  if negb (creatable executed_queries) then None else
  let w := {| dir := write_file executed_queries [] []; csv_logged := []; csv_conn := db |} in
  let index := [[str "Sr.No"; str "Query"; str "Query Notes"]] in
  '(index, w) ← stage_queries 0 1 queries index w;
  Some {| dir := write_file executed_queries index (dir w);
          csv_logged := csv_logged w; csv_conn := csv_conn w |}.

End Run.

(** The comparison handed to [sort.SliceStable]. *)
Definition less (a b : gostring) : bool :=
  match Atoi (before_underscore a), Atoi (before_underscore b) with
  | Some iPrefix, Some jPrefix => iPrefix <? jPrefix
  | _, _ => string_lt a b
  end.

(** The order in which [createExcelFromCSV] takes the files it found. *)
Definition sortedFiles (files : list gostring) : list gostring :=
  let csvFiles := List.filter (fun file => HasSuffix file (str ".csv")) files in
  let otherFiles := List.filter (fun file => negb (name_eqb file (str "executed_queries.csv"))) csvFiles in
  let otherFiles := SliceStable less otherFiles in
  str "executed_queries.csv" :: otherFiles.

(** The body of the loop over [sortedFiles]: a file that cannot be opened
    and a file that cannot be read are reported and skipped. *)
Definition add_sheet (d : Dir) (i : Z) (csvFile : gostring) (f : File) : File :=
  match read_records csvFile d with
  | None => f
  | Some rows =>
    let sheetName := TrimSuffix csvFile (str ".csv") in
    let f := if i =? 0 then SetSheetName (str "Sheet1") sheetName f
             else NewSheet sheetName f in
    for_range (fun rowIndex row f =>
      for_range (fun colIndex cellValue f =>
        SetCellValue sheetName (colIndex + 1, rowIndex + 1) (CellStr cellValue) f) row f)
      rows f
  end.

(** [createExcelFromCSV]: the workbook that is saved. *)
Definition createExcelFromCSV (d : Dir) : File :=
  for_range (add_sheet d) (sortedFiles (ReadDir d)) NewFile.

End CsvStaging.

(* ===================================================================== *)
(** ** What a run leaves behind, sheet by sheet *)
(* ===================================================================== *)

(** From here on nothing is program text any more: these definitions say
    what a run is expected to leave, cell by cell and line by line, and the
    properties below relate them to the functions above. *)

Definition sheet_names (f : File) : list gostring := map sheet_name f.

(** The rows that [Scan] accepts, in order. *)
Definition scanned_rows (ncols : nat) (rows : list (gostring + list Value)) : list (list Value) :=
  omap (fun r => match Scan ncols r with inr values => Some values | inl _ => None end) rows.

(** The cell a result sheet is expected to hold at (column, row): row 1 is
    the header, row [k + 2] the [k]-th scanned row, rendered. *)
Definition expected_cell (columns : list gostring) (rows : list (list Value))
    (cell : Z * Z) : option CellValue :=
  let '(c, r) := cell in
  if 1 <=? c then
    if r =? 1 then CellStr <$> columns !! Z.to_nat (c - 1)
    else if 2 <=? r then
      values ← rows !! Z.to_nat (r - 2);
      (fun v => CellStr (DirectExcel.render_cell v)) <$> values !! Z.to_nat (c - 1)
    else None
  else None.

(** The cell the index sheet is expected to hold: row 1 is the fixed
    header, row [i + 2] lists position [i + 1], its statement, its notes. *)
Definition expected_index_cell (queries : list Query) (cell : Z * Z) : option CellValue :=
  let '(c, r) := cell in
  if r =? 1 then
    if c =? 1 then Some (CellStr (str "Sr.No"))
    else if c =? 2 then Some (CellStr (str "Query"))
    else if c =? 3 then Some (CellStr (str "Query Notes"))
    else None
  else if 2 <=? r then
    query ← queries !! Z.to_nat (r - 2);
    if c =? 1 then Some (CellInt (r - 1))
    else if c =? 2 then Some (CellStr (q_Query query))
    else if c =? 3 then Some (CellStr (q_Notes query))
    else None
  else None.

(** The cells the loops of [executeQueryToExcel] write, as maps. *)
Definition header_cells (columns : list gostring) (m : gmap (Z * Z) CellValue)
    : gmap (Z * Z) CellValue :=
  for_range (fun colIndex colName m => <[(colIndex + 1, 1) := CellStr colName]> m) columns m.

Definition row_cells (rowIndex : Z) (values : list Value) (m : gmap (Z * Z) CellValue)
    : gmap (Z * Z) CellValue :=
  for_range (fun colIndex val m =>
     <[(colIndex + 1, rowIndex) := CellStr (DirectExcel.render_cell val)]> m) values m.

Fixpoint data_cells (ncols : nat) (rows : list (gostring + list Value)) (rowIndex : Z)
    (m : gmap (Z * Z) CellValue) : gmap (Z * Z) CellValue :=
  match rows with
  | [] => m
  | r :: rows' =>
    match Scan ncols r with
    | inl _ => data_cells ncols rows' rowIndex m
    | inr values => data_cells ncols rows' (rowIndex + 1) (row_cells rowIndex values m)
    end
  end.

Fixpoint scan_log (ncols : nat) (rows : list (gostring + list Value)) : list gostring :=
  match rows with
  | [] => []
  | r :: rows' =>
    match Scan ncols r with
    | inl err => (str "Failed to scan row: " ++ err) :: scan_log ncols rows'
    | inr _ => scan_log ncols rows'
    end
  end.

Definition result_cells (rows : ResultSet) : gmap (Z * Z) CellValue :=
  match rs_columns rows with
  | inl _ => ∅
  | inr columns => data_cells (length columns) (rs_rows rows) 2 (header_cells columns ∅)
  end.

Definition result_log (rows : ResultSet) : list gostring :=
  match rs_columns rows with
  | inl _ => []
  | inr columns => scan_log (length columns) (rs_rows rows)
  end.

(** The error [executeQueryToExcel] returns for a result of [db.Query]. *)
Definition result_error (r : gostring + ResultSet) : option gostring :=
  match r with
  | inl err => Some (str "failed to execute query: " ++ err)
  | inr rows =>
    match rs_columns rows with
    | inl err => Some (str "failed to get columns: " ++ err)
    | inr _ =>
      match rs_err rows with
      | Some err => Some (str "error occurred during row iteration: " ++ err)
      | None => None
      end
    end
  end.

(** The lines one catalog entry adds to the log. *)
Definition entry_log (query : Query) (r : gostring + ResultSet) : list gostring :=
  match r with inl _ => [] | inr rows => result_log rows end
  ++ match result_error r with
     | Some err => [str "Failed to execute query " ++ q_Name query ++ str ": " ++ err]
     | None => []
     end.

Definition index_cells (queries : list Query) : gmap (Z * Z) CellValue :=
  for_range (fun i query m =>
     let rowNum := i + 2 in
     <[(3, rowNum) := CellStr (q_Notes query)]>
       (<[(2, rowNum) := CellStr (q_Query query)]>
          (<[(1, rowNum) := CellInt (i + 1)]> m)))
    queries
    (<[(3, 1) := CellStr (str "Query Notes")]>
       (<[(2, 1) := CellStr (str "Query")]>
          (<[(1, 1) := CellStr (str "Sr.No")]> ∅))).

Definition index_sheet (queries : list Query) : Sheet :=
  {| sheet_name := DirectExcel.executedQueriesSheetName; sheet_cells := index_cells queries |}.

(** The sheets the catalog adds from position [i] on, given what
    [db.Query] returned entry by entry: one per statement that executed. *)
Fixpoint result_sheets (i : Z) (queries : list Query) (results : list (gostring + ResultSet))
    : list Sheet :=
  match queries, results with
  | query :: queries', r :: results' =>
    match r, createSheetName (i + 1) (q_Name query) with
    | inr rows, Some sheetName =>
      [ {| sheet_name := sheetName; sheet_cells := result_cells rows |} ]
    | _, _ => []
    end ++ result_sheets (i + 1) queries' results'
  | _, _ => []
  end.

Fixpoint run_log (queries : list Query) (results : list (gostring + ResultSet)) : list gostring :=
  match queries, results with
  | query :: queries', r :: results' => entry_log query r ++ run_log queries' results'
  | _, _ => []
  end.

Section Results.
Context {DB : Type}.
Variable db_Query : DB -> gostring -> (gostring + ResultSet) * DB.

(** What [db.Query] returns along the catalog, one call per entry, and the
    connection after the last call. *)
Fixpoint query_results (queries : list Query) (db : DB) : list (gostring + ResultSet) :=
  match queries with
  | [] => []
  | query :: queries' =>
    let '(r, db) := db_Query db (q_Query query) in r :: query_results queries' db
  end.

Fixpoint final_conn (queries : list Query) (db : DB) : DB :=
  match queries with
  | [] => db
  | query :: queries' => final_conn queries' (snd (db_Query db (q_Query query)))
  end.

End Results.

Definition executed (r : gostring + ResultSet) : bool :=
  match r with inr _ => true | inl _ => false end.

(** How many of the first [k] statements executed. *)
Definition executed_before (k : nat) (results : list (gostring + ResultSet)) : nat :=
  length (List.filter executed (take k results)).

(** The line logged for a statement that failed with [err]. *)
Definition failure_line (query : Query) (err : gostring) : gostring :=
  str "Failed to execute query " ++ q_Name query ++ str ": "
  ++ str "failed to execute query: " ++ err.

(** [f i x] for each [x] of [l], where [i] counts up from the given start:
    what a [for i, x := range] loop appends in turn. *)
Fixpoint map_range {A B : Type} (f : Z -> A -> B) (i : Z) (l : list A) : list B :=
  match l with
  | [] => []
  | x :: l' => f i x :: map_range f (i + 1) l'
  end.

(** The records [executed_queries.csv] is expected to hold. *)
Definition expected_index_records (queries : list Query) : list CsvRecord :=
  [str "Sr.No"; str "Query"; str "Query Notes"]
  :: map_range (fun i query => [Itoa (i + 1); q_Query query; q_Notes query]) 0 queries.

(** The staging files of the catalog, and the sheets they become. *)
Definition staged_files (queries : list Query) : list gostring :=
  map_range (fun i query => createFileName (i + 1) (q_Name query)) 0 queries.

Definition staged_sheet_name (i : Z) (query : Query) : gostring :=
  Itoa (i + 1) ++ str "_" ++ clean_file_query_name (q_Name query).

(** The number in front of a staging name, 0 when there is none. *)
Definition file_key (name : gostring) : Z :=
  match Atoi (before_underscore name) with Some k => k | None => 0 end.

(** A file name no entry from position [j] on can be given. *)
Definition file_foreign_from (j : Z) (name : gostring) : Prop :=
  forall k queryName, j <= k -> k <= max_int -> createFileName k queryName <> name.

(** The order of keys, on the things that carry them. *)
Definition key_le {A : Type} (key : A -> Z) (a b : A) : Prop := key a <= key b.

(** A byte that may stand anywhere in a worksheet name. *)
Definition sheet_safe (c : ascii) : bool :=
  negb (sheet_forbidden c) && negb (Ascii.eqb c "'").

(** A sheet name no entry from position [i] on can be given. *)
Definition foreign_from (i : Z) (name : gostring) : Prop :=
  forall j queryName, i <= j -> j + 1 <= max_int ->
    createSheetName (j + 1) queryName <> Some name.

(* ===================================================================== *)
(** ** A small database to run the model on *)
(* ===================================================================== *)

(** The result set [[{"X": 5}]]. *)
Definition sample_result : ResultSet :=
  {| rs_columns := inr [str "X"]; rs_rows := [inr [VInt 5]]; rs_err := None |}.

(** A connection that counts its calls, answers [SELECT 5 AS X] and refuses
    everything else. *)
Definition sample_Query (db : nat) (query : gostring) : (gostring + ResultSet) * nat :=
  if bool_decide (query = str "SELECT 5 AS X")
  then (inr sample_result, S db)
  else (inl (str "Incorrect syntax"), S db).

Definition good_query (name : string) : Query :=
  {| q_Name := str name; q_Description := []; q_Query := str "SELECT 5 AS X";
     q_Notes := str "one row" |}.

Definition bad_query (name : string) : Query :=
  {| q_Name := str name; q_Description := []; q_Query := str "SELEKT";
     q_Notes := str "does not parse" |}.

Definition sample_catalog : list Query :=
  [good_query "Version Info"; bad_query "Broken"; good_query "Top Waits"].

(** A file system whose one limit is the length of a name: 1 to 255
    bytes. *)
Definition name_fits (name : gostring) : bool := (1 <=? len name) && (len name <=? 255).

(** An entry whose name makes a staging file name of 306 bytes. *)
Definition long_query : Query :=
  {| q_Name := repeat "a"%char 300; q_Description := []; q_Query := str "SELECT 5 AS X";
     q_Notes := str "one row" |}.

(** A connection whose every answer is one row holding a NULL. *)
Definition null_result : ResultSet :=
  {| rs_columns := inr [str "X"]; rs_rows := [inr [VNil]]; rs_err := None |}.
Definition null_Query (db : unit) (query : gostring) : (gostring + ResultSet) * unit :=
  (inr null_result, db).

(** A byte of a rendered value that is neither a line feed nor a carriage
    return. *)
Definition no_newline (c : ascii) : bool :=
  negb (Ascii.eqb c LF) && negb (Ascii.eqb c CR).

(* ===================================================================== *)
(** ** Reading a schedule *)
(* ===================================================================== *)

Definition is_Executes (e : Event) : bool :=
  match e with Executes => true | Sleeps _ => false end.

Definition executions (trace : list Event) : Z :=
  Z.of_nat (length (List.filter is_Executes trace)).

Definition sleeps (trace : list Event) : Z :=
  Z.of_nat (length (List.filter (fun e => negb (is_Executes e)) trace)).

(** [n] runs with a sleep of [d] nanoseconds between any two of them and
    none after the last: a run, then [n - 1] times a sleep and a run. *)
Fixpoint sleep_then_run (k : nat) (d : Z) : list Event :=
  match k with
  | O => []
  | S k' => Sleeps d :: Executes :: sleep_then_run k' d
  end.
Definition runs_between_sleeps (n : nat) (d : Z) : list Event :=
  match n with
  | O => []
  | S k => Executes :: sleep_then_run k d
  end.

(* ===================================================================== *)
(** ** The configuration and the connection string *)
(* ===================================================================== *)

(** The properties file as the program reads it: the value [Get] returns
    for each key that is there.  Loading and parsing the file is the
    library's. *)
Abbreviation Properties := (gmap gostring gostring).

(** [p.MustGet(key)]: the value, or the end of the program ([None]). *)
Definition MustGet (p : Properties) (key : string) : option gostring := p !! str key.

(** [p.GetString(key, def)]. *)
Definition GetString (p : Properties) (key : string) (def : gostring) : gostring :=
  default def (p !! str key).

(** The ASCII white space of [strings.TrimSpace]: tab, line feed, vertical
    tab, form feed, carriage return, space. *)
Definition ascii_space (c : ascii) : bool := in_range 9 13 c || Ascii.eqb c " ".

(** The other runes of [unicode.IsSpace], by their UTF-8 bytes: U+0085 and
    U+00A0 (two bytes), U+1680, U+2000 to U+200A, U+2028, U+2029, U+202F,
    U+205F and U+3000 (three bytes). *)
Definition space2 (b1 b2 : ascii) : bool :=
  (code b1 =? 194) && ((code b2 =? 133) || (code b2 =? 160)).

Definition space3 (b1 b2 b3 : ascii) : bool :=
  ((code b1 =? 225) && (code b2 =? 154) && (code b3 =? 128))
  || ((code b1 =? 226) && (code b2 =? 128)
      && (in_range 128 138 b3 || in_range 168 169 b3 || (code b3 =? 175)))
  || ((code b1 =? 226) && (code b2 =? 129) && (code b3 =? 159))
  || ((code b1 =? 227) && (code b2 =? 128) && (code b3 =? 128)).

(** Dropping white space runes from the front.  With [backwards] the
    string is read from its end, so that the bytes of a rune come in
    reverse. *)
Fixpoint drop_spaces (backwards : bool) (s : gostring) : gostring :=
  match s with
  | [] => []
  | b1 :: s1 =>
    if ascii_space b1 then drop_spaces backwards s1
    else match s1 with
         | [] => s
         | b2 :: s2 =>
           if (if backwards then space2 b2 b1 else space2 b1 b2)
           then drop_spaces backwards s2
           else match s2 with
                | [] => s
                | b3 :: s3 =>
                  if (if backwards then space3 b3 b2 b1 else space3 b1 b2 b3)
                  then drop_spaces backwards s3
                  else s
                end
         end
  end.

(** [strings.TrimSpace(s)]: the white space runes at the front go, then
    those at the end. *)
Definition TrimSpace (s : gostring) : gostring :=
  rev (drop_spaces true (rev (drop_spaces false s))).

(** [strconv.ParseBool(s)]: [None] is the syntax error. *)
Definition ParseBool (s : gostring) : option bool :=
  if existsb (name_eqb s) [str "1"; str "t"; str "T"; str "TRUE"; str "true"; str "True"]
  then Some true
  else if existsb (name_eqb s)
            [str "0"; str "f"; str "F"; str "FALSE"; str "false"; str "False"]
  then Some false
  else None.

Record SQLServerConfig := {
  UserDefined : gostring;
  SQLServerHost : gostring;
  SQLServerPort : gostring;
  SQLServerDB : gostring;
  SQLServerUser : gostring;
  SQLServerPassword : gostring;
  Trusted : bool
}.

(** [getSQLServerConfig] of revision 2.0.0, once the file is loaded; the
    fields that are not set keep Go's zero values.  [None] is the end of
    the program at a [MustGet]. *)
Definition getSQLServerConfig (sqlProperties : Properties) : option SQLServerConfig :=
  let userDefined := GetString sqlProperties "USER_DEFINED" [] in
  let userDefined := TrimSpace userDefined in
  if name_eqb userDefined [] then
    host ← MustGet sqlProperties "DB_HOST";
    port ← MustGet sqlProperties "DB_PORT";
    db ← MustGet sqlProperties "DB_NAME";
    user ← MustGet sqlProperties "USER";
    password ← MustGet sqlProperties "PASSWORD";
    trusted ← MustGet sqlProperties "TRUSTED";
    Some {| UserDefined := userDefined;
            SQLServerHost := TrimSpace host;
            SQLServerPort := TrimSpace port;
            SQLServerDB := TrimSpace db;
            SQLServerUser := TrimSpace user;
            SQLServerPassword := TrimSpace password;
            Trusted := match ParseBool trusted with Some b => b | None => false end |}
  else
    Some {| UserDefined := userDefined;
            SQLServerHost := []; SQLServerPort := []; SQLServerDB := [];
            SQLServerUser := []; SQLServerPassword := []; Trusted := false |}.

(** [getSQLServerConfig] of the two CSV revisions: no [USER_DEFINED], and
    nothing is trimmed. *)
Definition getSQLServerConfig_csv (sqlProperties : Properties) : option SQLServerConfig :=
  host ← MustGet sqlProperties "DB_HOST";
  port ← MustGet sqlProperties "DB_PORT";
  db ← MustGet sqlProperties "DB_NAME";
  user ← MustGet sqlProperties "USER";
  password ← MustGet sqlProperties "PASSWORD";
  trusted ← MustGet sqlProperties "TRUSTED";
  Some {| UserDefined := [];
          SQLServerHost := host; SQLServerPort := port; SQLServerDB := db;
          SQLServerUser := user; SQLServerPassword := password;
          Trusted := match ParseBool trusted with Some b => b | None => false end |}.

(** The connection string [connectToDB] of the CSV revisions hands to
    [sql.Open]. *)
Definition connection_string_csv (sqlConfig : SQLServerConfig) : gostring :=
  if Trusted sqlConfig then
    str "sqlserver://" ++ SQLServerHost sqlConfig ++ str ":" ++ SQLServerPort sqlConfig
    ++ str "?database=" ++ SQLServerDB sqlConfig
    ++ str "&connection+timeout=30&trusted_connection=yes&encrypt=false&trustservercertificate=true"
  else
    str "sqlserver://" ++ SQLServerUser sqlConfig ++ str ":" ++ SQLServerPassword sqlConfig
    ++ str "@" ++ SQLServerHost sqlConfig ++ str ":" ++ SQLServerPort sqlConfig
    ++ str "?database=" ++ SQLServerDB sqlConfig
    ++ str "&connection+timeout=30&encrypt=false&trustservercertificate=true".

(** The connection string of revision 2.0.0, lines 332-345: a connection
    string of the user's own goes first. *)
Definition connection_string (sqlConfig : SQLServerConfig) : gostring :=
  if negb (name_eqb (UserDefined sqlConfig) []) then UserDefined sqlConfig
  else connection_string_csv sqlConfig.

(* ===================================================================== *)
(** ** Reading names *)
(* ===================================================================== *)

(** A byte of a staging file name: a letter, a digit, an underscore, the
    sign of the position, the dot of the extension. *)
Definition file_name_char (c : ascii) : bool :=
  word_char c || Ascii.eqb c "-" || Ascii.eqb c ".".

(** A statement that starts well and fails while its rows are read: one row
    arrives, then the cursor reports an error. *)
Definition late_result : ResultSet :=
  {| rs_columns := inr [str "X"]; rs_rows := [inr [VInt 5]];
     rs_err := Some (str "connection reset") |}.
Definition late_Query (db : unit) (query : gostring) : (gostring + ResultSet) * unit :=
  (inr late_result, db).

(* ===================================================================== *)
(** ** What the merge leaves behind *)
(* ===================================================================== *)

(** The cells the merge writes for the records read from one file, and the
    cell expected at (column, row): field [column] of record [row]. *)
Definition csv_cells (rows : list CsvRecord) (m : gmap (Z * Z) CellValue)
    : gmap (Z * Z) CellValue :=
  for_range (fun rowIndex row m =>
     for_range (fun colIndex cellValue m =>
        <[(colIndex + 1, rowIndex + 1) := CellStr cellValue]> m) row m)
    rows m.

Definition csv_cell (rows : list CsvRecord) (cell : Z * Z) : option CellValue :=
  let '(c, r) := cell in
  if (1 <=? c) && (1 <=? r) then
    row ← rows !! Z.to_nat (r - 1);
    CellStr <$> row !! Z.to_nat (c - 1)
  else None.

(** The sheet a file of the directory becomes, if it can be read. *)
Definition csv_sheet (d : Dir) (csvFile : gostring) : option Sheet :=
  rows ← read_records csvFile d;
  Some {| sheet_name := TrimSuffix csvFile (str ".csv"); sheet_cells := csv_cells rows ∅ |}.

(** Records that all have the same number of fields. *)
Definition rectangular (records : list CsvRecord) : Prop :=
  exists n, Forall (fun record : CsvRecord => length record = n) records.

(** [os.Remove(name)]: the file goes, if it is there. *)
Definition remove_file (name : gostring) (d : Dir) : Dir :=
  List.filter (fun e => negb (name_eqb (fst e) name)) d.

(** The loop of [createExcelFromCSV] over [sortedFiles] that deletes the
    files, lines 370-377 of app.go: a file that cannot be removed is
    reported and the loop goes on. *)
Definition createExcelFromCSV_remove (d : Dir) : Dir :=
  foldl (fun d csvFileDelete => remove_file csvFileDelete d) d
        (CsvStaging.sortedFiles (ReadDir d)).

(** A directory as a staging run of one statement leaves it. *)
Definition sample_dir : Dir :=
  [ (str "executed_queries.csv",
     [[str "Sr.No"; str "Query"; str "Query Notes"];
      [str "1"; str "SELECT 5 AS X"; str "one row"]]);
    (str "1_Five.csv", [[str "X"]; [str "5"]]) ].

(** The time a schedule spends asleep, in nanoseconds. *)
Definition slept (trace : list Event) : Z :=
  foldr (fun e total => match e with Sleeps d => d + total | Executes => total end) 0 trace.

(** The answers that read "yes" once [strings.ToLower] has been at them. *)
Definition yes_spellings : list gostring :=
  [str "yes"; str "yeS"; str "yEs"; str "yES"; str "Yes"; str "YeS"; str "YEs"; str "YES"].

(** A connection that keeps the statements it is sent, in order, beside
    the connection it wraps. *)
Definition recording {DB : Type} (db_Query : DB -> gostring -> (gostring + ResultSet) * DB)
    (db : DB * list gostring) (query : gostring) : (gostring + ResultSet) * (DB * list gostring) :=
  let '(r, db') := db_Query (fst db) query in (r, (db', snd db ++ [query])).

(* ===================================================================== *)
(** ** The first revision: [main] *)
(* ===================================================================== *)

Module CsvOnlyRun.

(** [if _, err := os.Stat(name); err == nil { os.Remove(name) }]. *)
Definition remove_if_exists (name : gostring) (d : Dir) : Dir :=
  if file_exists name d then remove_file name d else d.

Section Run.
Context {DB : Type}.
Variable db_Query : DB -> gostring -> (gostring + ResultSet) * DB.
Variable creatable : gostring -> bool.

(** The loop of [main] from position [i] on, with the records handed to
    the writer of [executed_queries.csv] so far: the file of entry [i] is
    named after [i], its line of the index after [i + 1]. *)
Fixpoint run_queries (i : Z) (queries : list Query) (index : list CsvRecord)
    (w : CsvWorld DB) : option (list CsvRecord * CsvWorld DB) :=
  match queries with
  | [] => Some (index, w)
  | query :: queries' =>
    let index := index ++ [[Itoa (i + 1); q_Query query; q_Notes query]] in
    let fileName := createFileName i (q_Name query) in
    let w := {| dir := remove_if_exists fileName (dir w);
                csv_logged := csv_logged w; csv_conn := csv_conn w |} in
    w ← CsvOnly.executeQuery db_Query creatable (q_Query query) fileName w;
    run_queries (i + 1) queries' index w
  end.

(** [main] in the working directory [d], from the check for an old
    [executed_queries.csv] to the deferred [writer.Flush]; the
    configuration, the connection and the catalog are there.  [None] is
    [log.Fatalf]. *)
Definition main (d : Dir) (db : DB) (queries : list Query) : option (CsvWorld DB) :=
  let d := remove_if_exists (str "executed_queries.csv") d in
  if negb (creatable (str "executed_queries.csv")) then None else
  let w := {| dir := write_file (str "executed_queries.csv") [] d;
              csv_logged := []; csv_conn := db |} in
  let index := [[str "Sr.No"; str "Query"; str "Query Notes"]] in
  '(index, w) ← run_queries 0 queries index w;
  Some {| dir := write_file (str "executed_queries.csv") index (dir w);
          csv_logged := csv_logged w; csv_conn := csv_conn w |}.

End Run.
End CsvOnlyRun.

(** The records [executeQuery] leaves in the file of a statement that
    executed: nothing when the columns could not be read, else the header
    and the rows scanned. *)
Definition file_records (render : Value -> gostring) (rows : ResultSet) : list CsvRecord :=
  match rs_columns rows with
  | inl _ => []
  | inr columns => columns :: map (map render) (scanned_rows (length columns) (rs_rows rows))
  end.

(* ===================================================================== *)
(** ** Names that differ in more than the case of letters *)
(* ===================================================================== *)

(** A workbook, and on some systems a directory, takes two names for one
    when they differ in the case of letters only.  The frame properties
    below speak of names that are told apart either way: ASCII names that
    still differ after [strings.ToLower]. *)
Definition is_ascii (s : gostring) : bool := forallb (fun c => code c <? 128) s.

Definition apart (a b : gostring) : Prop :=
  is_ascii a = true /\ is_ascii b = true
  /\ DirectExcel.ToLower a <> DirectExcel.ToLower b.

(** A directory in which nothing but [executed_queries.csv] itself can be
    taken for the index file. *)
Definition plain_listing (d : Dir) : Prop :=
  Forall (fun name =>
            is_ascii name = true
            /\ (DirectExcel.ToLower name = str "executed_queries.csv"
                -> name = str "executed_queries.csv"))
         (map fst d).

(** An entry whose statement spans two lines, as a catalog written on
    Windows has them. *)
Definition two_line_query : Query :=
  {| q_Name := str "Two Lines"; q_Description := [];
     q_Query := str "SELECT NULL" ++ [CR; LF] ++ str "AS X";
     q_Notes := str "spans two lines" |}.

(** A lookup past an insertion at another cell. *)
Ltac other_cell := rewrite lookup_insert_ne by (intros [=]; lia).

(* ===================================================================== *)
(** * Properties *)
(* ===================================================================== *)

(** ** Strings and slices *)

Lemma len_app (a b : gostring) : len (a ++ b) = len a + len b.
Proof. unfold len. rewrite length_app. lia. Qed.

Lemma len_nonneg (s : gostring) : 0 <= len s.
Proof. unfold len. lia. Qed.

Lemma len_cons (c : ascii) (s : gostring) : len (c :: s) = 1 + len s.
Proof. unfold len. simpl length. lia. Qed.

Lemma slice_to_in_bounds (s : gostring) (n : Z) :
  0 <= n <= len s -> slice_to s n = Some (take (Z.to_nat n) s).
Proof.
  intros [H0 H1]. unfold slice_to.
  destruct (Z.leb_spec 0 n); [|lia].
  destruct (Z.leb_spec n (len s)); [reflexivity|lia].
Qed.

Lemma len_take (s : gostring) (n : Z) :
  0 <= n <= len s -> len (take (Z.to_nat n) s) = n.
Proof. unfold len. intros H. rewrite length_take. lia. Qed.

Lemma take_all (s : gostring) (n : nat) : (length s <= n)%nat -> take n s = s.
Proof. apply take_ge. Qed.

(** ** The sanitizer, case by case *)

(** What [createSheetName] returns, whichever branch it takes: it never
    panics. *)
Lemma createSheetName_cases (index : Z) (queryName : gostring) :
  let q := clean_sheet_query_name queryName in
  let p := Itoa index ++ str "_" in
  createSheetName index queryName =
    Some (if len (p ++ q) <=? 31 then p ++ q
          else if len p <? 31 then p ++ take (Z.to_nat (31 - len p)) q
          else take 31 (Itoa index)).
Proof.
  intros q p. unfold createSheetName. fold q.
  replace (Itoa index ++ str "_" ++ q) with (p ++ q) by (unfold p; now rewrite <- app_assoc).
  fold p.
  assert (Hp : len p = len (Itoa index) + 1) by (unfold p; rewrite len_app; reflexivity).
  pose proof (len_nonneg q) as Hq. pose proof (len_nonneg (Itoa index)) as Hi.
  rewrite (len_app p q).
  destruct (Z.ltb_spec 31 (len p + len q)) as [Hlong|Hshort].
  - destruct (Z.leb_spec (len p + len q) 31); [lia|].
    destruct (Z.ltb_spec 0 (31 - len p)) as [Hroom|Hnoroom].
    + destruct (Z.ltb_spec (len p) 31); [|lia].
      rewrite slice_to_in_bounds by lia. reflexivity.
    + destruct (Z.ltb_spec (len p) 31); [lia|].
      destruct (Z.ltb_spec 31 (len (Itoa index))).
      * rewrite slice_to_in_bounds by lia. reflexivity.
      * rewrite take_all; [reflexivity|]. unfold len in *. lia.
  - destruct (Z.leb_spec (len p + len q) 31); [reflexivity|lia].
Qed.

(** ** Character classes *)

Lemma word_char_not_forbidden (c : ascii) :
  word_char c = true -> sheet_forbidden c = false.
Proof. destruct c as [[] [] [] [] [] [] [] []]; vm_compute; congruence. Qed.

Lemma word_char_not_space (c : ascii) :
  word_char c = true -> Ascii.eqb c " " = false.
Proof. destruct c as [[] [] [] [] [] [] [] []]; vm_compute; congruence. Qed.

Lemma digit_char_is_digit (d : Z) : 0 <= d < 10 -> is_digit (digit_char d) = true.
Proof.
  intros H.
  assert (d = 0 \/ d = 1 \/ d = 2 \/ d = 3 \/ d = 4 \/ d = 5 \/ d = 6 \/ d = 7
          \/ d = 8 \/ d = 9) as Hd by lia.
  repeat (destruct Hd as [->|Hd]; [reflexivity|]). now subst.
Qed.

Lemma code_digit_char (d : Z) : 0 <= d < 10 -> code (digit_char d) - 48 = d.
Proof.
  intros H.
  assert (d = 0 \/ d = 1 \/ d = 2 \/ d = 3 \/ d = 4 \/ d = 5 \/ d = 6 \/ d = 7
          \/ d = 8 \/ d = 9) as Hd by lia.
  repeat (destruct Hd as [->|Hd]; [reflexivity|]). now subst.
Qed.

Lemma filter_keeps_all {A : Type} (f : A -> bool) (l : list A) :
  Forall (fun x => f x = true) l -> List.filter f l = l.
Proof.
  induction 1 as [|x l Hx _ IH]; simpl; [reflexivity|]. now rewrite Hx, IH.
Qed.

Lemma filter_Forall {A : Type} (f : A -> bool) (l : list A) :
  Forall (fun x => f x = true) (List.filter f l).
Proof.
  induction l as [|x l IH]; simpl; [constructor|].
  destruct (f x) eqn:E; [constructor; assumption|assumption].
Qed.

Lemma clean_sheet_word_chars (s : gostring) :
  Forall (fun c => word_char c = true) (clean_sheet_query_name s).
Proof.
  unfold clean_sheet_query_name, ReplaceAllString_empty.
  eapply Forall_impl; [apply filter_Forall|].
  intros c. unfold not_word_char. simpl. now rewrite negb_involutive.
Qed.

Lemma clean_file_word_chars (s : gostring) :
  Forall (fun c => word_char c = true) (clean_file_query_name s).
Proof.
  unfold clean_file_query_name, ReplaceAllString_empty.
  eapply Forall_impl; [apply filter_Forall|].
  intros c. unfold not_word_char. simpl. now rewrite negb_involutive.
Qed.

Lemma ReplaceAll_absent (s : gostring) (old new : ascii) :
  Forall (fun c => Ascii.eqb c old = false) s -> ReplaceAll s old new = s.
Proof.
  unfold ReplaceAll. induction 1 as [|c s Hc _ IH]; simpl; [reflexivity|].
  now rewrite Hc, IH.
Qed.

(** A name made of word characters goes through both cleaning passes
    unchanged. *)
Lemma clean_sheet_fixpoint (s : gostring) :
  Forall (fun c => word_char c = true) s -> clean_sheet_query_name s = s.
Proof.
  intros H. unfold clean_sheet_query_name, ReplaceAllString_empty.
  rewrite ReplaceAll_absent
    by (eapply Forall_impl; [exact H|apply word_char_not_space]).
  rewrite (filter_keeps_all (fun c => negb (sheet_forbidden c)))
    by (eapply Forall_impl; [exact H|];
        intros c Hc; simpl; now rewrite word_char_not_forbidden).
  apply filter_keeps_all.
  eapply Forall_impl; [exact H|].
  intros c Hc. unfold not_word_char. simpl. now rewrite Hc.
Qed.

Lemma clean_file_fixpoint (s : gostring) :
  Forall (fun c => word_char c = true) s -> clean_file_query_name s = s.
Proof.
  intros H. unfold clean_file_query_name, ReplaceAllString_empty.
  rewrite ReplaceAll_absent
    by (eapply Forall_impl; [exact H|apply word_char_not_space]).
  apply filter_keeps_all.
  eapply Forall_impl; [exact H|].
  intros c Hc. unfold not_word_char. simpl. now rewrite Hc.
Qed.

(** ** Decimal text *)

Lemma digits_le_range (fuel : nat) (u : Z) :
  Forall (fun d => 0 <= d < 10) (digits_le fuel u).
Proof.
  revert u. induction fuel as [|fuel IH]; intros u; simpl; [constructor|].
  constructor; [apply Z.mod_pos_bound; lia|].
  destruct (u <? 10); [constructor|apply IH].
Qed.

Lemma utoa_digits (u : Z) : Forall (fun c => is_digit c = true) (utoa u).
Proof.
  unfold utoa. rewrite Forall_map. apply Forall_rev.
  eapply Forall_impl; [apply digits_le_range|].
  intros d Hd. now apply digit_char_is_digit.
Qed.

Lemma utoa_nonempty (u : Z) : 1 <= len (utoa u).
Proof.
  unfold utoa, len, digit_fuel. rewrite length_map, length_rev. simpl. lia.
Qed.

Lemma Itoa_chars (z : Z) : Forall (fun c => decimal_char c = true) (Itoa z).
Proof.
  unfold Itoa.
  assert (H : Forall (fun c => decimal_char c = true) (utoa (Z.abs z))).
  { eapply Forall_impl; [apply utoa_digits|].
    intros c Hc. unfold decimal_char. now rewrite Hc. }
  destruct (Z.ltb_spec z 0).
  - constructor; [reflexivity|]. now replace (- z) with (Z.abs z) by lia.
  - now replace z with (Z.abs z) at 1 by lia.
Qed.

Lemma decimal_char_not_forbidden (c : ascii) :
  decimal_char c = true -> sheet_forbidden c = false.
Proof. destruct c as [[] [] [] [] [] [] [] []]; vm_compute; congruence. Qed.

Lemma Itoa_nonempty (z : Z) : 1 <= len (Itoa z).
Proof.
  unfold Itoa. destruct (z <? 0).
  - rewrite len_cons. pose proof (utoa_nonempty (- z)). lia.
  - apply utoa_nonempty.
Qed.

(** ** The sanitizer: truncation, validity, totality *)

(** C3. When ["<position>_<sanitizedName>"] is longer than 31 bytes, the
    sheet name keeps the ["<position>_"] prefix and cuts the sanitized name
    so that the whole is exactly 31 bytes long; when the prefix alone
    already takes 31 bytes or more, the name is dropped and the result is
    the position's digits, cut to at most 31 bytes. *)
Theorem createSheetName_truncates_to_31 (index : Z) (queryName : gostring) :
  let q := clean_sheet_query_name queryName in
  let p := Itoa index ++ str "_" in
  31 < len (p ++ q) ->
  (len p < 31 ->
     createSheetName index queryName = Some (p ++ take (Z.to_nat (31 - len p)) q)
     /\ len (p ++ take (Z.to_nat (31 - len p)) q) = 31)
  /\ (31 <= len p ->
     createSheetName index queryName = Some (take 31 (Itoa index))
     /\ len (take 31 (Itoa index)) <= 31).
Proof.
  intros q p Hlong. rewrite createSheetName_cases. fold q p.
  destruct (Z.leb_spec (len (p ++ q)) 31); [lia|].
  rewrite len_app in Hlong. pose proof (len_nonneg p).
  split; intros Hp.
  - destruct (Z.ltb_spec (len p) 31); [|lia].
    split; [reflexivity|]. rewrite len_app, len_take; lia.
  - destruct (Z.ltb_spec (len p) 31); [lia|].
    split; [reflexivity|]. unfold len. rewrite length_take. lia.
Qed.

Lemma createSheetName_truncates_to_31_witness :
  31 < len ((Itoa 12 ++ str "_")
            ++ clean_sheet_query_name (str "Top Waits: cumulative [since last restart]"))
  /\ createSheetName 12 (str "Top Waits: cumulative [since last restart]")
     = Some (str "12_Top_Waits_cumulative_since_l").
Proof.
  assert (Hlong : 31 < len ((Itoa 12 ++ str "_")
            ++ clean_sheet_query_name (str "Top Waits: cumulative [since last restart]")))
    by (vm_compute; reflexivity).
  split; [exact Hlong|].
  destruct (createSheetName_truncates_to_31 12
              (str "Top Waits: cumulative [since last restart]") Hlong) as [Hfit _].
  destruct Hfit as [-> _]; [vm_compute; reflexivity|].
  vm_compute. reflexivity.
Defined.

(** C4. For a positive position and any raw query name, the sheet name is
    at most 31 bytes long and holds none of [\ / ? * [ ] :]. *)
Theorem createSheetName_valid_sheet_name (index : Z) (queryName : gostring) :
  0 < index ->
  exists sheetName,
    createSheetName index queryName = Some sheetName
    /\ len sheetName <= 31
    /\ Forall (fun c => sheet_forbidden c = false) sheetName.
Proof.
  intros _. rewrite createSheetName_cases.
  set (q := clean_sheet_query_name queryName). set (p := Itoa index ++ str "_").
  eexists. split; [reflexivity|].
  assert (Hq : Forall (fun c => sheet_forbidden c = false) q).
  { eapply Forall_impl; [apply clean_sheet_word_chars|apply word_char_not_forbidden]. }
  assert (Hi : Forall (fun c => sheet_forbidden c = false) (Itoa index)).
  { eapply Forall_impl; [apply Itoa_chars|apply decimal_char_not_forbidden]. }
  assert (Hp : Forall (fun c => sheet_forbidden c = false) p).
  { unfold p. apply Forall_app. split; [exact Hi|]. repeat constructor. }
  pose proof (len_nonneg p). pose proof (len_nonneg q).
  destruct (Z.leb_spec (len (p ++ q)) 31) as [Hshort|Hlong].
  - split; [exact Hshort|]. apply Forall_app. now split.
  - rewrite len_app in Hlong.
    destruct (Z.ltb_spec (len p) 31).
    + split; [rewrite len_app, len_take; lia|].
      apply Forall_app. split; [exact Hp|]. now apply Forall_take.
    + split; [unfold len; rewrite length_take; lia|]. now apply Forall_take.
Qed.

Lemma createSheetName_valid_sheet_name_witness :
  0 < 7
  /\ exists sheetName,
       createSheetName 7 (str "I/O stalls: [by file]? *all*") = Some sheetName
       /\ len sheetName <= 31
       /\ Forall (fun c => sheet_forbidden c = false) sheetName.
Proof.
  split; [lia|]. apply (createSheetName_valid_sheet_name 7). lia.
Defined.

(** C10. The sanitizer is total.  For a non-negative index and any input,
    whenever the combined name is longer than 31 bytes and the prefix is
    shorter than 31, the sanitized remainder has at least
    [31 - len(prefix)] bytes, so the slice [queryName[:maxNameLength]] is in
    bounds; so is [sheetName[:31]] where it is taken; and the function
    returns a name. *)
Theorem createSheetName_total (index : Z) (queryName : gostring) :
  0 <= index ->
  let q := clean_sheet_query_name queryName in
  let p := Itoa index ++ str "_" in
  (31 < len (p ++ q) -> len p < 31 ->
     31 - len p <= len q
     /\ slice_to q (31 - len p) = Some (take (Z.to_nat (31 - len p)) q))
  /\ (31 < len (Itoa index) -> slice_to (Itoa index) 31 = Some (take 31 (Itoa index)))
  /\ is_Some (createSheetName index queryName).
Proof.
  intros _ q p. split; [|split].
  - intros Hlong Hp. rewrite len_app in Hlong. pose proof (len_nonneg p).
    split; [lia|]. apply slice_to_in_bounds. lia.
  - intros Hlong. now rewrite slice_to_in_bounds by lia.
  - rewrite createSheetName_cases. eexists. reflexivity.
Qed.

Lemma createSheetName_total_witness :
  0 <= 0 /\ is_Some (createSheetName 0 (str "Missing Indexes (all databases) by index advantage")).
Proof.
  split; [lia|].
  apply (createSheetName_total 0 (str "Missing Indexes (all databases) by index advantage")).
  lia.
Defined.

(** ** The sanitizer is not idempotent *)

(** C5, as stated, fails: the position prefix is put in front again. *)
Lemma createSheetName_not_idempotent :
  createSheetName 1 (str "Sample Query Name!") = Some (str "1_Sample_Query_Name")
  /\ createSheetName 1 (str "1_Sample_Query_Name") = Some (str "1_1_Sample_Query_Name")
  /\ ~ (forall (p : Z) (s s' : gostring),
          createSheetName p s = Some s' -> createSheetName p s' = Some s').
Proof.
  split; [vm_compute; reflexivity|]. split; [vm_compute; reflexivity|].
  intros H.
  specialize (H 1 (str "Sample Query Name!") (str "1_Sample_Query_Name")).
  lapply H; [|vm_compute; reflexivity].
  vm_compute. intros E. discriminate E.
Qed.

(** C5, amended.  Both variants are functions of their arguments; the
    cleaning of the name is idempotent, so that sanitizing an already
    cleaned name, at the same position, gives the same result as sanitizing
    the raw one. *)
Theorem sanitize_deterministic_cleaning_idempotent (p : Z) (s : gostring) :
  (forall p' s', p = p' -> s = s' ->
     createSheetName p s = createSheetName p' s'
     /\ createFileName p s = createFileName p' s')
  /\ clean_sheet_query_name (clean_sheet_query_name s) = clean_sheet_query_name s
  /\ clean_file_query_name (clean_file_query_name s) = clean_file_query_name s
  /\ createSheetName p (clean_sheet_query_name s) = createSheetName p s
  /\ createFileName p (clean_file_query_name s) = createFileName p s.
Proof.
  pose proof (clean_sheet_fixpoint _ (clean_sheet_word_chars s)) as Hs.
  pose proof (clean_file_fixpoint _ (clean_file_word_chars s)) as Hf.
  split; [intros p' s' -> ->; split; reflexivity|].
  split; [exact Hs|]. split; [exact Hf|]. split.
  - unfold createSheetName. now rewrite Hs.
  - unfold createFileName. now rewrite Hf.
Qed.

(** ** The repeat schedule *)

Lemma wrap_small (z : Z) : is_int z -> wrap z = z.
Proof.
  unfold is_int, min_int, max_int, wrap. intros H.
  rewrite Z.mod_small; lia.
Qed.

Lemma sleep_then_run_counts (k : nat) (d : Z) :
  executions (sleep_then_run k d) = Z.of_nat k
  /\ sleeps (sleep_then_run k d) = Z.of_nat k.
Proof.
  unfold executions, sleeps.
  induction k as [|k [IH1 IH2]]; [split; reflexivity|].
  simpl. split; lia.
Qed.

Lemma runs_between_sleeps_counts (n : nat) (d : Z) :
  executions (runs_between_sleeps n d) = Z.of_nat n
  /\ sleeps (runs_between_sleeps n d) = Z.max 0 (Z.of_nat n - 1).
Proof.
  destruct n as [|k]; [split; reflexivity|].
  destruct (sleep_then_run_counts k d) as [H1 H2].
  unfold executions, sleeps in *. simpl. split; lia.
Qed.

(** The loop from [i] on, as long as the counters stay inside [int]: the
    fuel [totalIterations - i] is what it needs. *)
Lemma iterations_from (fuel : nat) (i totalIterations interval : Z) :
  0 <= i <= totalIterations ->
  totalIterations <= max_int ->
  fuel = Z.to_nat (totalIterations - i) ->
  DirectExcel.iterations fuel i totalIterations interval
  = runs_between_sleeps fuel (wrap (interval * Minute)).
Proof.
  revert i. induction fuel as [|fuel IH]; intros i Hi Hmax Hfuel; [reflexivity|].
  assert (Hlt : i < totalIterations) by lia.
  cbn [DirectExcel.iterations].
  destruct (Z.ltb_spec i totalIterations); [|lia].
  rewrite (wrap_small (totalIterations - 1)) by (unfold is_int, min_int, max_int in *; lia).
  rewrite (wrap_small (i + 1)) by (unfold is_int, min_int, max_int in *; lia).
  rewrite IH by lia.
  destruct fuel as [|k].
  - destruct (Z.ltb_spec i (totalIterations - 1)); [lia|reflexivity].
  - destruct (Z.ltb_spec i (totalIterations - 1)); [reflexivity|lia].
Qed.

(** More fuel changes nothing: the loop has ended by itself. *)
Lemma iterations_enough_fuel (fuel : nat) (i totalIterations interval : Z) :
  0 <= i <= totalIterations ->
  totalIterations <= max_int ->
  (Z.to_nat (totalIterations - i) <= fuel)%nat ->
  DirectExcel.iterations fuel i totalIterations interval
  = DirectExcel.iterations (Z.to_nat (totalIterations - i)) i totalIterations interval.
Proof.
  revert i. induction fuel as [|fuel IH]; intros i Hi Hmax Hfuel.
  - now replace (Z.to_nat (totalIterations - i)) with O by lia.
  - destruct (Z.eq_dec i totalIterations) as [->|Hne].
    + rewrite Z.sub_diag. cbn. now rewrite Z.ltb_irrefl.
    + replace (Z.to_nat (totalIterations - i))
        with (S (Z.to_nat (totalIterations - (i + 1)))) by lia.
      cbn [DirectExcel.iterations].
      destruct (Z.ltb_spec i totalIterations); [|reflexivity].
      rewrite (wrap_small (i + 1)) by (unfold is_int, min_int, max_int in *; lia).
      now rewrite IH by lia.
Qed.

(** The schedule of a positive interval and duration whose minutes fit. *)
Lemma schedule_repeat (interval duration : Z) :
  0 < interval -> 0 < duration -> duration * 60 <= max_int ->
  DirectExcel.schedule interval duration
  = runs_between_sleeps (Z.to_nat (duration * 60 / interval)) (wrap (interval * Minute)).
Proof.
  intros Hi Hd Hfit. unfold DirectExcel.schedule.
  destruct (Z.ltb_spec 0 interval); [|lia].
  destruct (Z.ltb_spec 0 duration); [|lia].
  cbn [andb].
  rewrite (wrap_small (duration * 60)) by (unfold is_int, min_int, max_int in *; lia).
  rewrite Z.quot_div_nonneg by lia.
  assert (0 <= duration * 60 / interval <= duration * 60).
  { split; [apply Z.div_pos; lia|]. apply Z.div_le_upper_bound; nia. }
  rewrite iterations_from; [reflexivity|lia|lia|f_equal; lia].
Qed.

(** C6, as stated, fails where [duration * 60] leaves the 64-bit range:
    the product wraps to a negative number and nothing runs. *)
Lemma schedule_overflow :
  0 < 1 /\ 0 < 153722867280912931
  /\ 153722867280912931 <= max_int
  /\ DirectExcel.schedule 1 153722867280912931 = []
  /\ ~ (forall interval duration, 0 < interval -> 0 < duration ->
          executions (DirectExcel.schedule interval duration) = duration * 60 / interval).
Proof.
  split; [lia|]. split; [lia|]. split; [vm_compute; discriminate|].
  split; [vm_compute; reflexivity|].
  intros H. specialize (H 1 153722867280912931).
  lapply H; [clear H; intros H|lia]. lapply H; [clear H; intros H|lia].
  vm_compute in H. discriminate H.
Qed.

(** C6, amended.  For a strictly positive interval and duration whose
    [duration * 60] fits a 64-bit [int], the schedule is
    [floor(duration * 60 / interval)] runs, with one sleep between any two
    consecutive runs and none after the last, each sleep lasting [interval]
    minutes when that many nanoseconds fit 64 bits; 15 and 2 give 8 runs
    and 7 sleeps; a zero (absent) interval or duration gives one run and no
    sleep. *)
Theorem schedule_runs_and_sleeps (interval duration : Z) :
  (0 < interval -> 0 < duration -> duration * 60 <= max_int ->
     let n := duration * 60 / interval in
     DirectExcel.schedule interval duration
       = runs_between_sleeps (Z.to_nat n) (wrap (interval * Minute))
     /\ executions (DirectExcel.schedule interval duration) = n
     /\ sleeps (DirectExcel.schedule interval duration) = Z.max 0 (n - 1)
     /\ (interval * Minute <= max_int -> wrap (interval * Minute) = interval * Minute))
  /\ (interval = 0 \/ duration = 0 -> DirectExcel.schedule interval duration = [Executes])
  /\ executions (DirectExcel.schedule 15 2) = 8
  /\ sleeps (DirectExcel.schedule 15 2) = 7.
Proof.
  split; [|split; [|split; vm_compute; reflexivity]].
  - intros Hi Hd Hfit n.
    assert (0 <= n) by (apply Z.div_pos; lia).
    rewrite schedule_repeat by assumption. fold n.
    destruct (runs_between_sleeps_counts (Z.to_nat n) (wrap (interval * Minute))) as [He Hs].
    split; [reflexivity|]. split; [lia|]. split; [lia|].
    intros Hm. apply wrap_small. unfold is_int, min_int, max_int, Minute in *. lia.
  - intros H. unfold DirectExcel.schedule.
    destruct H as [-> | ->]; [reflexivity|].
    now rewrite Z.ltb_irrefl, andb_false_r.
Qed.

Lemma schedule_runs_and_sleeps_witness :
  (0 < 15 /\ 0 < 2 /\ 2 * 60 <= max_int)
  /\ DirectExcel.schedule 15 2 = runs_between_sleeps 8 (15 * Minute)
  /\ (0 = 0 \/ 2 = 0) /\ DirectExcel.schedule 0 2 = [Executes].
Proof.
  assert (H15 : 0 < 15) by lia. assert (H2 : 0 < 2) by lia.
  assert (Hfit : 2 * 60 <= max_int) by (vm_compute; discriminate).
  destruct (schedule_runs_and_sleeps 15 2) as [Hrepeat _].
  destruct (schedule_runs_and_sleeps 0 2) as [_ [Honce _]].
  split; [repeat split; assumption|].
  split; [|split; [left; reflexivity|apply Honce; left; reflexivity]].
  destruct (Hrepeat H15 H2 Hfit) as [-> _]. vm_compute. reflexivity.
Defined.

(** C7, as stated, fails: a negative interval is not rejected, the catalog
    is executed once. *)
Lemma negative_interval_runs :
  DirectExcel.schedule (-5) 2 = [Executes]
  /\ ~ (forall interval duration, interval < 0 \/ duration < 0 ->
          executions (DirectExcel.schedule interval duration) = 0).
Proof.
  split; [reflexivity|].
  intros H. specialize (H (-5) 2). lapply H; [|lia].
  vm_compute. discriminate.
Qed.

(** C7, amended.  A negative interval or duration is not rejected: it is
    treated like an absent one, and the catalog is executed exactly once,
    with no sleep. *)
Theorem negative_schedule_runs_once (interval duration : Z) :
  interval < 0 \/ duration < 0 ->
  DirectExcel.schedule interval duration = [Executes]
  /\ executions (DirectExcel.schedule interval duration) = 1
  /\ sleeps (DirectExcel.schedule interval duration) = 0.
Proof.
  intros H.
  assert (E : DirectExcel.schedule interval duration = [Executes]).
  { unfold DirectExcel.schedule.
    destruct (Z.ltb_spec 0 interval); destruct (Z.ltb_spec 0 duration);
      try reflexivity; lia. }
  rewrite E. repeat split.
Qed.

Lemma negative_schedule_runs_once_witness :
  (-30 < 0 \/ 4 < 0) /\ DirectExcel.schedule (-30) 4 = [Executes].
Proof.
  assert (H : -30 < 0 \/ 4 < 0) by (left; lia).
  split; [exact H|]. apply (negative_schedule_runs_once (-30) 4 H).
Defined.

(** ** [Atoi] reads back what [Itoa] prints *)

Lemma digits_le_value (fuel : nat) (u : Z) :
  0 <= u < 2 ^ Z.of_nat fuel -> value_le (digits_le fuel u) = u.
Proof.
  revert u. induction fuel as [|fuel IH]; intros u Hu.
  - simpl in Hu. assert (u = 0) by lia. now subst.
  - cbn [digits_le value_le fold_right].
    destruct (Z.ltb_spec u 10) as [Hsmall|Hbig].
    + cbn. rewrite Z.mod_small; lia.
    + fold (value_le (digits_le fuel (u / 10))). rewrite IH.
      * pose proof (Z.div_mod u 10). lia.
      * rewrite Nat2Z.inj_succ, Z.pow_succ_r in Hu by lia.
        split; [apply Z.div_pos; lia|].
        apply Z.div_lt_upper_bound; lia.
Qed.

Lemma digit_fuel_enough (u : Z) : 0 <= u -> u < 2 ^ Z.of_nat (digit_fuel u).
Proof.
  intros Hu. unfold digit_fuel.
  rewrite Nat2Z.inj_succ, Z2Nat.id by apply Z.log2_nonneg.
  destruct (Z.eq_dec u 0) as [->|Hne]; [reflexivity|].
  apply Z.log2_spec. lia.
Qed.

Lemma digits_value_app (acc : Z) (s1 s2 : gostring) :
  digits_value acc (s1 ++ s2) = digits_value acc s1 ≫= fun v => digits_value v s2.
Proof.
  revert acc. induction s1 as [|c s1 IH]; intros acc; [reflexivity|].
  simpl. destruct (is_digit c); [apply IH|reflexivity].
Qed.

Lemma digits_value_rev (ds : list Z) (acc : Z) :
  Forall (fun d => 0 <= d < 10) ds ->
  digits_value acc (map digit_char (rev ds))
  = Some (acc * 10 ^ Z.of_nat (length ds) + value_le ds).
Proof.
  intros H. revert acc. induction H as [|d ds Hd _ IH]; intros acc.
  - simpl. f_equal. lia.
  - cbn [rev]. rewrite map_app, digits_value_app, IH.
    cbn [mbind option_bind map digits_value].
    rewrite digit_char_is_digit, code_digit_char by assumption.
    cbn [length value_le fold_right]. fold (value_le ds).
    rewrite Nat2Z.inj_succ, Z.pow_succ_r by lia. f_equal. lia.
Qed.

Lemma digits_value_utoa (u : Z) : 0 <= u -> digits_value 0 (utoa u) = Some u.
Proof.
  intros Hu. unfold utoa.
  rewrite digits_value_rev by apply digits_le_range.
  rewrite digits_le_value; [reflexivity|].
  split; [assumption|now apply digit_fuel_enough].
Qed.

Lemma utoa_head (u : Z) :
  exists c rest, utoa u = c :: rest /\ is_digit c = true.
Proof.
  pose proof (utoa_nonempty u) as Hn. pose proof (utoa_digits u) as Hd.
  destruct (utoa u) as [|c rest]; [unfold len in Hn; simpl in Hn; lia|].
  exists c, rest. split; [reflexivity|]. now inversion Hd.
Qed.

Lemma digit_not_sign (c : ascii) :
  is_digit c = true -> Ascii.eqb c "-" = false /\ Ascii.eqb c "+" = false
                       /\ Ascii.eqb c "_" = false.
Proof. destruct c as [[] [] [] [] [] [] [] []]; vm_compute; intuition congruence. Qed.

Lemma Atoi_signed (body : gostring) :
  Atoi ("-"%char :: body) =
    match body with
    | [] => None
    | _ => match digits_value 0 body with
           | Some v => if (min_int <=? - v) && (- v <=? max_int) then Some (- v) else None
           | None => None
           end
    end.
Proof. reflexivity. Qed.

Lemma Atoi_unsigned (c : ascii) (rest : gostring) :
  is_digit c = true ->
  Atoi (c :: rest) =
    match digits_value 0 (c :: rest) with
    | Some v => if (min_int <=? v) && (v <=? max_int) then Some v else None
    | None => None
    end.
Proof.
  intros Hc. destruct (digit_not_sign c Hc) as (Hm & Hp & _).
  unfold Atoi. now rewrite Hm, Hp.
Qed.

Lemma Atoi_Itoa (z : Z) : is_int z -> Atoi (Itoa z) = Some z.
Proof.
  unfold is_int. intros Hz. unfold Itoa.
  destruct (Z.ltb_spec z 0) as [Hneg|Hpos].
  - rewrite Atoi_signed.
    destruct (utoa_head (- z)) as (c & rest & E & _).
    rewrite digits_value_utoa by lia. rewrite E, Z.opp_involutive.
    destruct (Z.leb_spec min_int z); [|lia].
    destruct (Z.leb_spec z max_int); [reflexivity|lia].
  - destruct (utoa_head z) as (c & rest & E & Hc).
    pose proof (digits_value_utoa z Hpos) as Hv.
    rewrite E in *. rewrite Atoi_unsigned, Hv by assumption.
    destruct (Z.leb_spec min_int z); [|lia].
    destruct (Z.leb_spec z max_int); [reflexivity|lia].
Qed.

Lemma utoa_inj (a b : Z) : 0 <= a -> 0 <= b -> utoa a = utoa b -> a = b.
Proof.
  intros Ha Hb E.
  pose proof (digits_value_utoa a Ha) as H1.
  pose proof (digits_value_utoa b Hb) as H2.
  rewrite E in H1. congruence.
Qed.

Lemma Itoa_inj (a b : Z) : Itoa a = Itoa b -> a = b.
Proof.
  unfold Itoa. intros E.
  destruct (Z.ltb_spec a 0) as [Ha|Ha]; destruct (Z.ltb_spec b 0) as [Hb|Hb].
  - injection E as E. apply utoa_inj in E; lia.
  - destruct (utoa_head b) as (c & rest & Eb & Hc). rewrite Eb in E.
    injection E as <- _. discriminate Hc.
  - destruct (utoa_head a) as (c & rest & Eb & Hc). rewrite Eb in E.
    injection E as -> _. discriminate Hc.
  - now apply utoa_inj.
Qed.

(** A number below [10 ^ k] prints in at most [k] digits. *)
Lemma digits_le_length (fuel : nat) (u : Z) (k : nat) :
  (1 <= k)%nat -> 0 <= u < 10 ^ Z.of_nat k -> (length (digits_le fuel u) <= k)%nat.
Proof.
  revert u k. induction fuel as [|fuel IH]; intros u k Hk Hu; [simpl; lia|].
  cbn [digits_le length].
  destruct (Z.ltb_spec u 10) as [Hsmall|Hbig]; [simpl; lia|].
  destruct k as [|[|k]]; [lia|simpl in Hu; lia|].
  specialize (IH (u / 10) (S k)).
  rewrite (Nat2Z.inj_succ (S k)), Z.pow_succ_r in Hu by lia.
  assert (length (digits_le fuel (u / 10)) <= S k)%nat; [|lia].
  apply IH; [lia|].
  split; [apply Z.div_pos; lia|]. apply Z.div_lt_upper_bound; lia.
Qed.

Lemma Itoa_len_int (z : Z) : is_int z -> len (Itoa z) <= 20.
Proof.
  unfold is_int, min_int, max_int. intros Hz.
  assert (Hu : forall u, 0 <= u <= 2 ^ 63 -> len (utoa u) <= 19).
  { intros u Hu. unfold utoa, len. rewrite length_map, length_rev.
    pose proof (digits_le_length (digit_fuel u) u 19) as H.
    assert (length (digits_le (digit_fuel u) u) <= 19)%nat; [|lia].
    apply H; [lia|]. change (10 ^ Z.of_nat 19) with 10000000000000000000.
    change (2 ^ 63) with 9223372036854775808 in Hu. lia. }
  unfold Itoa. destruct (Z.ltb_spec z 0).
  - rewrite len_cons. specialize (Hu (- z)). lia.
  - specialize (Hu z). lia.
Qed.

(** ** Sheet names determine the position *)

Lemma before_underscore_decimal (s rest : gostring) :
  Forall (fun c => decimal_char c = true) s ->
  before_underscore (s ++ "_"%char :: rest) = s.
Proof.
  induction 1 as [|c s Hc _ IH]; [reflexivity|].
  cbn [app before_underscore].
  replace (Ascii.eqb c "_") with false; [now rewrite IH|].
  destruct c as [[] [] [] [] [] [] [] []]; vm_compute in Hc |- *; congruence.
Qed.

(** Inside [int] the prefix always fits, and the name starts with it. *)
Lemma createSheetName_prefix (index : Z) (queryName : gostring) :
  is_int index ->
  exists rest, createSheetName index queryName = Some (Itoa index ++ "_"%char :: rest).
Proof.
  intros Hi. rewrite createSheetName_cases.
  set (q := clean_sheet_query_name queryName).
  assert (Hp : len (Itoa index ++ str "_") <= 21).
  { rewrite len_app. pose proof (Itoa_len_int index Hi). change (len (str "_")) with 1. lia. }
  destruct (Z.leb_spec (len ((Itoa index ++ str "_") ++ q)) 31).
  - exists q. now rewrite <- app_assoc.
  - destruct (Z.ltb_spec (len (Itoa index ++ str "_")) 31); [|lia].
    eexists. now rewrite <- app_assoc.
Qed.

Lemma createSheetName_inj (i j : Z) (a b s : gostring) :
  is_int i -> is_int j ->
  createSheetName i a = Some s -> createSheetName j b = Some s -> i = j.
Proof.
  intros Hi Hj Ha Hb.
  destruct (createSheetName_prefix i a Hi) as [ra Ea].
  destruct (createSheetName_prefix j b Hj) as [rb Eb].
  rewrite Ea in Ha. rewrite Eb in Hb. injection Ha as <-. injection Hb as Hb.
  apply Itoa_inj.
  rewrite <- (before_underscore_decimal (Itoa i) ra) by apply Itoa_chars.
  rewrite <- (before_underscore_decimal (Itoa j) rb) by apply Itoa_chars.
  now rewrite Hb.
Qed.

(** A sheet name starts with a digit or a minus sign. *)
Lemma createSheetName_head (index : Z) (queryName s : gostring) :
  createSheetName index queryName = Some s ->
  exists c rest, s = c :: rest /\ decimal_char c = true.
Proof.
  rewrite createSheetName_cases. intros [= <-].
  pose proof (Itoa_nonempty index) as Hn. pose proof (Itoa_chars index) as Hc.
  destruct (Itoa index) as [|c rest] eqn:E; [unfold len in Hn; simpl in Hn; lia|].
  inversion Hc; subst.
  destruct (_ <=? 31); [|destruct (_ <? 31)]; cbn; eauto.
Qed.

Lemma executed_queries_foreign (i : Z) :
  foreign_from i DirectExcel.executedQueriesSheetName.
Proof.
  intros j queryName _ _ E.
  apply createSheetName_head in E as (c & rest & E & Hc).
  injection E as <- _. discriminate Hc.
Qed.

(** ** The workbook *)

Lemma name_eqb_refl (a : gostring) : name_eqb a a = true.
Proof. unfold name_eqb. now apply bool_decide_eq_true. Qed.

Lemma name_eqb_neq (a b : gostring) : a <> b -> name_eqb a b = false.
Proof. unfold name_eqb. now apply bool_decide_eq_false. Qed.

Lemma has_sheet_false (name : gostring) (f : File) :
  has_sheet name f = false <-> name ∉ sheet_names f.
Proof.
  unfold has_sheet, sheet_names. induction f as [|s f IH]; simpl.
  - split; [intros _ H; inversion H|reflexivity].
  - rewrite orb_false_iff, IH, not_elem_of_cons. unfold name_eqb.
    rewrite bool_decide_eq_false. intuition congruence.
Qed.

Lemma SetCellValue_absent (name : gostring) (cell : Z * Z) (v : CellValue) (f : File) :
  has_sheet name f = false -> SetCellValue name cell v f = f.
Proof.
  unfold SetCellValue, has_sheet. induction f as [|s f IH]; simpl; [reflexivity|].
  rewrite orb_false_iff. intros [-> H]. now rewrite IH.
Qed.

(** Writing into the sheet that was appended last. *)
Lemma SetCellValue_last (name : gostring) (cell : Z * Z) (v : CellValue) (f : File)
    (m : gmap (Z * Z) CellValue) :
  has_sheet name f = false ->
  SetCellValue name cell v (f ++ [ {| sheet_name := name; sheet_cells := m |} ])
  = f ++ [ {| sheet_name := name; sheet_cells := <[cell := v]> m |} ].
Proof.
  intros H. pose proof (SetCellValue_absent name cell v f H) as E.
  unfold SetCellValue in *. rewrite map_app, E. simpl. now rewrite name_eqb_refl.
Qed.

Lemma range_SetCellValue_last {A : Type} (name : gostring) (at_ : Z -> Z * Z)
    (val : A -> CellValue) (l : list A) (i : Z) (f : File) (m : gmap (Z * Z) CellValue) :
  has_sheet name f = false ->
  range_from (fun k x f => SetCellValue name (at_ k) (val x) f) i l
    (f ++ [ {| sheet_name := name; sheet_cells := m |} ])
  = f ++ [ {| sheet_name := name;
              sheet_cells := range_from (fun k x m => <[at_ k := val x]> m) i l m |} ].
Proof.
  intros H. revert i m. induction l as [|x l IH]; intros i m; [reflexivity|].
  cbn [range_from]. now rewrite SetCellValue_last, IH.
Qed.

Lemma NewSheet_fresh (name : gostring) (f : File) :
  valid_sheet_name name = true -> has_sheet name f = false ->
  NewSheet name f = f ++ [ {| sheet_name := name; sheet_cells := ∅ |} ].
Proof. unfold NewSheet. now intros -> ->. Qed.

Lemma valid_sheet_name_safe (name : gostring) :
  1 <= len name <= 31 -> Forall (fun c => sheet_safe c = true) name ->
  valid_sheet_name name = true.
Proof.
  intros [Hlo Hhi] Hsafe. unfold valid_sheet_name.
  destruct (Z.leb_spec 1 (len name)); [|lia].
  destruct (Z.leb_spec (len name) 31); [|lia]. cbn [andb].
  assert (Hq : forall c, c ∈ name -> c <> "'"%char).
  { intros c Hc ->. rewrite Forall_forall in Hsafe. specialize (Hsafe _ Hc). discriminate. }
  rewrite bool_decide_eq_false_2, bool_decide_eq_false_2.
  - cbn [negb andb]. apply forallb_forall. intros c Hc.
    rewrite Forall_forall in Hsafe. specialize (Hsafe c).
    unfold sheet_safe in Hsafe. apply list_elem_of_In in Hc.
    now apply andb_true_iff in Hsafe as [-> _].
  - intros Hlast. apply last_Some in Hlast as [l' ->].
    apply (Hq "'"%char); [|reflexivity]. apply elem_of_app. right. left.
  - intros Hhead. apply head_Some in Hhead as [l' ->].
    apply (Hq "'"%char); [left|reflexivity].
Qed.

Lemma word_char_safe (c : ascii) : word_char c = true -> sheet_safe c = true.
Proof. destruct c as [[] [] [] [] [] [] [] []]; vm_compute; congruence. Qed.

Lemma decimal_char_safe (c : ascii) : decimal_char c = true -> sheet_safe c = true.
Proof. destruct c as [[] [] [] [] [] [] [] []]; vm_compute; congruence. Qed.

(** What [createSheetName] returns is a worksheet name. *)
Lemma createSheetName_valid (index : Z) (queryName name : gostring) :
  createSheetName index queryName = Some name -> valid_sheet_name name = true.
Proof.
  intros E. rewrite createSheetName_cases in E. cbv zeta in E.
  remember (clean_sheet_query_name queryName) as q eqn:Eq.
  remember (Itoa index ++ str "_") as p eqn:Ep.
  assert (Hq : Forall (fun c => sheet_safe c = true) q).
  { subst q. eapply Forall_impl; [apply clean_sheet_word_chars|apply word_char_safe]. }
  assert (Hi : Forall (fun c => sheet_safe c = true) (Itoa index)).
  { eapply Forall_impl; [apply Itoa_chars|apply decimal_char_safe]. }
  assert (Hp : Forall (fun c => sheet_safe c = true) p).
  { subst p. apply Forall_app. split; [exact Hi|]. repeat constructor. }
  pose proof (len_nonneg q). pose proof (Itoa_nonempty index) as Hn.
  assert (Hlp : len p = len (Itoa index) + 1) by (subst p; now rewrite len_app).
  destruct (Z.leb_spec (len (p ++ q)) 31) as [Hshort|Hlong];
    [|destruct (Z.ltb_spec (len p) 31)]; injection E as <-;
    rewrite len_app in *; apply valid_sheet_name_safe.
  - rewrite len_app. lia.
  - apply Forall_app. now split.
  - rewrite len_app, len_take; lia.
  - apply Forall_app. split; [exact Hp|]. now apply Forall_take.
  - unfold len in *. rewrite length_take. lia.
  - now apply Forall_take.
Qed.

(** ** One query, in closed form *)

Lemma write_rows_closed {DB : Type} (name : gostring) (ncols : nat)
    (rows : list (gostring + list Value)) (rowIndex : Z) (f : File)
    (m : gmap (Z * Z) CellValue) (lines : list gostring) (db : DB) :
  has_sheet name f = false ->
  DirectExcel.write_rows name ncols rows rowIndex
    {| xlsx := f ++ [ {| sheet_name := name; sheet_cells := m |} ];
       logged := lines; conn := db |}
  = {| xlsx := f ++ [ {| sheet_name := name;
                         sheet_cells := data_cells ncols rows rowIndex m |} ];
       logged := lines ++ scan_log ncols rows; conn := db |}.
Proof.
  intros H. revert rowIndex m lines.
  induction rows as [|r rows IH]; intros rowIndex m lines.
  - cbn. now rewrite app_nil_r.
  - cbn [DirectExcel.write_rows data_cells scan_log].
    destruct (Scan ncols r) as [err|values].
    + unfold log_Printf. cbn [xlsx logged conn]. rewrite IH.
      now rewrite <- app_assoc.
    + unfold on_xlsx, for_range. cbn [xlsx logged conn].
      rewrite (range_SetCellValue_last name (fun k => (k + 1, rowIndex))
                 (fun v => CellStr (DirectExcel.render_cell v))) by assumption.
      now rewrite IH.
Qed.

Section DirectRun.
Context {DB : Type}.
Variable db_Query : DB -> gostring -> (gostring + ResultSet) * DB.

Lemma executeQueryToExcel_closed (query name : gostring) (w : World DB)
    (r : gostring + ResultSet) (db : DB) :
  valid_sheet_name name = true ->
  has_sheet name (xlsx w) = false ->
  db_Query (conn w) query = (r, db) ->
  DirectExcel.executeQueryToExcel db_Query query name w
  = (result_error r,
     {| xlsx := xlsx w ++ match r with
                          | inl _ => []
                          | inr rows => [ {| sheet_name := name;
                                             sheet_cells := result_cells rows |} ]
                          end;
        logged := logged w ++ match r with inl _ => [] | inr rows => result_log rows end;
        conn := db |}).
Proof.
  intros Hvalid Hfresh Hq. unfold DirectExcel.executeQueryToExcel. rewrite Hq.
  destruct r as [err|rows]; cbn [result_error].
  - now rewrite !app_nil_r.
  - unfold on_xlsx. cbn [xlsx logged conn].
    rewrite NewSheet_fresh by assumption.
    unfold result_cells, result_log.
    destruct (rs_columns rows) as [err|columns].
    + now rewrite app_nil_r.
    + unfold for_range.
      rewrite (range_SetCellValue_last name (fun k => (k + 1, 1)) CellStr) by assumption.
      rewrite write_rows_closed by assumption.
      unfold header_cells, for_range.
      destruct (rs_err rows); reflexivity.
Qed.

Lemma foreign_from_mono (i j : Z) (name : gostring) :
  i <= j -> foreign_from i name -> foreign_from j name.
Proof. intros Hij H k q Hk. apply H. lia. Qed.

Lemma execute_queries_closed (queries : list Query) (i : Z) (w : World DB) :
  0 <= i -> i + Z.of_nat (length queries) <= max_int ->
  Forall (foreign_from i) (sheet_names (xlsx w)) ->
  DirectExcel.execute_queries db_Query i queries w
  = Some {| xlsx := xlsx w ++ result_sheets i queries (query_results db_Query queries (conn w));
            logged := logged w ++ run_log queries (query_results db_Query queries (conn w));
            conn := final_conn db_Query queries (conn w) |}.
Proof.
  revert i w. induction queries as [|query queries IH]; intros i w Hi Hmax Hold.
  - cbn. rewrite !app_nil_r. now destruct w.
  - cbn [length] in Hmax.
    assert (Hint : is_int (i + 1)) by (unfold is_int, min_int, max_int in *; lia).
    destruct (createSheetName_prefix (i + 1) (q_Name query) Hint) as [rest Hname].
    set (name := Itoa (i + 1) ++ "_"%char :: rest) in *.
    assert (Hfresh : has_sheet name (xlsx w) = false).
    { apply has_sheet_false. intros Hin.
      rewrite Forall_forall in Hold. apply (Hold _ Hin i (q_Name query)); [lia|lia|exact Hname]. }
    cbn [DirectExcel.execute_queries query_results final_conn result_sheets run_log].
    rewrite Hname. cbn [mbind option_bind].
    destruct (db_Query (conn w) (q_Query query)) as [r db] eqn:Hq.
    rewrite (executeQueryToExcel_closed _ _ _ r db
               (createSheetName_valid _ _ _ Hname) Hfresh Hq).
    cbn [snd].
    match goal with |- DirectExcel.execute_queries _ _ _ ?w' = _ => set (w1 := w') end.
    assert (Hw1 : xlsx w1 = xlsx w ++ match r with
                          | inl _ => []
                          | inr rows => [ {| sheet_name := name;
                                             sheet_cells := result_cells rows |} ]
                          end
                  /\ logged w1 = logged w ++ entry_log query r /\ conn w1 = db).
    { unfold w1, entry_log. destruct (result_error r); unfold log_Printf; cbn [xlsx logged conn];
        rewrite <- ?app_assoc, ?app_nil_r; auto. }
    destruct Hw1 as (Hx & Hl & Hc).
    rewrite IH; [| lia | lia | ].
    + rewrite Hx, Hl, Hc. rewrite <- !app_assoc. now destruct r.
    + rewrite Hx. unfold sheet_names. rewrite map_app. apply Forall_app. split.
      * eapply Forall_impl; [exact Hold|]. intros n. apply foreign_from_mono. lia.
      * destruct r; [constructor|]. repeat constructor. cbn [sheet_name].
        intros j q Hj Hjmax E.
        assert (i + 1 = j + 1); [|lia].
        eapply createSheetName_inj; [exact Hint| |exact Hname|exact E].
        unfold is_int, min_int, max_int in *. lia.
Qed.

End DirectRun.

(** ** The cells of a sheet *)

Lemma range_row_lookup {A : Type} (g : A -> CellValue) (r : Z) (l : list A) (i : Z)
    (m : gmap (Z * Z) CellValue) (c r' : Z) :
  range_from (fun k x m => <[(k + 1, r) := g x]> m) i l m !! (c, r')
  = if (r' =? r) && (i + 1 <=? c) && (c <=? i + Z.of_nat (length l))
    then g <$> l !! Z.to_nat (c - i - 1)
    else m !! (c, r').
Proof.
  revert i m. induction l as [|x l IH]; intros i m.
  - cbn [range_from length].
    destruct (Z.eqb_spec r' r), (Z.leb_spec (i + 1) c), (Z.leb_spec c (i + Z.of_nat 0));
      cbn [andb]; try reflexivity; lia.
  - cbn [range_from]. rewrite IH. cbn [length]. rewrite Nat2Z.inj_succ.
    destruct (Z.eqb_spec r' r) as [Hr|Hr]; cbn [andb].
    + subst r'.
      destruct (Z.leb_spec (i + 1 + 1) c), (Z.leb_spec (i + 1) c),
        (Z.leb_spec c (i + 1 + Z.of_nat (length l))),
        (Z.leb_spec c (i + Z.succ (Z.of_nat (length l)))); cbn [andb]; try lia.
      * replace (Z.to_nat (c - i - 1)) with (S (Z.to_nat (c - (i + 1) - 1))) by lia.
        reflexivity.
      * now other_cell.
      * assert (c = i + 1) as -> by lia.
        rewrite lookup_insert_eq. now replace (Z.to_nat (i + 1 - i - 1)) with O by lia.
      * now other_cell.
    + rewrite lookup_insert_ne by (intros [=]; lia). reflexivity.
Qed.

Lemma header_cells_lookup (columns : list gostring) (c r : Z) :
  header_cells columns ∅ !! (c, r)
  = if (r =? 1) && (1 <=? c) then CellStr <$> columns !! Z.to_nat (c - 1) else None.
Proof.
  unfold header_cells, for_range. rewrite range_row_lookup, lookup_empty.
  destruct (Z.eqb_spec r 1), (Z.leb_spec (0 + 1) c), (Z.leb_spec 1 c),
    (Z.leb_spec c (0 + Z.of_nat (length columns))); cbn [andb]; try reflexivity; try lia.
  - now replace (c - 0 - 1) with (c - 1) by lia.
  - rewrite lookup_ge_None_2; [reflexivity|lia].
Qed.

Lemma row_cells_lookup (rowIndex : Z) (values : list Value)
    (m : gmap (Z * Z) CellValue) (c r : Z) :
  row_cells rowIndex values m !! (c, r)
  = if (r =? rowIndex) && (1 <=? c) && (c <=? Z.of_nat (length values))
    then (fun v => CellStr (DirectExcel.render_cell v)) <$> values !! Z.to_nat (c - 1)
    else m !! (c, r).
Proof.
  unfold row_cells, for_range.
  rewrite (range_row_lookup (fun v => CellStr (DirectExcel.render_cell v))).
  replace (c - 0 - 1) with (c - 1) by lia. reflexivity.
Qed.

Lemma scanned_rows_cons (ncols : nat) (r : gostring + list Value)
    (rows : list (gostring + list Value)) :
  scanned_rows ncols (r :: rows)
  = match Scan ncols r with
    | inr values => values :: scanned_rows ncols rows
    | inl _ => scanned_rows ncols rows
    end.
Proof. unfold scanned_rows. cbn [omap list_omap]. now destruct (Scan ncols r). Qed.

Lemma data_cells_lookup (ncols : nat) (rows : list (gostring + list Value))
    (rowIndex : Z) (m : gmap (Z * Z) CellValue) (c r : Z) :
  (forall c' r', rowIndex <= r' -> m !! (c', r') = None) ->
  data_cells ncols rows rowIndex m !! (c, r)
  = if r <? rowIndex then m !! (c, r)
    else values ← scanned_rows ncols rows !! Z.to_nat (r - rowIndex);
         if 1 <=? c
         then (fun v => CellStr (DirectExcel.render_cell v)) <$> values !! Z.to_nat (c - 1)
         else None.
Proof.
  revert rowIndex m. induction rows as [|row rows IH]; intros rowIndex m Hm.
  - cbn. destruct (Z.ltb_spec r rowIndex); [reflexivity|]. apply Hm. lia.
  - cbn [data_cells]. rewrite scanned_rows_cons.
    destruct (Scan ncols row) as [err|values]; [now apply IH|].
    rewrite IH.
    + destruct (Z.ltb_spec r (rowIndex + 1)), (Z.ltb_spec r rowIndex); try lia.
      * rewrite row_cells_lookup.
        destruct (Z.eqb_spec r rowIndex); [lia|reflexivity].
      * assert (r = rowIndex) as -> by lia.
        rewrite row_cells_lookup, Z.eqb_refl, Z.sub_diag.
        replace ((values :: scanned_rows ncols rows) !! Z.to_nat 0) with (Some values)
          by reflexivity.
        cbn [andb mbind option_bind].
        destruct (Z.leb_spec 1 c); cbn [andb].
        -- destruct (Z.leb_spec c (Z.of_nat (length values))); [reflexivity|].
           rewrite Hm by lia. rewrite lookup_ge_None_2; [reflexivity|lia].
        -- apply Hm. lia.
      * replace (Z.to_nat (r - rowIndex)) with (S (Z.to_nat (r - (rowIndex + 1)))) by lia.
        reflexivity.
    + intros c' r' Hr'. rewrite row_cells_lookup.
      destruct (Z.eqb_spec r' rowIndex); [lia|]. apply Hm. lia.
Qed.

(** A result sheet holds the expected cells, and no others. *)
Lemma result_cells_lookup (rows : ResultSet) (columns : list gostring) (cell : Z * Z) :
  rs_columns rows = inr columns ->
  result_cells rows !! cell
  = expected_cell columns (scanned_rows (length columns) (rs_rows rows)) cell.
Proof.
  intros Hc. destruct cell as [c r]. unfold result_cells, expected_cell. rewrite Hc.
  rewrite data_cells_lookup.
  - rewrite header_cells_lookup.
    destruct (Z.ltb_spec r 2), (Z.leb_spec 1 c), (Z.eqb_spec r 1), (Z.leb_spec 2 r);
      cbn [andb]; try reflexivity; try lia.
    now destruct (scanned_rows _ _ !! _).
  - intros c' r' Hr'. rewrite header_cells_lookup.
    destruct (Z.eqb_spec r' 1); [lia|reflexivity].
Qed.

(** ** The index sheet *)

Lemma index_rows_lookup (queries : list Query) (i : Z) (m : gmap (Z * Z) CellValue)
    (c r : Z) :
  range_from (fun i query m =>
     let rowNum := i + 2 in
     <[(3, rowNum) := CellStr (q_Notes query)]>
       (<[(2, rowNum) := CellStr (q_Query query)]>
          (<[(1, rowNum) := CellInt (i + 1)]> m))) i queries m !! (c, r)
  = match (if (i + 2 <=? r) && (r <=? i + 1 + Z.of_nat (length queries))
           then queries !! Z.to_nat (r - i - 2) else None) with
    | Some query =>
      if c =? 1 then Some (CellInt (r - 1))
      else if c =? 2 then Some (CellStr (q_Query query))
      else if c =? 3 then Some (CellStr (q_Notes query))
      else m !! (c, r)
    | None => m !! (c, r)
    end.
Proof.
  revert i m. induction queries as [|query queries IH]; intros i m.
  - cbn [range_from length].
    destruct ((i + 2 <=? r) && (r <=? i + 1 + Z.of_nat 0)); [|reflexivity].
    now rewrite lookup_nil.
  - cbn [range_from]. cbv zeta. rewrite IH. cbn [length]. rewrite Nat2Z.inj_succ.
    destruct (Z.eq_dec r (i + 2)) as [->|Hr].
    + destruct (Z.leb_spec (i + 1 + 2) (i + 2)); [lia|].
      destruct (Z.leb_spec (i + 2) (i + 2)); [|lia].
      destruct (Z.leb_spec (i + 2) (i + 1 + Z.succ (Z.of_nat (length queries)))); [|lia].
      cbn [andb]. replace (Z.to_nat (i + 2 - i - 2)) with O by lia. cbn [lookup list_lookup].
      destruct (Z.eqb_spec c 1) as [->|Hc1].
      { other_cell. other_cell. rewrite lookup_insert_eq. f_equal. f_equal. lia. }
      destruct (Z.eqb_spec c 2) as [->|Hc2].
      { other_cell. now rewrite lookup_insert_eq. }
      destruct (Z.eqb_spec c 3) as [->|Hc3].
      { now rewrite lookup_insert_eq. }
      now do 3 other_cell.
    + assert (Hm : forall o : option Query,
                match o with
                | Some query0 =>
                  if c =? 1 then Some (CellInt (r - 1))
                  else if c =? 2 then Some (CellStr (q_Query query0))
                  else if c =? 3 then Some (CellStr (q_Notes query0))
                  else <[(3, i + 2):=CellStr (q_Notes query)]>
                         (<[(2, i + 2):=CellStr (q_Query query)]>
                            (<[(1, i + 2):=CellInt (i + 1)]> m)) !! (c, r)
                | None => <[(3, i + 2):=CellStr (q_Notes query)]>
                            (<[(2, i + 2):=CellStr (q_Query query)]>
                               (<[(1, i + 2):=CellInt (i + 1)]> m)) !! (c, r)
                end
                = match o with
                  | Some query0 =>
                    if c =? 1 then Some (CellInt (r - 1))
                    else if c =? 2 then Some (CellStr (q_Query query0))
                    else if c =? 3 then Some (CellStr (q_Notes query0))
                    else m !! (c, r)
                  | None => m !! (c, r)
                  end).
      { intros o. do 3 other_cell. reflexivity. }
      rewrite Hm. f_equal.
      destruct (Z.leb_spec (i + 1 + 2) r), (Z.leb_spec (i + 2) r),
        (Z.leb_spec r (i + 1 + 1 + Z.of_nat (length queries))),
        (Z.leb_spec r (i + 1 + Z.succ (Z.of_nat (length queries))));
        cbn [andb]; try reflexivity; try lia.
      replace (Z.to_nat (r - i - 2)) with (S (Z.to_nat (r - (i + 1) - 2))) by lia.
      reflexivity.
Qed.

(** The index sheet holds the expected cells, and no others. *)
Lemma index_cells_lookup (queries : list Query) (cell : Z * Z) :
  index_cells queries !! cell = expected_index_cell queries cell.
Proof.
  destruct cell as [c r]. unfold index_cells, for_range, expected_index_cell.
  rewrite index_rows_lookup.
  destruct (Z.eqb_spec r 1) as [->|Hr].
  - cbn [Z.leb Z.compare andb Z.add].
    destruct (Z.eqb_spec c 1) as [->|Hc1].
    { other_cell. other_cell. now rewrite lookup_insert_eq. }
    destruct (Z.eqb_spec c 2) as [->|Hc2].
    { other_cell. now rewrite lookup_insert_eq. }
    destruct (Z.eqb_spec c 3) as [->|Hc3].
    { now rewrite lookup_insert_eq. }
    do 3 other_cell. apply lookup_empty.
  - do 3 other_cell. rewrite lookup_empty.
    destruct (Z.leb_spec (0 + 2) r), (Z.leb_spec 2 r),
      (Z.leb_spec r (0 + 1 + Z.of_nat (length queries))); cbn [andb]; try lia.
    + replace (r - 0 - 2) with (r - 2) by lia.
      destruct (queries !! Z.to_nat (r - 2)); cbn [mbind option_bind]; [|reflexivity].
      destruct (c =? 1), (c =? 2), (c =? 3); reflexivity.
    + rewrite lookup_ge_None_2; [reflexivity|lia].
    + reflexivity.
Qed.

Lemma SetCellValue_only (name : gostring) (cell : Z * Z) (v : CellValue)
    (m : gmap (Z * Z) CellValue) :
  SetCellValue name cell v [ {| sheet_name := name; sheet_cells := m |} ]
  = [ {| sheet_name := name; sheet_cells := <[cell := v]> m |} ].
Proof. apply (SetCellValue_last name cell v []). reflexivity. Qed.

Lemma write_executed_queries_closed (queries : list Query) :
  DirectExcel.write_executed_queries queries NewFile = [index_sheet queries].
Proof.
  unfold DirectExcel.write_executed_queries, index_sheet, index_cells, for_range.
  change (SetSheetName (str "Sheet1") DirectExcel.executedQueriesSheetName NewFile)
    with [ {| sheet_name := DirectExcel.executedQueriesSheetName; sheet_cells := ∅ |} ].
  rewrite !SetCellValue_only.
  generalize (<[(3, 1):=CellStr (str "Query Notes")]>
                (<[(2, 1):=CellStr (str "Query")]>
                   (<[(1, 1):=CellStr (str "Sr.No")]> (∅ : gmap (Z * Z) CellValue)))).
  generalize 0.
  induction queries as [|query queries IH]; intros i m; [reflexivity|].
  cbn [range_from]. cbv zeta. rewrite !SetCellValue_only. apply IH.
Qed.

(** ** The whole run, in closed form *)

Section DirectWorkbook.
Context {DB : Type}.
Variable db_Query : DB -> gostring -> (gostring + ResultSet) * DB.

Lemma run_closed (db : DB) (queries : list Query) :
  Z.of_nat (length queries) <= max_int ->
  DirectExcel.executeSQLQueriesAndCreateExcel db_Query db queries
  = Some {| xlsx := index_sheet queries
                    :: result_sheets 0 queries (query_results db_Query queries db);
            logged := run_log queries (query_results db_Query queries db);
            conn := final_conn db_Query queries db |}.
Proof.
  intros Hlen. unfold DirectExcel.executeSQLQueriesAndCreateExcel.
  rewrite write_executed_queries_closed, execute_queries_closed; [reflexivity|lia|lia|].
  repeat constructor. apply executed_queries_foreign.
Qed.

Lemma query_results_length (queries : list Query) (db : DB) :
  length (query_results db_Query queries db) = length queries.
Proof.
  revert db. induction queries as [|q queries IH]; intros db; [reflexivity|].
  cbn [query_results]. destruct (db_Query db (q_Query q)). cbn [length]. now rewrite IH.
Qed.

End DirectWorkbook.

Lemma get_sheet_foreign (name : gostring) (queries : list Query)
    (results : list (gostring + ResultSet)) (i : Z) :
  0 <= i -> foreign_from i name ->
  i + Z.of_nat (length queries) <= max_int ->
  get_sheet name (result_sheets i queries results) = None.
Proof.
  revert results i. induction queries as [|q queries IH]; intros results i Hi Hf Hmax;
    [reflexivity|].
  destruct results as [|r results]; [reflexivity|].
  cbn [result_sheets]. cbn [length] in Hmax.
  assert (Hrest : get_sheet name (result_sheets (i + 1) queries results) = None).
  { apply IH; [lia| |lia]. eapply foreign_from_mono; [|exact Hf]. lia. }
  destruct r as [err|rows]; [exact Hrest|].
  destruct (createSheetName (i + 1) (q_Name q)) as [n|] eqn:E; [|exact Hrest].
  unfold get_sheet in *. cbn [app find sheet_name].
  rewrite name_eqb_neq; [exact Hrest|].
  intros ->. apply (Hf i (q_Name q)); [lia|lia|exact E].
Qed.

(** The sheet of entry [k]: there when its statement executed, holding its
    result, and at the place that follows the sheets of the entries before
    it that executed. *)
Lemma result_sheets_entry (queries : list Query) (results : list (gostring + ResultSet))
    (i : Z) (k : nat) (q : Query) (r : gostring + ResultSet) :
  0 <= i -> i + Z.of_nat (length queries) <= max_int ->
  queries !! k = Some q -> results !! k = Some r ->
  exists name,
    createSheetName (i + Z.of_nat k + 1) (q_Name q) = Some name
    /\ match r with
       | inr rows =>
         get_sheet name (result_sheets i queries results)
           = Some {| sheet_name := name; sheet_cells := result_cells rows |}
         /\ result_sheets i queries results !! executed_before k results
           = Some {| sheet_name := name; sheet_cells := result_cells rows |}
       | inl _ => get_sheet name (result_sheets i queries results) = None
       end.
Proof.
  revert results i k. induction queries as [|q0 queries IH]; intros results i k Hi Hmax Hq Hr;
    [now rewrite lookup_nil in Hq|].
  destruct results as [|r0 results]; [now rewrite lookup_nil in Hr|].
  cbn [length] in Hmax.
  assert (Hint : is_int (i + 1)) by (unfold is_int, min_int, max_int in *; lia).
  destruct (createSheetName_prefix (i + 1) (q_Name q0) Hint) as [rest0 Hname0].
  set (name0 := Itoa (i + 1) ++ "_"%char :: rest0) in *.
  assert (Hf0 : foreign_from (i + 1) name0).
  { intros j q' Hj Hjmax E.
    assert (i + 1 = j + 1); [|lia].
    eapply createSheetName_inj; [exact Hint| |exact Hname0|exact E].
    unfold is_int, min_int, max_int in *. lia. }
  destruct k as [|k].
  - injection Hq as <-. injection Hr as <-.
    exists name0. rewrite Z.add_0_r. split; [exact Hname0|].
    cbn [result_sheets]. rewrite Hname0.
    destruct r0 as [err|rows].
    + apply get_sheet_foreign; [lia|exact Hf0|lia].
    + unfold get_sheet. cbn [app find sheet_name]. rewrite name_eqb_refl.
      split; reflexivity.
  - cbn [lookup list_lookup] in Hq, Hr.
    destruct (IH results (i + 1) k ltac:(lia) ltac:(lia) Hq Hr) as (name & Hname & Hsheet).
    replace (i + 1 + Z.of_nat k + 1) with (i + Z.of_nat (S k) + 1) in Hname by lia.
    exists name. split; [exact Hname|].
    assert (Hne : name0 <> name).
    { intros ->. apply (Hf0 (i + Z.of_nat (S k)) (q_Name q)); [lia| |exact Hname].
      apply lookup_lt_Some in Hq. lia. }
    cbn [result_sheets]. rewrite Hname0.
    destruct r0 as [err0|rows0].
    + cbn [app]. unfold executed_before. cbn [take List.filter executed]. exact Hsheet.
    + unfold get_sheet in *. cbn [app find sheet_name]. rewrite name_eqb_neq by exact Hne.
      unfold executed_before in *. cbn [take List.filter executed length].
      destruct r; [exact Hsheet|]. destruct Hsheet as [Hget Hat]. split; [exact Hget|].
      exact Hat.
Qed.

Lemma result_sheets_length (queries : list Query) (results : list (gostring + ResultSet))
    (i : Z) :
  length results = length queries ->
  length (result_sheets i queries results) = length (List.filter executed results).
Proof.
  revert results i. induction queries as [|q queries IH]; intros results i Hlen.
  - destruct results; [reflexivity|discriminate].
  - destruct results as [|r results]; [discriminate|].
    injection Hlen as Hlen. cbn [result_sheets List.filter].
    rewrite length_app, IH by assumption.
    rewrite createSheetName_cases. now destruct r.
Qed.

Lemma run_log_failure (queries : list Query) (results : list (gostring + ResultSet))
    (k : nat) (q : Query) (err : gostring) :
  queries !! k = Some q -> results !! k = Some (inl err) ->
  failure_line q err ∈ run_log queries results.
Proof.
  revert results k. induction queries as [|q0 queries IH]; intros results k Hq Hr;
    [now rewrite lookup_nil in Hq|].
  destruct results as [|r0 results]; [now rewrite lookup_nil in Hr|].
  cbn [run_log]. apply elem_of_app.
  destruct k as [|k].
  - injection Hq as <-. injection Hr as ->. left.
    unfold entry_log, failure_line. cbn. apply list_elem_of_singleton. reflexivity.
  - right. now apply (IH results k).
Qed.

(** ** Staging files and their order *)

Lemma read_write_file (name : gostring) (records : list CsvRecord) (d : Dir) :
  read_file name (write_file name records d) = Some records.
Proof.
  unfold read_file, write_file.
  destruct (file_exists name d) eqn:E.
  - unfold file_exists in E. induction d as [|[n r] d IH]; [discriminate|].
    cbn [existsb fst] in E. cbn [map find fst].
    destruct (name_eqb n name) eqn:En.
    + cbn [fst]. now rewrite name_eqb_refl.
    + cbn [fst]. rewrite En. apply IH. now rewrite orb_false_l in E.
  - unfold file_exists in E. induction d as [|[n r] d IH].
    + cbn. now rewrite name_eqb_refl.
    + cbn [existsb fst] in E. apply orb_false_iff in E as [En E].
      cbn [app find fst]. rewrite En. now apply IH.
Qed.

Lemma file_exists_false (name : gostring) (d : Dir) :
  file_exists name d = false <-> name ∉ map fst d.
Proof.
  unfold file_exists. induction d as [|e d IH]; cbn [existsb map].
  - split; [intros _ H; inversion H|reflexivity].
  - rewrite orb_false_iff, IH, not_elem_of_cons. unfold name_eqb.
    rewrite bool_decide_eq_false. intuition congruence.
Qed.

Lemma write_file_names (name : gostring) (records : list CsvRecord) (d : Dir) :
  map fst (write_file name records d)
  = if file_exists name d then map fst d else map fst d ++ [name].
Proof.
  unfold write_file. destruct (file_exists name d).
  - induction d as [|[n r] d IH]; [reflexivity|].
    cbn [map fst]. rewrite IH. f_equal.
    unfold name_eqb. case_bool_decide; [now subst|reflexivity].
  - now rewrite map_app.
Qed.

Lemma read_file_is_Some (name : gostring) (d : Dir) :
  name ∈ map fst d -> is_Some (read_file name d).
Proof.
  unfold read_file. induction d as [|[n r] d IH]; [intros H; inversion H|].
  cbn [map fst find]. intros H. apply elem_of_cons in H as [->|H].
  - rewrite name_eqb_refl. eexists. reflexivity.
  - destruct (name_eqb n name); [eexists; reflexivity|now apply IH].
Qed.

(** The position a staging file name carries. *)
Lemma createFileName_key (index : Z) (queryName : gostring) :
  is_int index ->
  Atoi (before_underscore (createFileName index queryName)) = Some index.
Proof.
  intros H. unfold createFileName. cbn [str list_ascii_of_string app].
  rewrite before_underscore_decimal by apply Itoa_chars. now apply Atoi_Itoa.
Qed.

Lemma HasSuffix_app (s suffix : gostring) : HasSuffix (s ++ suffix) suffix = true.
Proof.
  unfold HasSuffix. apply bool_decide_eq_true.
  rewrite length_app. replace (length s + length suffix - length suffix)%nat
    with (length s) by lia.
  now rewrite drop_app_length.
Qed.

Lemma TrimSuffix_app (s suffix : gostring) : TrimSuffix (s ++ suffix) suffix = s.
Proof.
  unfold TrimSuffix. rewrite HasSuffix_app, length_app.
  replace (length s + length suffix - length suffix)%nat with (length s) by lia.
  now rewrite take_app_length.
Qed.

Lemma createFileName_suffix (index : Z) (queryName : gostring) :
  createFileName index queryName
  = (Itoa index ++ str "_" ++ clean_file_query_name queryName) ++ str ".csv".
Proof. unfold createFileName. now rewrite <- !app_assoc. Qed.

Lemma createFileName_not_index (index : Z) (queryName : gostring) :
  createFileName index queryName <> str "executed_queries.csv".
Proof.
  unfold createFileName. pose proof (Itoa_nonempty index) as Hn.
  pose proof (Itoa_chars index) as Hc.
  destruct (Itoa index) as [|c rest]; [unfold len in Hn; simpl in Hn; lia|].
  inversion Hc; subst. intros [= -> _]. discriminate.
Qed.

(** ** The stable sort *)

Lemma insert_sorted_Permutation {A : Type} (less : A -> A -> bool) (x : A) (l : list A) :
  insert_sorted less x l ≡ₚ x :: l.
Proof.
  induction l as [|y l IH]; [reflexivity|].
  cbn [insert_sorted]. destruct (less x y); [reflexivity|].
  rewrite IH. apply Permutation_swap.
Qed.

Lemma foldl_insert_Permutation {A : Type} (less : A -> A -> bool) (l acc : list A) :
  foldl (fun sorted x => insert_sorted less x sorted) acc l ≡ₚ acc ++ l.
Proof.
  revert acc. induction l as [|x l IH]; intros acc; cbn [foldl].
  - now rewrite app_nil_r.
  - rewrite IH, insert_sorted_Permutation. cbn [app]. apply Permutation_middle.
Qed.

Lemma SliceStable_Permutation {A : Type} (less : A -> A -> bool) (l : list A) :
  SliceStable less l ≡ₚ l.
Proof. unfold SliceStable. apply (foldl_insert_Permutation less l []). Qed.

Section SortedByKey.
Context {A : Type} (less : A -> A -> bool) (key : A -> Z).

Lemma insert_sorted_StronglySorted (x : A) (l : list A) :
  (forall b, b ∈ l -> less x b = (key x <? key b)) ->
  StronglySorted (key_le key) l -> StronglySorted (key_le key) (insert_sorted less x l).
Proof.
  intros Hless Hs. induction Hs as [|y l Hs IH Hy]; cbn [insert_sorted].
  - repeat constructor.
  - rewrite (Hless y) by (left).
    destruct (Z.ltb_spec (key x) (key y)).
    + constructor; [now constructor|].
      constructor; [unfold key_le; lia|].
      eapply Forall_impl; [exact Hy|]. unfold key_le. intros; cbn in *; lia.
    + constructor.
      * apply IH. intros b Hb. apply Hless. now right.
      * rewrite insert_sorted_Permutation. constructor; [unfold key_le; lia|exact Hy].
Qed.

Lemma foldl_insert_StronglySorted (l acc : list A) :
  (forall a b, a ∈ acc ++ l -> b ∈ acc ++ l -> less a b = (key a <? key b)) ->
  StronglySorted (key_le key) acc ->
  StronglySorted (key_le key) (foldl (fun sorted x => insert_sorted less x sorted) acc l).
Proof.
  revert acc. induction l as [|x l IH]; intros acc Hless Hs; [exact Hs|].
  cbn [foldl]. apply IH.
  - intros a b Ha Hb. apply Hless.
    + rewrite insert_sorted_Permutation in Ha. now rewrite <- Permutation_middle.
    + rewrite insert_sorted_Permutation in Hb. now rewrite <- Permutation_middle.
  - apply insert_sorted_StronglySorted; [|exact Hs].
    intros b Hb. apply Hless; rewrite elem_of_app, elem_of_cons; auto.
Qed.

(** Where [less] compares keys and the keys are strictly increasing along
    [sorted], sorting any arrangement of [sorted] gives [sorted] back. *)
Lemma SliceStable_unique (l sorted : list A) :
  l ≡ₚ sorted ->
  (forall a b, a ∈ sorted -> b ∈ sorted -> less a b = (key a <? key b)) ->
  StronglySorted (fun a b => key a < key b) sorted ->
  SliceStable less l = sorted.
Proof.
  intros Hperm Hless Hsorted.
  assert (Hinj : forall a b, a ∈ sorted -> b ∈ sorted -> key a = key b -> a = b).
  { clear Hperm Hless. induction Hsorted as [|y s Hs IH Hy]; intros a b Ha Hb E.
    - inversion Ha.
    - rewrite Forall_forall in Hy.
      apply elem_of_cons in Ha as [->|Ha]; apply elem_of_cons in Hb as [->|Hb];
        [reflexivity| | |now apply IH].
      + specialize (Hy _ Hb). lia.
      + specialize (Hy _ Ha). lia. }
  apply (StronglySorted_unique_strong (key_le key)).
  - intros a b Ha Hb H1 H2. apply Hinj.
    + now rewrite SliceStable_Permutation, Hperm in Ha.
    + exact Hb.
    + unfold key_le in *. lia.
  - unfold SliceStable. apply foldl_insert_StronglySorted; [|constructor].
    cbn [app]. intros a b Ha Hb. apply Hless; now rewrite <- Hperm.
  - clear -Hsorted. induction Hsorted as [|y s Hs IH Hy]; constructor; [exact IH|].
    eapply Forall_impl; [exact Hy|]. unfold key_le. intros; cbn in *; lia.
  - now rewrite SliceStable_Permutation.
Qed.

End SortedByKey.

(** ** The staging run *)

Lemma map_range_lookup {A B : Type} (f : Z -> A -> B) (i : Z) (l : list A) (k : nat) :
  map_range f i l !! k = f (i + Z.of_nat k) <$> l !! k.
Proof.
  revert i k. induction l as [|x l IH]; intros i k; [now rewrite !lookup_nil|].
  destruct k as [|k]; cbn [map_range lookup list_lookup].
  - cbn. f_equal. f_equal. lia.
  - rewrite IH. destruct (l !! k); cbn; [|reflexivity]. do 2 f_equal. lia.
Qed.

Lemma map_range_length {A B : Type} (f : Z -> A -> B) (i : Z) (l : list A) :
  length (map_range f i l) = length l.
Proof. revert i. induction l as [|x l IH]; intros i; cbn; [reflexivity|now rewrite IH]. Qed.

Lemma map_range_map {A B C : Type} (g : B -> C) (f : Z -> A -> B) (i : Z) (l : list A) :
  map g (map_range f i l) = map_range (fun k x => g (f k x)) i l.
Proof. revert i. induction l as [|x l IH]; intros i; cbn; [reflexivity|now rewrite IH]. Qed.

Lemma scanned_rows_width (ncols : nat) (rows : list (gostring + list Value)) :
  Forall (fun values => length values = ncols) (scanned_rows ncols rows).
Proof.
  induction rows as [|r rows IH]; [constructor|].
  rewrite scanned_rows_cons. destruct (Scan ncols r) as [err|values] eqn:E; [exact IH|].
  constructor; [|exact IH]. unfold Scan in E. destruct r as [e|vs]; [discriminate|].
  destruct (Nat.eqb_spec (length vs) ncols); [|discriminate]. congruence.
Qed.

Lemma read_file_write_file_other (other name : gostring) (records : list CsvRecord) (d : Dir) :
  other <> name -> read_file other (write_file name records d) = read_file other d.
Proof.
  intros Hne. unfold read_file, write_file. f_equal.
  destruct (file_exists name d).
  - induction d as [|[n r] d IH]; [reflexivity|]. cbn [map find fst].
    destruct (name_eqb n name) eqn:E.
    + apply bool_decide_eq_true in E. subst n. cbn [fst].
      rewrite !name_eqb_neq by congruence. exact IH.
    + cbn [fst]. destruct (name_eqb n other); [reflexivity|exact IH].
  - induction d as [|[n r] d IH]; cbn [app find fst].
    + rewrite name_eqb_neq by congruence. reflexivity.
    + destruct (name_eqb n other); [reflexivity|exact IH].
Qed.

Lemma csv_rows_closed (render : Value -> gostring) (ncols : nat)
    (rows : list (gostring + list Value)) :
  csv_rows render ncols rows
  = (map (map render) (scanned_rows ncols rows), scan_log ncols rows).
Proof.
  induction rows as [|r rows IH]; [reflexivity|].
  cbn [csv_rows scan_log]. rewrite IH, scanned_rows_cons.
  now destruct (Scan ncols r).
Qed.

(** ** Reading back what was written *)

Lemma ReadAll_rectangular (written : list CsvRecord) :
  rectangular written ->
  ReadAll written
  = Some (map (map crlf_to_lf)
              (List.filter (fun record => negb (blank_record record)) written)).
Proof.
  intros [n Hn]. unfold ReadAll. cbv zeta.
  assert (Hall : Forall (fun record : CsvRecord => length record = n)
                   (map (map crlf_to_lf)
                        (List.filter (fun record => negb (blank_record record)) written))).
  { apply Forall_map. rewrite Forall_forall in Hn. apply Forall_forall.
    intros record Hin. apply list_elem_of_In, filter_In in Hin as [Hin _].
    cbn. rewrite length_map. apply Hn. now apply list_elem_of_In. }
  destruct (map _ _) as [|first records]; [reflexivity|].
  replace (forallb _ _) with true; [reflexivity|].
  symmetry. apply forallb_forall. intros record Hin. apply Nat.eqb_eq.
  rewrite Forall_forall in Hall.
  rewrite (Hall record) by now apply list_elem_of_In.
  symmetry. apply Hall. left.
Qed.

Lemma read_records_rectangular (name : gostring) (d : Dir) :
  Forall (fun e => rectangular (snd e)) d -> name ∈ map fst d ->
  is_Some (read_records name d).
Proof.
  intros Hall Hin. destruct (read_file_is_Some name d Hin) as [records Hread].
  unfold read_records. rewrite Hread. cbn [mbind option_bind].
  rewrite ReadAll_rectangular; [eauto|].
  unfold read_file in Hread. destruct (find _ d) as [e|] eqn:E; [|discriminate].
  injection Hread as <-. apply find_some in E as [E _].
  rewrite Forall_forall in Hall. apply Hall. now apply list_elem_of_In.
Qed.

Lemma write_file_rectangular (name : gostring) (records : list CsvRecord) (d : Dir) :
  rectangular records -> Forall (fun e => rectangular (snd e)) d ->
  Forall (fun e => rectangular (snd e)) (write_file name records d).
Proof.
  intros Hr Hd. unfold write_file. destruct (file_exists name d).
  - apply Forall_map. eapply Forall_impl; [exact Hd|].
    intros [n r] He. cbn. now destruct (name_eqb n name).
  - apply Forall_app. split; [exact Hd|]. now repeat constructor.
Qed.

Lemma file_records_rectangular (render : Value -> gostring) (rows : ResultSet) :
  rectangular (file_records render rows).
Proof.
  unfold file_records. destruct (rs_columns rows) as [err|columns].
  - exists O. constructor.
  - exists (length columns). constructor; [reflexivity|]. apply Forall_map.
    eapply Forall_impl; [apply scanned_rows_width|].
    intros values Hw. cbn. now rewrite length_map.
Qed.

Lemma Forall_map_range {A B : Type} (P : B -> Prop) (f : Z -> A -> B) (i : Z) (l : list A) :
  (forall j x, P (f j x)) -> Forall P (map_range f i l).
Proof.
  intros H. revert i. induction l as [|x l IH]; intros i; cbn; constructor; auto.
Qed.

Section StagingRun.
Context {DB : Type}.
Variable db_Query : DB -> gostring -> (gostring + ResultSet) * DB.
Variable creatable : gostring -> bool.

Lemma csv_executeQuery_Some (render : Value -> gostring) (query fileName : gostring)
    (w w' : CsvWorld DB) :
  csv_executeQuery db_Query creatable render query fileName w = Some w' ->
  exists rows,
    db_Query (csv_conn w) query = (inr rows, csv_conn w')
    /\ dir w' = write_file fileName (file_records render rows) (dir w).
Proof.
  unfold csv_executeQuery, file_records.
  destruct (db_Query (csv_conn w) query) as [[err|rows] db]; [discriminate|].
  destruct (creatable fileName); [|discriminate]. cbn [negb].
  destruct (rs_columns rows) as [err|columns] eqn:Ec.
  - intros [= <-]. exists rows. rewrite Ec. now split.
  - rewrite csv_rows_closed. intros [= <-]. exists rows. rewrite Ec. now split.
Qed.

Lemma csv_executeQuery_dir (render : Value -> gostring) (query fileName : gostring)
    (w w' : CsvWorld DB) :
  csv_executeQuery db_Query creatable render query fileName w = Some w' ->
  exists records, dir w' = write_file fileName records (dir w).
Proof.
  unfold csv_executeQuery.
  destruct (db_Query (csv_conn w) query) as [[err|rows] db]; [discriminate|].
  destruct (creatable fileName); [|discriminate]. cbn [negb].
  destruct (rs_columns rows) as [err|columns].
  - intros [= <-]. eexists. reflexivity.
  - destruct (csv_rows render (length columns) (rs_rows rows)) as [records lines].
    intros [= <-]. eexists. reflexivity.
Qed.

(** The index records do not depend on what the queries return. *)
Lemma stage_queries_index (queries : list Query) (i fileCounter : Z)
    (index index' : list CsvRecord) (w w' : CsvWorld DB) :
  CsvStaging.stage_queries db_Query creatable i fileCounter queries index w = Some (index', w') ->
  index' = index ++ map_range (fun i query => [Itoa (i + 1); q_Query query; q_Notes query])
                              i queries.
Proof.
  revert i fileCounter index w.
  induction queries as [|q queries IH]; intros i fileCounter index w.
  - cbn. intros [= <- _]. now rewrite app_nil_r.
  - cbn [CsvStaging.stage_queries map_range].
    destruct (CsvStaging.executeQuery db_Query creatable (q_Query q)
                (createFileName fileCounter (q_Name q)) w) as [w1|]; [|discriminate].
    cbn [mbind option_bind]. intros H. apply IH in H. rewrite H.
    now rewrite <- app_assoc.
Qed.

Lemma stage_queries_files (queries : list Query) (i : Z)
    (index index' : list CsvRecord) (w w' : CsvWorld DB) :
  0 <= i -> i + Z.of_nat (length queries) + 1 <= max_int ->
  Forall (file_foreign_from (i + 1)) (map fst (dir w)) ->
  CsvStaging.stage_queries db_Query creatable i (i + 1) queries index w = Some (index', w') ->
  map fst (dir w')
  = map fst (dir w) ++ map_range (fun i query => createFileName (i + 1) (q_Name query))
                                 i queries.
Proof.
  revert i index w.
  induction queries as [|q queries IH]; intros i index w Hi Hmax Hold.
  - cbn. intros [= _ <-]. now rewrite app_nil_r.
  - cbn [CsvStaging.stage_queries map_range]. cbn [length] in Hmax.
    destruct (CsvStaging.executeQuery db_Query creatable (q_Query q)
                (createFileName (i + 1) (q_Name q)) w) as [w1|] eqn:E; [|discriminate].
    cbn [mbind option_bind].
    apply csv_executeQuery_dir in E as [records E].
    rewrite (wrap_small (i + 1 + 1)) by (unfold is_int, min_int, max_int in *; lia).
    intros H. apply IH in H; [| lia | lia | ].
    + rewrite H, E, write_file_names.
      replace (file_exists (createFileName (i + 1) (q_Name q)) (dir w)) with false.
      * now rewrite <- app_assoc.
      * symmetry. apply file_exists_false. intros Hin.
        rewrite Forall_forall in Hold.
        apply (Hold _ Hin (i + 1) (q_Name q)); [lia|lia|reflexivity].
    + rewrite E, write_file_names.
      assert (Hnew : file_foreign_from (i + 1 + 1) (createFileName (i + 1) (q_Name q))).
      { intros k q' Hk Hkmax Ek.
        assert (Hkey : Some k = Some (i + 1)); [|injection Hkey; lia].
        rewrite <- (createFileName_key k q'), <- (createFileName_key (i + 1) (q_Name q));
          [now rewrite Ek| |]; unfold is_int, min_int, max_int in *; lia. }
      assert (Hmono : Forall (file_foreign_from (i + 1 + 1)) (map fst (dir w))).
      { eapply Forall_impl; [exact Hold|]. intros n Hn k q' Hk. apply Hn. lia. }
      destruct (file_exists _ (dir w)); [exact Hmono|].
      apply Forall_app. split; [exact Hmono|]. now repeat constructor.
Qed.

(** What [executeSQLQueries] leaves in the temporary directory, when it
    returns at all. *)
Lemma executeSQLQueries_dir (db : DB) (queries : list Query) (w : CsvWorld DB) :
  CsvStaging.executeSQLQueries db_Query creatable db queries = Some w ->
  read_file CsvStaging.executed_queries (dir w) = Some (expected_index_records queries)
  /\ (Z.of_nat (length queries) + 1 <= max_int ->
      map fst (dir w) = CsvStaging.executed_queries :: staged_files queries).
Proof.
  unfold CsvStaging.executeSQLQueries.
  destruct (creatable CsvStaging.executed_queries); [|discriminate]. cbn [negb].
  match goal with |- context [CsvStaging.stage_queries _ _ _ _ _ ?ix ?w0] =>
    destruct (CsvStaging.stage_queries db_Query creatable 0 1 queries ix w0)
      as [[index w1]|] eqn:E end; [|discriminate].
  cbn [mbind option_bind]. intros [= <-]. cbn [dir]. split.
  - rewrite read_write_file. f_equal. now apply stage_queries_index in E.
  - intros Hmax. rewrite write_file_names.
    apply (stage_queries_files queries 0) in E; [| lia | lia | ].
    + cbn [dir] in E.
      destruct (file_exists CsvStaging.executed_queries (dir w1)) eqn:Ex.
      * rewrite E. reflexivity.
      * apply file_exists_false in Ex. exfalso. apply Ex. rewrite E. left.
    + cbn [dir]. repeat constructor. intros k q' _ _. apply createFileName_not_index.
Qed.

Lemma stage_queries_rectangular (queries : list Query) (i fileCounter : Z)
    (index index' : list CsvRecord) (w w' : CsvWorld DB) :
  CsvStaging.stage_queries db_Query creatable i fileCounter queries index w = Some (index', w') ->
  Forall (fun e => rectangular (snd e)) (dir w) ->
  Forall (fun e => rectangular (snd e)) (dir w').
Proof.
  revert i fileCounter index w.
  induction queries as [|q queries IH]; intros i fileCounter index w.
  - cbn. now intros [= _ <-].
  - cbn [CsvStaging.stage_queries].
    destruct (CsvStaging.executeQuery db_Query creatable (q_Query q)
                (createFileName fileCounter (q_Name q)) w) as [w1|] eqn:E; [|discriminate].
    cbn [mbind option_bind]. intros H Hw. apply IH in H; [exact H|].
    apply csv_executeQuery_Some in E as (rows & _ & ->).
    apply write_file_rectangular; [apply file_records_rectangular|exact Hw].
Qed.

(** Every file a staging run leaves can be read back. *)
Lemma executeSQLQueries_readable (db : DB) (queries : list Query) (w : CsvWorld DB)
    (name : gostring) :
  CsvStaging.executeSQLQueries db_Query creatable db queries = Some w ->
  name ∈ map fst (dir w) -> is_Some (read_records name (dir w)).
Proof.
  unfold CsvStaging.executeSQLQueries.
  destruct (creatable CsvStaging.executed_queries); [|discriminate]. cbn [negb].
  match goal with |- context [CsvStaging.stage_queries _ _ _ _ _ ?ix ?w0] =>
    destruct (CsvStaging.stage_queries db_Query creatable 0 1 queries ix w0)
      as [[index w1]|] eqn:E end; [|discriminate].
  cbn [mbind option_bind]. intros [= <-]. cbn [dir]. apply read_records_rectangular.
  apply write_file_rectangular.
  - apply stage_queries_index in E. subst index. exists 3%nat.
    apply Forall_app. split; [now repeat constructor|].
    apply Forall_map_range. reflexivity.
  - apply stage_queries_rectangular in E; [exact E|]. cbn [dir].
    repeat constructor. exists O. constructor.
Qed.

End StagingRun.

(** ** The merge takes the staging files in catalog order *)

Lemma filter_Permutation_bool {A : Type} (f : A -> bool) (l l' : list A) :
  l ≡ₚ l' -> List.filter f l ≡ₚ List.filter f l'.
Proof.
  induction 1 as [|x l l' _ IH|x y l|l1 l2 l3 _ IH1 _ IH2]; cbn [List.filter].
  - reflexivity.
  - destruct (f x); [now constructor|exact IH].
  - destruct (f x), (f y); try reflexivity. apply Permutation_swap.
  - now rewrite IH1.
Qed.

Lemma map_range_elem {A B : Type} (f : Z -> A -> B) (i : Z) (l : list A) (b : B) :
  b ∈ map_range f i l ->
  exists (k : nat) (x : A), l !! k = Some x /\ b = f (i + Z.of_nat k) x.
Proof.
  intros H. apply list_elem_of_lookup in H as [k Hk].
  rewrite map_range_lookup in Hk.
  destruct (l !! k) as [x|] eqn:E; [|discriminate].
  injection Hk as <-. eauto.
Qed.

Lemma map_range_StronglySorted {A : Type} (f : Z -> A -> gostring) (key : gostring -> Z)
    (hi : Z) (l : list A) (i : Z) :
  (forall j x, 0 <= j <= hi -> key (f j x) = j + 1) ->
  0 <= i -> i + Z.of_nat (length l) <= hi + 1 ->
  StronglySorted (fun a b => key a < key b) (map_range f i l).
Proof.
  intros Hkey. revert i. induction l as [|x l IH]; intros i Hi Hhi; cbn [map_range].
  - constructor.
  - cbn [length] in Hhi. constructor; [apply IH; lia|].
    apply Forall_forall. intros b Hb.
    apply map_range_elem in Hb as (k & y & Hk & ->).
    apply lookup_lt_Some in Hk. rewrite !Hkey by lia. lia.
Qed.

Lemma StronglySorted_lt_NoDup {A : Type} (key : A -> Z) (l : list A) :
  StronglySorted (fun a b => key a < key b) l -> NoDup l.
Proof.
  induction 1 as [|x l _ IH Hx]; constructor; [|exact IH].
  intros Hin. rewrite Forall_forall in Hx. specialize (Hx _ Hin). lia.
Qed.

Lemma file_key_createFileName (index : Z) (queryName : gostring) :
  is_int index -> file_key (createFileName index queryName) = index.
Proof. intros H. unfold file_key. now rewrite createFileName_key. Qed.

Lemma file_key_staged_sheet_name (i : Z) (query : Query) :
  is_int (i + 1) -> file_key (staged_sheet_name i query) = i + 1.
Proof.
  intros H. unfold file_key, staged_sheet_name. cbn [str list_ascii_of_string app].
  rewrite before_underscore_decimal by apply Itoa_chars. now rewrite Atoi_Itoa.
Qed.

Lemma staged_files_sorted (queries : list Query) :
  Z.of_nat (length queries) + 1 <= max_int ->
  StronglySorted (fun a b => file_key a < file_key b) (staged_files queries).
Proof.
  intros Hmax. unfold staged_files.
  apply (map_range_StronglySorted _ file_key (Z.of_nat (length queries))); [|lia|lia].
  intros j x Hj. apply file_key_createFileName.
  unfold is_int, min_int, max_int in *. lia.
Qed.

Lemma staged_files_elem (queries : list Query) (a : gostring) :
  Z.of_nat (length queries) + 1 <= max_int ->
  a ∈ staged_files queries ->
  exists k queryName, is_int k /\ a = createFileName k queryName.
Proof.
  intros Hmax Ha. apply map_range_elem in Ha as (k & q & Hk & ->).
  apply lookup_lt_Some in Hk. eexists _, _. split; [|reflexivity].
  unfold is_int, min_int, max_int in *. lia.
Qed.

(** Whatever order the directory listing has, the merge goes through the
    index file first and then the staging files by position. *)
Lemma sortedFiles_catalog_order (queries : list Query) (files : list gostring) :
  Z.of_nat (length queries) + 1 <= max_int ->
  files ≡ₚ CsvStaging.executed_queries :: staged_files queries ->
  CsvStaging.sortedFiles files = CsvStaging.executed_queries :: staged_files queries.
Proof.
  intros Hmax Hperm. unfold CsvStaging.sortedFiles.
  change (str "executed_queries.csv") with CsvStaging.executed_queries.
  f_equal.
  rewrite (filter_keeps_all (fun file => HasSuffix file (str ".csv"))).
  2:{ apply Forall_forall. intros a Ha. rewrite Hperm in Ha.
      apply elem_of_cons in Ha as [->|Ha]; [reflexivity|].
      apply staged_files_elem in Ha as (k & q & _ & ->); [|exact Hmax].
      rewrite createFileName_suffix. apply HasSuffix_app. }
  apply (SliceStable_unique CsvStaging.less file_key).
  - rewrite (filter_Permutation_bool _ _ _ Hperm). cbn [List.filter].
    rewrite name_eqb_refl. cbn [negb].
    rewrite filter_keeps_all; [reflexivity|].
    apply Forall_forall. intros a Ha.
    apply staged_files_elem in Ha as (k & q & _ & ->); [|exact Hmax].
    rewrite name_eqb_neq; [reflexivity|apply createFileName_not_index].
  - intros a b Ha Hb.
    apply staged_files_elem in Ha as (ka & qa & Hka & ->); [|exact Hmax].
    apply staged_files_elem in Hb as (kb & qb & Hkb & ->); [|exact Hmax].
    unfold CsvStaging.less, file_key. now rewrite !createFileName_key.
  - now apply staged_files_sorted.
Qed.

(** ** The merged workbook *)

Lemma sheet_names_SetCellValue (name : gostring) (cell : Z * Z) (v : CellValue) (f : File) :
  sheet_names (SetCellValue name cell v f) = sheet_names f.
Proof.
  unfold sheet_names, SetCellValue. rewrite map_map. apply map_ext.
  intros s. now destruct (name_eqb (sheet_name s) name).
Qed.

Lemma sheet_names_range {A : Type} (body : Z -> A -> File -> File) (l : list A)
    (i : Z) (f : File) :
  (forall k x g, sheet_names (body k x g) = sheet_names g) ->
  sheet_names (range_from body i l f) = sheet_names f.
Proof.
  intros Hbody. revert i f. induction l as [|x l IH]; intros i f; [reflexivity|].
  cbn [range_from]. now rewrite IH, Hbody.
Qed.

Lemma sheet_names_write_cells (sheetName : gostring) (rows : list CsvRecord) (f : File) :
  sheet_names
    (for_range (fun rowIndex row f =>
       for_range (fun colIndex cellValue f =>
         SetCellValue sheetName (colIndex + 1, rowIndex + 1) (CellStr cellValue) f) row f)
       rows f)
  = sheet_names f.
Proof.
  unfold for_range. apply sheet_names_range. intros k row g.
  apply sheet_names_range. intros c v h. apply sheet_names_SetCellValue.
Qed.

Lemma add_sheets_names (d : Dir) (files : list gostring) (i : Z) (f : File) :
  1 <= i ->
  (forall x, x ∈ files -> is_Some (read_records x d)) ->
  (forall x, x ∈ files -> valid_sheet_name (TrimSuffix x (str ".csv")) = true) ->
  NoDup (map (fun x => TrimSuffix x (str ".csv")) files) ->
  (forall x, x ∈ files -> TrimSuffix x (str ".csv") ∉ sheet_names f) ->
  sheet_names (range_from (CsvStaging.add_sheet d) i files f)
  = sheet_names f ++ map (fun x => TrimSuffix x (str ".csv")) files.
Proof.
  revert i f. induction files as [|x files IH]; intros i f Hi Hread Hvalid Hnd Hfresh.
  - cbn. now rewrite app_nil_r.
  - cbn [range_from map]. apply NoDup_cons in Hnd as [Hx Hnd].
    assert (Hstep : sheet_names (CsvStaging.add_sheet d i x f)
                    = sheet_names f ++ [TrimSuffix x (str ".csv")]).
    { unfold CsvStaging.add_sheet.
      destruct (Hread x) as [rows ->]; [left|].
      rewrite sheet_names_write_cells.
      destruct (Z.eqb_spec i 0); [lia|].
      rewrite NewSheet_fresh; [unfold sheet_names; now rewrite map_app| |].
      - apply Hvalid. left.
      - apply has_sheet_false. apply Hfresh. left. }
    rewrite IH; [| lia | | | exact Hnd | ].
    + rewrite Hstep. now rewrite <- app_assoc.
    + intros y Hy. apply Hread. now right.
    + intros y Hy. apply Hvalid. now right.
    + intros y Hy. rewrite Hstep. rewrite not_elem_of_app. split.
      * apply Hfresh. now right.
      * rewrite list_elem_of_singleton. intros E. apply Hx. rewrite <- E.
        apply list_elem_of_fmap. eauto.
Qed.

Lemma map_range_ext {A B : Type} (f g : Z -> A -> B) (i : Z) (l : list A) :
  (forall j x, f j x = g j x) -> map_range f i l = map_range g i l.
Proof.
  intros H. revert i. induction l as [|x l IH]; intros i; cbn; [reflexivity|].
  now rewrite H, IH.
Qed.

Lemma staged_files_trimmed (queries : list Query) :
  map (fun x => TrimSuffix x (str ".csv")) (staged_files queries)
  = map_range staged_sheet_name 0 queries.
Proof.
  unfold staged_files. rewrite map_range_map. apply map_range_ext.
  intros j q. rewrite createFileName_suffix. apply TrimSuffix_app.
Qed.

Lemma staged_sheet_name_not_index (i : Z) (query : Query) :
  staged_sheet_name i query <> str "executed_queries".
Proof.
  unfold staged_sheet_name. pose proof (Itoa_nonempty (i + 1)) as Hn.
  pose proof (Itoa_chars (i + 1)) as Hc.
  destruct (Itoa (i + 1)) as [|c rest]; [unfold len in Hn; simpl in Hn; lia|].
  inversion Hc; subst. intros [= -> _]. discriminate.
Qed.

(** The workbook [createExcelFromCSV] builds from a directory that holds
    the index file and the staging files of the catalog. *)
Lemma staged_sheet_name_valid (i : Z) (query : Query) :
  len (staged_sheet_name i query) <= 31 ->
  valid_sheet_name (staged_sheet_name i query) = true.
Proof.
  intros Hlen. apply valid_sheet_name_safe.
  - split; [|exact Hlen]. unfold staged_sheet_name. rewrite len_app.
    pose proof (Itoa_nonempty (i + 1)).
    pose proof (len_nonneg (str "_" ++ clean_file_query_name (q_Name query))). lia.
  - unfold staged_sheet_name. apply Forall_app. split; [|apply Forall_app; split].
    + eapply Forall_impl; [apply Itoa_chars|apply decimal_char_safe].
    + repeat constructor.
    + eapply Forall_impl; [apply clean_file_word_chars|apply word_char_safe].
Qed.

Lemma createExcelFromCSV_names (d : Dir) (queries : list Query) :
  Z.of_nat (length queries) + 1 <= max_int ->
  (forall (k : nat) q, queries !! k = Some q ->
     len (staged_sheet_name (Z.of_nat k) q) <= 31) ->
  map fst d = CsvStaging.executed_queries :: staged_files queries ->
  (forall x, x ∈ map fst d -> is_Some (read_records x d)) ->
  sheet_names (CsvStaging.createExcelFromCSV d)
  = str "executed_queries" :: map_range staged_sheet_name 0 queries.
Proof.
  intros Hmax Hfit Hd Hreadable. unfold CsvStaging.createExcelFromCSV, ReadDir.
  rewrite (sortedFiles_catalog_order queries);
    [|exact Hmax|now rewrite SliceStable_Permutation, Hd].
  unfold for_range. cbn [range_from].
  assert (Hfirst : sheet_names (CsvStaging.add_sheet d 0 CsvStaging.executed_queries NewFile)
                   = [str "executed_queries"]).
  { unfold CsvStaging.add_sheet.
    destruct (Hreadable CsvStaging.executed_queries) as [rows ->];
      [rewrite Hd; left|].
    now rewrite sheet_names_write_cells. }
  rewrite add_sheets_names; [| lia | | | | ].
  - now rewrite Hfirst, staged_files_trimmed.
  - intros x Hx. apply Hreadable. rewrite Hd. now right.
  - intros x Hx.
    assert (Hin : TrimSuffix x (str ".csv")
                  ∈ map (fun x => TrimSuffix x (str ".csv")) (staged_files queries))
      by (apply list_elem_of_fmap; eauto).
    rewrite staged_files_trimmed in Hin.
    apply map_range_elem in Hin as (k & q & Hk & ->).
    apply staged_sheet_name_valid. rewrite Z.add_0_l. now apply Hfit.
  - rewrite staged_files_trimmed.
    apply (StronglySorted_lt_NoDup file_key).
    apply (map_range_StronglySorted _ file_key (Z.of_nat (length queries))); [|lia|lia].
    intros j q Hj. apply file_key_staged_sheet_name.
    unfold is_int, min_int, max_int in *. lia.
  - intros x Hx. rewrite Hfirst, list_elem_of_singleton.
    assert (Hin : TrimSuffix x (str ".csv")
                  ∈ map (fun x => TrimSuffix x (str ".csv")) (staged_files queries))
      by (apply list_elem_of_fmap; eauto).
    rewrite staged_files_trimmed in Hin.
    apply map_range_elem in Hin as (k & q & _ & ->).
    apply staged_sheet_name_not_index.
Qed.

(** ** The workbook of a run *)

Lemma executed_before_all (results : list (gostring + ResultSet)) (k : nat) :
  Forall (fun r => executed r = true) results -> (k <= length results)%nat ->
  executed_before k results = k.
Proof.
  intros Hall Hk. unfold executed_before.
  rewrite filter_keeps_all by now apply Forall_take.
  rewrite length_take. lia.
Qed.

Lemma get_sheet_skip_index (name : gostring) (queries : list Query) (rest : File) :
  name <> DirectExcel.executedQueriesSheetName ->
  get_sheet name (index_sheet queries :: rest) = get_sheet name rest.
Proof.
  intros Hne. unfold get_sheet. cbn [find index_sheet sheet_name].
  rewrite name_eqb_neq; [reflexivity|congruence].
Qed.

Lemma createSheetName_not_index (index : Z) (queryName name : gostring) :
  createSheetName index queryName = Some name ->
  name <> DirectExcel.executedQueriesSheetName.
Proof.
  intros E ->. apply createSheetName_head in E as (c & rest & E & Hc).
  injection E as <- _. discriminate Hc.
Qed.

(** C1, as stated, fails: a statement that does not execute leaves no
    sheet, and the workbook of a one-entry catalog then has one sheet. *)
Lemma failed_query_leaves_no_sheet :
  exists w,
    DirectExcel.executeSQLQueriesAndCreateExcel sample_Query 0%nat [bad_query "Broken"] = Some w
    /\ sheet_names (xlsx w) = [str "executed_queries"]
    /\ length (xlsx w) <> S (length [bad_query "Broken"]).
Proof.
  eexists. split; [vm_compute; reflexivity|]. split; [reflexivity|]. cbn. lia.
Qed.

(** C1, amended.  For a catalog of length [N] (a Go [int]), the workbook
    written directly holds the index sheet first, then one sheet per
    catalog entry whose statement executed, in catalog order, named from
    the entry's 1-based position and name and holding that entry's result;
    these are [N + 1] sheets, sheet [k + 1] for entry [k], when every
    statement executes.  In the staging revision, which only returns when
    every statement executed, the merge takes the index file first and then
    the staging files by position, whatever order the directory was listed
    in; where the staging names fit the 31 characters of a worksheet name,
    the merged workbook has the [N + 1] sheets in that order. *)
Theorem workbook_sheets_follow_catalog {DB : Type}
    (db_Query : DB -> gostring -> (gostring + ResultSet) * DB)
    (creatable : gostring -> bool) (db : DB) (queries : list Query) :
  Z.of_nat (length queries) + 1 <= max_int ->
  let results := query_results db_Query queries db in
  (exists w,
     DirectExcel.executeSQLQueriesAndCreateExcel db_Query db queries = Some w
     /\ sheet_names (xlsx w) !! 0%nat = Some (str "executed_queries")
     /\ length (xlsx w) = S (length (List.filter executed results))
     /\ (forall k q rows,
           queries !! k = Some q -> results !! k = Some (inr rows) ->
           exists name sheet,
             createSheetName (Z.of_nat k + 1) (q_Name q) = Some name
             /\ xlsx w !! S (executed_before k results) = Some sheet
             /\ sheet_name sheet = name
             /\ forall columns, rs_columns rows = inr columns ->
                forall cell, sheet_cells sheet !! cell
                  = expected_cell columns (scanned_rows (length columns) (rs_rows rows)) cell)
     /\ (Forall (fun r => executed r = true) results ->
           length (xlsx w) = S (length queries)
           /\ forall k q, queries !! k = Some q ->
              exists name sheet,
                createSheetName (Z.of_nat k + 1) (q_Name q) = Some name
                /\ xlsx w !! S k = Some sheet /\ sheet_name sheet = name))
  /\ (forall w,
        CsvStaging.executeSQLQueries db_Query creatable db queries = Some w ->
        (forall files, files ≡ₚ map fst (dir w) ->
           CsvStaging.sortedFiles files = CsvStaging.executed_queries :: staged_files queries)
        /\ ((forall (k : nat) q, queries !! k = Some q ->
               len (staged_sheet_name (Z.of_nat k) q) <= 31) ->
            sheet_names (CsvStaging.createExcelFromCSV (dir w))
            = str "executed_queries" :: map_range staged_sheet_name 0 queries
            /\ length (CsvStaging.createExcelFromCSV (dir w)) = S (length queries)
            /\ forall k q, queries !! k = Some q ->
               sheet_names (CsvStaging.createExcelFromCSV (dir w)) !! S k
               = Some (staged_sheet_name (Z.of_nat k) q))).
Proof.
  intros Hmax results. split.
  - eexists. split; [apply run_closed; lia|]. cbn [xlsx].
    assert (Hlen : length results = length queries) by apply query_results_length.
    assert (Hentry : forall k q rows,
              queries !! k = Some q -> results !! k = Some (inr rows) ->
              exists name sheet,
                createSheetName (Z.of_nat k + 1) (q_Name q) = Some name
                /\ (index_sheet queries :: result_sheets 0 queries results)
                     !! S (executed_before k results) = Some sheet
                /\ sheet_name sheet = name
                /\ forall columns, rs_columns rows = inr columns ->
                   forall cell, sheet_cells sheet !! cell
                     = expected_cell columns
                         (scanned_rows (length columns) (rs_rows rows)) cell).
    { intros k q rows Hq Hr.
      destruct (result_sheets_entry queries results 0 k q (inr rows)) as (name & Hn & _ & Hat);
        [lia|lia|exact Hq|exact Hr|].
      exists name, {| sheet_name := name; sheet_cells := result_cells rows |}.
      split; [exact Hn|]. split; [exact Hat|]. split; [reflexivity|].
      intros columns Hc cell. cbn [sheet_cells]. now apply result_cells_lookup. }
    split; [reflexivity|]. split; [|split; [exact Hentry|]].
    + cbn [length]. now rewrite result_sheets_length.
    + intros Hall. split.
      * cbn [length]. rewrite result_sheets_length by exact Hlen.
        rewrite filter_keeps_all by exact Hall. f_equal. exact Hlen.
      * intros k q Hq.
        assert (Hk : (k < length results)%nat)
          by (rewrite Hlen; now apply lookup_lt_Some in Hq).
        destruct (lookup_lt_is_Some_2 results k Hk) as [r Hr].
        rewrite Forall_forall in Hall.
        assert (He : executed r = true) by (apply Hall; eapply list_elem_of_lookup_2; eauto).
        destruct r as [err|rows]; [discriminate|].
        destruct (Hentry k q rows Hq Hr) as (name & sheet & Hn & Hat & Hname & _).
        exists name, sheet. split; [exact Hn|]. split; [|exact Hname].
        rewrite executed_before_all in Hat; [exact Hat| |lia].
        now apply Forall_forall.
  - intros w Hrun.
    destruct (executeSQLQueries_dir db_Query creatable db queries w Hrun) as [_ Hdir].
    specialize (Hdir Hmax).
    split; [intros files Hperm; apply sortedFiles_catalog_order;
            [exact Hmax|now rewrite Hperm, Hdir]|].
    intros Hfit.
    assert (Hnames : sheet_names (CsvStaging.createExcelFromCSV (dir w))
                     = str "executed_queries" :: map_range staged_sheet_name 0 queries).
    { apply createExcelFromCSV_names; try assumption.
      intros x Hx. now apply (executeSQLQueries_readable db_Query creatable db queries). }
    split; [exact Hnames|]. split.
    + transitivity (length (sheet_names (CsvStaging.createExcelFromCSV (dir w)))).
      * unfold sheet_names. now rewrite length_map.
      * rewrite Hnames. cbn [length]. now rewrite map_range_length.
    + intros k q Hq. rewrite Hnames.
      change (map_range staged_sheet_name 0 queries !! k
              = Some (staged_sheet_name (Z.of_nat k) q)).
      rewrite map_range_lookup, Hq. reflexivity.
Qed.

Lemma workbook_sheets_follow_catalog_witness :
  Z.of_nat (length sample_catalog) + 1 <= max_int
  /\ exists w,
       DirectExcel.executeSQLQueriesAndCreateExcel sample_Query 0%nat sample_catalog = Some w
       /\ sheet_names (xlsx w) !! 0%nat = Some (str "executed_queries")
       /\ length (xlsx w) = 3%nat.
Proof.
  assert (H : Z.of_nat (length sample_catalog) + 1 <= max_int) by (vm_compute; discriminate).
  split; [exact H|].
  destruct (workbook_sheets_follow_catalog sample_Query name_fits 0%nat sample_catalog H)
    as [(w & Hrun & Hhead & Hlen & _) _].
  exists w. split; [exact Hrun|]. split; [exact Hhead|]. rewrite Hlen. reflexivity.
Defined.

(** C8.  In the revision that writes the workbook directly, a statement
    that fails to execute does not end the run: for any connection and any
    catalog (of a length that is a Go [int]) the run returns its workbook,
    the failure is in the log under the entry's name, the entry gets no
    sheet, and every later entry whose statement executes has its sheet,
    with the header in row 1 and the rendered rows below. *)
Theorem failed_query_is_logged_and_skipped {DB : Type}
    (db_Query : DB -> gostring -> (gostring + ResultSet) * DB) (db : DB)
    (queries : list Query) :
  Z.of_nat (length queries) + 1 <= max_int ->
  let results := query_results db_Query queries db in
  exists w,
    DirectExcel.executeSQLQueriesAndCreateExcel db_Query db queries = Some w
    /\ forall k q err,
         queries !! k = Some q -> results !! k = Some (inl err) ->
         failure_line q err ∈ logged w
         /\ (exists name, createSheetName (Z.of_nat k + 1) (q_Name q) = Some name
                          /\ get_sheet name (xlsx w) = None)
         /\ forall k' q' rows columns,
              (k < k')%nat -> queries !! k' = Some q' ->
              results !! k' = Some (inr rows) -> rs_columns rows = inr columns ->
              exists name,
                createSheetName (Z.of_nat k' + 1) (q_Name q') = Some name
                /\ name ∈ sheet_names (xlsx w)
                /\ forall cell,
                     GetCellValue name cell (xlsx w)
                     = expected_cell columns
                         (scanned_rows (length columns) (rs_rows rows)) cell.
Proof.
  intros Hmax results. eexists. split; [apply run_closed; lia|].
  cbn [xlsx logged]. fold results.
  intros k q err Hq Hr. split; [now apply (run_log_failure queries results k)|]. split.
  - destruct (result_sheets_entry queries results 0 k q (inl err)) as (name & Hn & Hnone);
      [lia|lia|exact Hq|exact Hr|].
    exists name. split; [exact Hn|].
    rewrite get_sheet_skip_index; [exact Hnone|].
    eapply createSheetName_not_index; exact Hn.
  - intros k' q' rows columns _ Hq' Hr' Hc.
    destruct (result_sheets_entry queries results 0 k' q' (inr rows))
      as (name & Hn & Hget & _); [lia|lia|exact Hq'|exact Hr'|].
    exists name. split; [exact Hn|].
    assert (Hne : name <> DirectExcel.executedQueriesSheetName)
      by (eapply createSheetName_not_index; exact Hn).
    assert (Hsheet : get_sheet name (index_sheet queries :: result_sheets 0 queries results)
                     = Some {| sheet_name := name; sheet_cells := result_cells rows |})
      by (rewrite get_sheet_skip_index; assumption).
    split.
    + unfold get_sheet in Hsheet. apply find_some in Hsheet as [Hin _].
      unfold sheet_names. apply list_elem_of_fmap.
      eexists. split; [|apply list_elem_of_In; exact Hin]. reflexivity.
    + intros cell. unfold GetCellValue. rewrite Hsheet. cbn [mbind option_bind sheet_cells].
      now apply result_cells_lookup.
Qed.

Lemma failed_query_is_logged_and_skipped_witness :
  Z.of_nat (length sample_catalog) + 1 <= max_int
  /\ exists w,
       DirectExcel.executeSQLQueriesAndCreateExcel sample_Query 0%nat sample_catalog = Some w
       /\ str "Failed to execute query Broken: failed to execute query: Incorrect syntax"
            ∈ logged w
       /\ GetCellValue (str "3_Top_Waits") (1, 1) (xlsx w) = Some (CellStr (str "X"))
       /\ GetCellValue (str "3_Top_Waits") (1, 2) (xlsx w) = Some (CellStr (str "5")).
Proof.
  assert (H : Z.of_nat (length sample_catalog) + 1 <= max_int) by (vm_compute; discriminate).
  split; [exact H|].
  destruct (failed_query_is_logged_and_skipped sample_Query 0%nat sample_catalog H)
    as (w & Hrun & Hfail).
  exists w. split; [exact Hrun|].
  destruct (Hfail 1%nat (bad_query "Broken") (str "Incorrect syntax") eq_refl eq_refl)
    as (Hlog & _ & Hlater).
  split; [exact Hlog|].
  destruct (Hlater 2%nat (good_query "Top Waits") sample_result [str "X"]
              ltac:(lia) eq_refl eq_refl eq_refl) as (name & Hname & _ & Hcells).
  injection Hname as <-.
  split; [apply (Hcells (1, 1))|apply (Hcells (1, 2))].
Defined.

(** ** Rendering a value *)

Lemma clean_newlines_map (s : gostring) :
  clean_newlines s
  = map (fun c => if Ascii.eqb c LF || Ascii.eqb c CR then " "%char else c) s.
Proof.
  unfold clean_newlines, ReplaceAll. rewrite map_map. apply map_ext.
  intros c. destruct (Ascii.eqb c LF) eqn:E1; [reflexivity|].
  cbn [orb]. reflexivity.
Qed.

Lemma clean_newlines_no_newline (s : gostring) :
  Forall (fun c => no_newline c = true) (clean_newlines s).
Proof.
  rewrite clean_newlines_map. apply Forall_map. apply Forall_forall. intros c _.
  unfold no_newline.
  destruct (Ascii.eqb c LF) eqn:E1; [reflexivity|].
  destruct (Ascii.eqb c CR) eqn:E2; [reflexivity|].
  cbn [orb]. now rewrite E1, E2.
Qed.

Lemma clean_newlines_length (s : gostring) : length (clean_newlines s) = length s.
Proof. rewrite clean_newlines_map. apply length_map. Qed.

(** The rule of C2 as the two later revisions have it: the worksheet cell
    of revision 2.0.0 and the CSV field of [app.go] are computed alike;
    NULL becomes ["NULL"], a byte slice is decoded and any other scalar
    printed with [%v], and each line feed and carriage return of that text
    is replaced by one space. *)
Lemma later_revisions_render_alike (v : Value) :
  DirectExcel.render_cell v = CsvStaging.render_field v
  /\ DirectExcel.render_cell VNil = str "NULL"
  /\ (forall b, v = VBytes b ->
        DirectExcel.render_cell v
        = map (fun c => if Ascii.eqb c LF || Ascii.eqb c CR then " "%char else c) b)
  /\ (v <> VNil -> (forall b, v <> VBytes b) ->
        DirectExcel.render_cell v
        = map (fun c => if Ascii.eqb c LF || Ascii.eqb c CR then " "%char else c)
              (Sprintf_v v))
  /\ (v <> VNil -> Forall (fun c => no_newline c = true) (DirectExcel.render_cell v)).
Proof.
  split; [reflexivity|]. split; [reflexivity|]. split; [|split].
  - intros b ->. apply clean_newlines_map.
  - intros Hnil Hbytes. destruct v; try apply clean_newlines_map; [congruence|].
    now destruct (Hbytes b).
  - intros Hnil. destruct v; try apply clean_newlines_no_newline. congruence.
Qed.

(** C2 at the first revision: line 174 of its [executeQuery] sends every
    value through [%v], so a NULL is written as ["<nil>"] and a byte slice
    as the list of its bytes in decimal, where the later revisions write
    ["NULL"] and the decoded text. *)
Theorem first_revision_renders_null_as_nil :
  CsvOnly.render_field VNil = str "<nil>"
  /\ CsvOnly.render_field VNil <> str "NULL"
  /\ CsvOnly.render_field (VBytes (str "ab")) = str "[97 98]"
  /\ CsvStaging.render_field VNil = str "NULL"
  /\ CsvStaging.render_field (VBytes (str "ab")) = str "ab"
  /\ dir <$> CsvOnly.executeQuery null_Query name_fits (str "SELECT NULL AS X") (str "0_Nulls.csv")
               {| dir := []; csv_logged := []; csv_conn := tt |}
     = Some [(str "0_Nulls.csv", [[str "X"]; [str "<nil>"]])].
Proof.
  split; [reflexivity|]. split; [discriminate|]. repeat split.
Qed.

(** ** The confirmation prompt *)

Lemma main_needs_confirmation (confirmation : gostring) (interval duration : Z) :
  (DirectExcel.ToLower confirmation = str "yes" ->
     DirectExcel.main confirmation interval duration = DirectExcel.schedule interval duration)
  /\ (DirectExcel.ToLower confirmation <> str "yes" ->
     DirectExcel.main confirmation interval duration = []).
Proof.
  unfold DirectExcel.main. split; intros H.
  - now rewrite bool_decide_eq_true_2.
  - now rewrite bool_decide_eq_false_2.
Qed.

(** ** The examples of the specification *)

Example sheet_forbidden_class :
  List.filter sheet_forbidden (str "a\b/c?d*e[f]g:h_1-2 3") = str "\/?*[]:".
Proof. vm_compute. reflexivity. Qed.

Example main_confirmed :
  DirectExcel.main (str "YES") 30 1 = [Executes; Sleeps (30 * Minute); Executes]
  /\ DirectExcel.main (str "y") 30 1 = [].
Proof. split; vm_compute; reflexivity. Qed.

Example sanitize_sheet_example :
  createSheetName 1 (str "Sample Query Name!") = Some (str "1_Sample_Query_Name").
Proof. vm_compute. reflexivity. Qed.

Example sanitize_file_example :
  createFileName 1 (str "Sample Query Name!") = str "1_Sample_Query_Name.csv".
Proof. vm_compute. reflexivity. Qed.

Example single_cell_round_trip :
  (fun w => (GetCellValue (str "1_X") (1, 1) (xlsx w),
             GetCellValue (str "1_X") (1, 2) (xlsx w)))
    <$> DirectExcel.executeSQLQueriesAndCreateExcel sample_Query 0%nat [good_query "X"]
  = Some (Some (CellStr (str "X")), Some (CellStr (str "5"))).
Proof. vm_compute. reflexivity. Qed.

Example staging_stops_at_a_failed_query :
  CsvStaging.executeSQLQueries sample_Query name_fits 0%nat sample_catalog = None.
Proof. vm_compute. reflexivity. Qed.

(** The file variant of the sanitizer has no length cap: in the staging
    revision a long query name gives a sheet name of more than 31
    characters, which the writer of the model refuses, and the merged
    workbook lacks that sheet. *)
Example staging_long_name_has_no_sheet :
  (fun w => sheet_names (CsvStaging.createExcelFromCSV (dir w)))
    <$> CsvStaging.executeSQLQueries sample_Query name_fits 0%nat
          [good_query "Missing Indexes All Databases by Index Advantage"]
  = Some [str "executed_queries"].
Proof. vm_compute. reflexivity. Qed.

(* ===================================================================== *)
(** * Further properties of the code *)
(* ===================================================================== *)

Lemma apart_neq (a b : gostring) : apart a b -> a <> b.
Proof. intros (_ & _ & H) ->. now apply H. Qed.

(** ** The configuration *)

Lemma MustGet_all (p : Properties) :
  Forall (fun key => is_Some (p !! str key))
         ["DB_HOST"; "DB_PORT"; "DB_NAME"; "USER"; "PASSWORD"; "TRUSTED"]%string
  <-> exists host port db user password trusted,
        MustGet p "DB_HOST" = Some host /\ MustGet p "DB_PORT" = Some port
        /\ MustGet p "DB_NAME" = Some db /\ MustGet p "USER" = Some user
        /\ MustGet p "PASSWORD" = Some password /\ MustGet p "TRUSTED" = Some trusted.
Proof.
  unfold MustGet. split.
  - intros H. rewrite Forall_forall in H.
    destruct (H "DB_HOST"%string) as [h Hh]; [apply list_elem_of_In; simpl; tauto|].
    destruct (H "DB_PORT"%string) as [po Hpo]; [apply list_elem_of_In; simpl; tauto|].
    destruct (H "DB_NAME"%string) as [d Hd]; [apply list_elem_of_In; simpl; tauto|].
    destruct (H "USER"%string) as [u Hu]; [apply list_elem_of_In; simpl; tauto|].
    destruct (H "PASSWORD"%string) as [pw Hpw]; [apply list_elem_of_In; simpl; tauto|].
    destruct (H "TRUSTED"%string) as [t Ht]; [apply list_elem_of_In; simpl; tauto|].
    eauto 12.
  - intros (h & po & d & u & pw & t & H1 & H2 & H3 & H4 & H5 & H6).
    repeat (constructor; [eexists; eassumption|]). constructor.
Qed.

Lemma getSQLServerConfig_csv_Some (p : Properties) :
  is_Some (getSQLServerConfig_csv p)
  <-> Forall (fun key => is_Some (p !! str key))
             ["DB_HOST"; "DB_PORT"; "DB_NAME"; "USER"; "PASSWORD"; "TRUSTED"]%string.
Proof.
  rewrite MustGet_all. unfold getSQLServerConfig_csv. split.
  - intros [cfg H].
    destruct (MustGet p "DB_HOST") as [h|]; [|discriminate].
    destruct (MustGet p "DB_PORT") as [po|]; [|discriminate].
    destruct (MustGet p "DB_NAME") as [d|]; [|discriminate].
    destruct (MustGet p "USER") as [u|]; [|discriminate].
    destruct (MustGet p "PASSWORD") as [pw|]; [|discriminate].
    destruct (MustGet p "TRUSTED") as [t|]; [|discriminate].
    eauto 12.
  - intros (h & po & d & u & pw & t & -> & -> & -> & -> & -> & ->).
    cbn. eexists. reflexivity.
Qed.

(** X1.  A connection string of the user's own stands in for everything
    else: when [USER_DEFINED] is there and not blank, the configuration is
    read whatever other keys are present or missing, and the string handed
    to the driver is its value without the white space around it. *)
Theorem user_defined_connection_overrides (p : Properties) :
  TrimSpace (GetString p "USER_DEFINED" []) <> [] ->
  exists cfg,
    getSQLServerConfig p = Some cfg
    /\ connection_string cfg = TrimSpace (GetString p "USER_DEFINED" []).
Proof.
  intros H. unfold getSQLServerConfig.
  rewrite name_eqb_neq by exact H. eexists. split; [reflexivity|].
  unfold connection_string. cbn [UserDefined].
  now rewrite name_eqb_neq by exact H.
Qed.

Lemma user_defined_connection_overrides_witness :
  TrimSpace (GetString (<[str "USER_DEFINED" := str "  sqlserver://db1:1433?database=master "]> ∅)
               "USER_DEFINED" []) <> []
  /\ exists cfg,
       getSQLServerConfig (<[str "USER_DEFINED" := str "  sqlserver://db1:1433?database=master "]> ∅)
         = Some cfg
       /\ connection_string cfg = str "sqlserver://db1:1433?database=master".
Proof.
  assert (H : TrimSpace (GetString
                (<[str "USER_DEFINED" := str "  sqlserver://db1:1433?database=master "]> ∅)
                "USER_DEFINED" []) <> []) by (vm_compute; discriminate).
  split; [exact H|].
  destruct (user_defined_connection_overrides _ H) as (cfg & Hcfg & Hconn).
  exists cfg. split; [exact Hcfg|]. rewrite Hconn. vm_compute. reflexivity.
Defined.

(** X2.  Without a connection string of the user's own, a missing key ends
    the program: the configuration is read exactly when [DB_HOST],
    [DB_PORT], [DB_NAME], [USER], [PASSWORD] and [TRUSTED] are all there,
    in revision 2.0.0 as in the CSV revisions; [USER] and [PASSWORD] are
    asked for even when the connection is a trusted one. *)
Theorem missing_key_ends_the_program (p : Properties) :
  TrimSpace (GetString p "USER_DEFINED" []) = [] ->
  (is_Some (getSQLServerConfig p)
   <-> Forall (fun key => is_Some (p !! str key))
              ["DB_HOST"; "DB_PORT"; "DB_NAME"; "USER"; "PASSWORD"; "TRUSTED"]%string)
  /\ (is_Some (getSQLServerConfig_csv p)
      <-> Forall (fun key => is_Some (p !! str key))
                 ["DB_HOST"; "DB_PORT"; "DB_NAME"; "USER"; "PASSWORD"; "TRUSTED"]%string).
Proof.
  intros Hblank. split; [|apply getSQLServerConfig_csv_Some].
  rewrite MustGet_all. unfold getSQLServerConfig. rewrite Hblank.
  change (name_eqb [] []) with true. cbv iota. split.
  - intros [cfg H].
    destruct (MustGet p "DB_HOST") as [h|]; [|discriminate].
    destruct (MustGet p "DB_PORT") as [po|]; [|discriminate].
    destruct (MustGet p "DB_NAME") as [d|]; [|discriminate].
    destruct (MustGet p "USER") as [u|]; [|discriminate].
    destruct (MustGet p "PASSWORD") as [pw|]; [|discriminate].
    destruct (MustGet p "TRUSTED") as [t|]; [|discriminate].
    eauto 12.
  - intros (h & po & d & u & pw & t & -> & -> & -> & -> & -> & ->).
    cbn. eexists. reflexivity.
Qed.

Lemma missing_key_ends_the_program_witness :
  TrimSpace (GetString (<[str "DB_HOST" := str "db1"]> (<[str "TRUSTED" := str "true"]> ∅))
               "USER_DEFINED" []) = []
  /\ getSQLServerConfig (<[str "DB_HOST" := str "db1"]> (<[str "TRUSTED" := str "true"]> ∅))
     = None.
Proof.
  assert (H : TrimSpace (GetString
                (<[str "DB_HOST" := str "db1"]> (<[str "TRUSTED" := str "true"]> ∅))
                "USER_DEFINED" []) = []) by (vm_compute; reflexivity).
  split; [exact H|].
  destruct (missing_key_ends_the_program _ H) as [[Hsome _] _].
  destruct (getSQLServerConfig _) as [cfg|] eqn:E; [|reflexivity].
  exfalso. specialize (Hsome (ex_intro _ cfg eq_refl)).
  rewrite Forall_forall in Hsome.
  destruct (Hsome "DB_PORT"%string) as [v Hv]; [apply list_elem_of_In; simpl; tauto|].
  vm_compute in Hv. discriminate Hv.
Defined.

Lemma ParseBool_true (s : gostring) :
  ParseBool s = Some true
  <-> s ∈ [str "1"; str "t"; str "T"; str "TRUE"; str "true"; str "True"].
Proof.
  unfold ParseBool.
  destruct (existsb (name_eqb s) [str "1"; str "t"; str "T"; str "TRUE"; str "true"; str "True"])
    eqn:E.
  - split; [intros _|reflexivity].
    apply existsb_exists in E as (x & Hx & Heq).
    apply bool_decide_eq_true in Heq. subst x. now apply list_elem_of_In.
  - split.
    + intros H. case_match; discriminate.
    + intros Hin. apply list_elem_of_In in Hin.
      assert (existsb (name_eqb s)
                [str "1"; str "t"; str "T"; str "TRUE"; str "true"; str "True"] = true).
      { apply existsb_exists. exists s. split; [exact Hin|apply name_eqb_refl]. }
      congruence.
Qed.

(** X3.  Without a connection string of the user's own, the connection
    is a trusted one only for a [TRUSTED] value that is exactly one of
    [1 t T TRUE true True]: the value is parsed as it stands (revision
    2.0.0 trims the other keys, not this one), and anything else, another
    spelling or a blank at either end, counts as false without ending the
    program. *)
Theorem trusted_needs_an_exact_true (p : Properties) (cfg : SQLServerConfig) :
  getSQLServerConfig p = Some cfg \/ getSQLServerConfig_csv p = Some cfg ->
  UserDefined cfg = [] ->
  (Trusted cfg = true
   <-> exists v, p !! str "TRUSTED" = Some v
                 /\ v ∈ [str "1"; str "t"; str "T"; str "TRUE"; str "true"; str "True"]).
Proof.
  intros Hcfg Hud.
  assert (H : exists t, MustGet p "TRUSTED" = Some t
                        /\ Trusted cfg = match ParseBool t with Some b => b | None => false end).
  { destruct Hcfg as [Hcfg|Hcfg].
    - unfold getSQLServerConfig in Hcfg.
      destruct (name_eqb (TrimSpace (GetString p "USER_DEFINED" [])) []) eqn:E.
      + destruct (MustGet p "DB_HOST") as [h|]; [|discriminate].
        destruct (MustGet p "DB_PORT") as [po|]; [|discriminate].
        destruct (MustGet p "DB_NAME") as [d|]; [|discriminate].
        destruct (MustGet p "USER") as [u|]; [|discriminate].
        destruct (MustGet p "PASSWORD") as [pw|]; [|discriminate].
        destruct (MustGet p "TRUSTED") as [t|]; [|discriminate].
        injection Hcfg as <-. eauto.
      + injection Hcfg as <-. cbn [UserDefined] in Hud.
        apply bool_decide_eq_false in E. contradiction.
    - unfold getSQLServerConfig_csv in Hcfg.
      destruct (MustGet p "DB_HOST") as [h|]; [|discriminate].
      destruct (MustGet p "DB_PORT") as [po|]; [|discriminate].
      destruct (MustGet p "DB_NAME") as [d|]; [|discriminate].
      destruct (MustGet p "USER") as [u|]; [|discriminate].
      destruct (MustGet p "PASSWORD") as [pw|]; [|discriminate].
      destruct (MustGet p "TRUSTED") as [t|]; [|discriminate].
      injection Hcfg as <-. eauto. }
  destruct H as (t & Ht & ->). unfold MustGet in Ht. rewrite Ht. split.
  - intros Hp. exists t. split; [reflexivity|]. apply ParseBool_true.
    destruct (ParseBool t) as [[]|]; congruence.
  - intros (v & [= <-] & Hv). apply ParseBool_true in Hv. now rewrite Hv.
Qed.

Lemma trusted_needs_an_exact_true_witness :
  exists cfg,
    getSQLServerConfig_csv
      (list_to_map [(str "DB_HOST", str "db1"); (str "DB_PORT", str "1433");
                    (str "DB_NAME", str "master"); (str "USER", str "sa");
                    (str "PASSWORD", str "secret"); (str "TRUSTED", str "true ")]) = Some cfg
    /\ UserDefined cfg = [] /\ Trusted cfg = false.
Proof.
  eexists. split; [vm_compute; reflexivity|]. split; [reflexivity|].
  match goal with |- Trusted ?c = false => set (cfg := c) end.
  assert (Hcfg : getSQLServerConfig_csv
            (list_to_map [(str "DB_HOST", str "db1"); (str "DB_PORT", str "1433");
               (str "DB_NAME", str "master"); (str "USER", str "sa");
               (str "PASSWORD", str "secret"); (str "TRUSTED", str "true ")]) = Some cfg)
    by (vm_compute; reflexivity).
  destruct (Trusted cfg) eqn:E; [exfalso|reflexivity].
  apply (trusted_needs_an_exact_true _ cfg (or_intror Hcfg) eq_refl) in E as (v & Hv & Hin).
  vm_compute in Hv. injection Hv as <-.
  apply list_elem_of_In in Hin. simpl in Hin.
  repeat (destruct Hin as [Hin|Hin]; [discriminate Hin|]). exact Hin.
Defined.

(** ** Names *)

Lemma filter_filter_implied {A : Type} (f g : A -> bool) (l : list A) :
  (forall x, f x = true -> g x = true) ->
  List.filter f (List.filter g l) = List.filter f l.
Proof.
  intros H. induction l as [|x l IH]; [reflexivity|]. cbn.
  destruct (g x) eqn:Eg; cbn.
  - now rewrite IH.
  - destruct (f x) eqn:Ef; [|exact IH]. apply H in Ef. congruence.
Qed.

Lemma clean_sheet_is_clean_file (queryName : gostring) :
  clean_sheet_query_name queryName = clean_file_query_name queryName.
Proof.
  unfold clean_sheet_query_name, clean_file_query_name, ReplaceAllString_empty.
  apply filter_filter_implied. intros c Hc. unfold not_word_char in Hc.
  apply negb_true_iff. apply word_char_not_forbidden.
  now destruct (word_char c).
Qed.

(** X4.  The two designs give a result the same name.  The pass of
    [createSheetName] over the characters Excel refuses removes nothing
    the last pass would have kept, so both sanitizers clean a query name
    alike; and for a name that fits the 31 bytes of a worksheet name the
    sheet of revision 2.0.0 is called what the merge calls the sheet of
    the staging file, the file name without [.csv]. *)
Theorem designs_agree_on_names (index : Z) (queryName : gostring) :
  len (Itoa index ++ str "_" ++ clean_file_query_name queryName) <= 31 ->
  clean_sheet_query_name queryName = clean_file_query_name queryName
  /\ createSheetName index queryName
     = Some (TrimSuffix (createFileName index queryName) (str ".csv")).
Proof.
  intros Hlen. split; [apply clean_sheet_is_clean_file|].
  rewrite createSheetName_cases. cbv zeta.
  rewrite createFileName_suffix, TrimSuffix_app, clean_sheet_is_clean_file.
  rewrite <- app_assoc.
  destruct (Z.leb_spec (len (Itoa index ++ str "_" ++ clean_file_query_name queryName)) 31);
    [reflexivity|lia].
Qed.

Lemma designs_agree_on_names_witness :
  len (Itoa 4 ++ str "_" ++ clean_file_query_name (str "I/O stalls [by file]")) <= 31
  /\ createSheetName 4 (str "I/O stalls [by file]") = Some (str "4_IO_stalls_by_file")
  /\ createFileName 4 (str "I/O stalls [by file]") = str "4_IO_stalls_by_file.csv".
Proof.
  assert (H : len (Itoa 4 ++ str "_" ++ clean_file_query_name (str "I/O stalls [by file]"))
              <= 31) by (vm_compute; discriminate).
  split; [exact H|].
  destruct (designs_agree_on_names 4 (str "I/O stalls [by file]") H) as [_ ->].
  split; vm_compute; reflexivity.
Defined.

Lemma decimal_char_file_name (c : ascii) : decimal_char c = true -> file_name_char c = true.
Proof. destruct c as [[] [] [] [] [] [] [] []]; vm_compute; congruence. Qed.

Lemma word_char_file_name (c : ascii) : word_char c = true -> file_name_char c = true.
Proof. unfold file_name_char. now intros ->. Qed.

(** X5.  A staging file stays in the working directory and never stands in
    for the index: whatever the query is called, the file name is made of
    letters, digits, underscores, the sign of the position and the dot of
    its extension (so no path separator), it ends in [.csv], and it is not
    [executed_queries.csv]. *)
Theorem createFileName_stays_in_directory (index : Z) (queryName : gostring) :
  Forall (fun c => file_name_char c = true) (createFileName index queryName)
  /\ HasSuffix (createFileName index queryName) (str ".csv") = true
  /\ createFileName index queryName <> CsvStaging.executed_queries.
Proof.
  split; [|split].
  - unfold createFileName. cbv zeta. repeat apply Forall_app_2.
    + eapply Forall_impl; [apply Itoa_chars|]. intros c. apply decimal_char_file_name.
    + repeat constructor.
    + eapply Forall_impl; [apply clean_file_word_chars|]. intros c. apply word_char_file_name.
    + repeat constructor.
  - rewrite createFileName_suffix. apply HasSuffix_app.
  - apply createFileName_not_index.
Qed.

(** X6.  The merge orders the staging files by their position, not by
    their text: for two names [createFileName] made, the comparison handed
    to [sort.SliceStable] is the comparison of the positions, so that file
    2 comes before file 10. *)
Theorem staging_files_sort_by_position (i j : Z) (a b : gostring) :
  is_int i -> is_int j ->
  CsvStaging.less (createFileName i a) (createFileName j b) = (i <? j).
Proof.
  intros Hi Hj. unfold CsvStaging.less. now rewrite !createFileName_key.
Qed.

Lemma staging_files_sort_by_position_witness :
  (is_int 2 /\ is_int 10)
  /\ CsvStaging.less (createFileName 2 (str "Waits")) (createFileName 10 (str "Blocking")) = true
  /\ string_lt (createFileName 2 (str "Waits")) (createFileName 10 (str "Blocking")) = false.
Proof.
  assert (H2 : is_int 2) by (unfold is_int, min_int, max_int; lia).
  assert (H10 : is_int 10) by (unfold is_int, min_int, max_int; lia).
  split; [split; assumption|]. split; [|vm_compute; reflexivity].
  rewrite (staging_files_sort_by_position 2 10 _ _ H2 H10). reflexivity.
Defined.

Lemma before_underscore_Itoa (index : Z) (rest : gostring) :
  before_underscore (Itoa index ++ str "_" ++ rest) = Itoa index.
Proof. apply before_underscore_decimal, Itoa_chars. Qed.

Lemma createFileName_eq_inv (i j : Z) (a b : gostring) :
  createFileName i a = createFileName j b -> i = j.
Proof.
  intros H. apply Itoa_inj. apply (f_equal before_underscore) in H.
  unfold createFileName in H. cbv zeta in H.
  now rewrite !before_underscore_Itoa in H.
Qed.

Lemma ToLower_decimal (s : gostring) :
  Forall (fun c => decimal_char c = true) s -> DirectExcel.ToLower s = s.
Proof.
  intros H. unfold DirectExcel.ToLower. induction H as [|c s Hc _ IH]; [reflexivity|].
  cbn [map]. rewrite IH. f_equal.
  destruct c as [[] [] [] [] [] [] [] []]; vm_compute in Hc; try discriminate Hc; reflexivity.
Qed.

Lemma before_underscore_ToLower (index : Z) (rest : gostring) :
  before_underscore (DirectExcel.ToLower (Itoa index ++ "_"%char :: rest)) = Itoa index.
Proof.
  unfold DirectExcel.ToLower. rewrite map_app.
  change (map ?f (Itoa index)) with (DirectExcel.ToLower (Itoa index)).
  rewrite ToLower_decimal by apply Itoa_chars. cbn [map].
  change (if in_range 65 90 "_" then _ else "_"%char) with "_"%char.
  apply before_underscore_decimal, Itoa_chars.
Qed.

(** X7.  No two entries of a catalog share a file or a sheet.  Two staging
    names are equal exactly when the positions are equal and the query
    names clean to the same text; the names of two different positions
    differ in more than the case of their letters, the file names as well
    as the sheet names, the latter also after the cut at 31 bytes. *)
Theorem names_tell_positions_apart (i j : Z) (a b : gostring) :
  (createFileName i a = createFileName j b
   <-> i = j /\ clean_file_query_name a = clean_file_query_name b)
  /\ (i <> j ->
      DirectExcel.ToLower (createFileName i a) <> DirectExcel.ToLower (createFileName j b))
  /\ (is_int i -> is_int j -> i <> j ->
      forall s t, createSheetName i a = Some s -> createSheetName j b = Some t ->
        DirectExcel.ToLower s <> DirectExcel.ToLower t).
Proof.
  split; [split|split].
  - intros H. assert (Hij : i = j) by (eapply createFileName_eq_inv; exact H).
    split; [exact Hij|]. subst j. unfold createFileName in H. cbv zeta in H.
    apply app_inv_head in H. apply app_inv_head in H. now apply app_inv_tail in H.
  - intros [-> Hab]. unfold createFileName. cbv zeta. now rewrite Hab.
  - intros Hij H. apply Hij, Itoa_inj. apply (f_equal before_underscore) in H.
    unfold createFileName in H. cbv zeta in H.
    change (str "_" ++ ?r) with ("_"%char :: r) in H.
    now rewrite !before_underscore_ToLower in H.
  - intros Hi Hj Hij s t Hs Ht H. apply Hij, Itoa_inj.
    destruct (createSheetName_prefix i a Hi) as [rest Hs'].
    destruct (createSheetName_prefix j b Hj) as [rest' Ht'].
    rewrite Hs in Hs'. rewrite Ht in Ht'. injection Hs' as ->. injection Ht' as ->.
    apply (f_equal before_underscore) in H.
    now rewrite !before_underscore_ToLower in H.
Qed.

Lemma names_tell_positions_apart_witness :
  createFileName 3 (str "Top Waits") = createFileName 3 (str "Top_Waits!")
  /\ DirectExcel.ToLower (createFileName 3 (str "Top Waits"))
     <> DirectExcel.ToLower (createFileName 4 (str "top waits"))
  /\ createSheetName 1 (str "Missing Indexes All Databases by Index Advantage")
     <> createSheetName 2 (str "Missing Indexes All Databases by Index Advantage").
Proof.
  destruct (names_tell_positions_apart 3 3 (str "Top Waits") (str "Top_Waits!")) as [[_ Hsame] _].
  destruct (names_tell_positions_apart 3 4 (str "Top Waits") (str "top waits"))
    as (_ & Hfiles & _).
  destruct (names_tell_positions_apart 1 2
              (str "Missing Indexes All Databases by Index Advantage")
              (str "Missing Indexes All Databases by Index Advantage")) as (_ & _ & Hsheet).
  split; [apply Hsame; split; reflexivity|]. split; [apply Hfiles; lia|].
  intros H.
  destruct (createSheetName 1 (str "Missing Indexes All Databases by Index Advantage"))
    as [s|] eqn:Es; [|vm_compute in Es; discriminate Es].
  symmetry in H.
  apply (Hsheet ltac:(unfold is_int, min_int, max_int; lia)
                ltac:(unfold is_int, min_int, max_int; lia) ltac:(lia) s s eq_refl H).
  reflexivity.
Defined.

(** ** One statement, one sheet *)

Lemma range_from_preserves {A St B : Type} (F : St -> B) (body : Z -> A -> St -> St)
    (l : list A) (i : Z) (s : St) :
  (forall k x s, F (body k x s) = F s) -> F (range_from body i l s) = F s.
Proof.
  intros H. revert i s. induction l as [|x l IH]; intros i s; cbn; [reflexivity|].
  now rewrite IH, H.
Qed.

Lemma get_sheet_SetCellValue_other (other name : gostring) (cell : Z * Z) (v : CellValue)
    (f : File) :
  other <> name -> get_sheet other (SetCellValue name cell v f) = get_sheet other f.
Proof.
  intros Hne. unfold get_sheet, SetCellValue.
  induction f as [|s f IH]; [reflexivity|]. cbn [map find].
  destruct (name_eqb (sheet_name s) name) eqn:E.
  - apply bool_decide_eq_true in E. cbn [sheet_name].
    rewrite !name_eqb_neq by congruence. exact IH.
  - destruct (name_eqb (sheet_name s) other); [reflexivity|exact IH].
Qed.

Lemma get_sheet_NewSheet_other (other name : gostring) (f : File) :
  other <> name -> get_sheet other (NewSheet name f) = get_sheet other f.
Proof.
  intros Hne. unfold NewSheet.
  destruct (valid_sheet_name name && negb (has_sheet name f)); [|reflexivity].
  unfold get_sheet. induction f as [|s f IH]; cbn [app find sheet_name].
  - rewrite name_eqb_neq by congruence. reflexivity.
  - destruct (name_eqb (sheet_name s) other); [reflexivity|exact IH].
Qed.

Lemma sheet_names_NewSheet (name : gostring) (f : File) :
  sheet_names (NewSheet name f) = sheet_names f
  \/ sheet_names (NewSheet name f) = sheet_names f ++ [name].
Proof.
  unfold NewSheet. destruct (valid_sheet_name name && negb (has_sheet name f)); [right|now left].
  unfold sheet_names. now rewrite map_app.
Qed.

Section OneStatement.
Context {DB : Type}.
Variable db_Query : DB -> gostring -> (gostring + ResultSet) * DB.

Lemma write_rows_frame (name : gostring) (ncols : nat) (rows : list (gostring + list Value))
    (rowIndex : Z) (w : World DB) :
  (forall other, other <> name ->
     get_sheet other (xlsx (DirectExcel.write_rows name ncols rows rowIndex w))
     = get_sheet other (xlsx w))
  /\ sheet_names (xlsx (DirectExcel.write_rows name ncols rows rowIndex w))
     = sheet_names (xlsx w)
  /\ exists lines,
       logged (DirectExcel.write_rows name ncols rows rowIndex w) = logged w ++ lines.
Proof.
  revert rowIndex w. induction rows as [|r rows IH]; intros rowIndex w.
  - cbn. repeat split; try reflexivity. exists []. now rewrite app_nil_r.
  - cbn [DirectExcel.write_rows]. destruct (Scan ncols r) as [err|values].
    + destruct (IH rowIndex (log_Printf (str "Failed to scan row: " ++ err) w))
        as (Hget & Hnames & lines & Hlog).
      repeat split; [exact Hget|exact Hnames|].
      eexists. rewrite Hlog. cbn [log_Printf logged]. now rewrite <- app_assoc.
    + match goal with |- context [DirectExcel.write_rows _ _ _ _ ?w0] =>
        destruct (IH (rowIndex + 1) w0) as (Hget & Hnames & lines & Hlog) end.
      repeat split.
      * intros other Hne. rewrite Hget by assumption. cbn [on_xlsx xlsx]. unfold for_range.
        apply (range_from_preserves (get_sheet other)). intros k x s.
        now apply get_sheet_SetCellValue_other.
      * rewrite Hnames. cbn [on_xlsx xlsx]. unfold for_range.
        apply (range_from_preserves sheet_names). intros k x s.
        apply sheet_names_SetCellValue.
      * exists lines. exact Hlog.
Qed.

(** X8.  [executeQueryToExcel] touches one sheet only.  Whatever the
    workbook holds and whatever name it is given, every sheet whose name
    differs from the given one in more than the case of letters is after
    the call what it was before, the sheet list is the old one or the old
    one with the given name at its end, the log only grows, and a
    statement the database refuses leaves the workbook as it was. *)
Theorem executeQueryToExcel_touches_one_sheet (query sheetName : gostring) (w : World DB) :
  (forall other, apart other sheetName ->
     get_sheet other (xlsx (snd (DirectExcel.executeQueryToExcel db_Query query sheetName w)))
     = get_sheet other (xlsx w))
  /\ (sheet_names (xlsx (snd (DirectExcel.executeQueryToExcel db_Query query sheetName w)))
      = sheet_names (xlsx w)
      \/ sheet_names (xlsx (snd (DirectExcel.executeQueryToExcel db_Query query sheetName w)))
         = sheet_names (xlsx w) ++ [sheetName])
  /\ (exists lines,
        logged (snd (DirectExcel.executeQueryToExcel db_Query query sheetName w))
        = logged w ++ lines)
  /\ (forall err, fst (db_Query (conn w) query) = inl err ->
        xlsx (snd (DirectExcel.executeQueryToExcel db_Query query sheetName w)) = xlsx w).
Proof.
  unfold DirectExcel.executeQueryToExcel.
  destruct (db_Query (conn w) query) as [[err|rows] db]; cbn [fst snd xlsx logged].
  - repeat split; [now left|exists []; now rewrite app_nil_r].
  - destruct (rs_columns rows) as [err|columns].
    + cbn [snd on_xlsx xlsx logged]. split; [|split; [|split]].
      * intros other Hne%apart_neq. now apply get_sheet_NewSheet_other.
      * apply sheet_names_NewSheet.
      * exists []. now rewrite app_nil_r.
      * intros e [=].
    + match goal with |- context [DirectExcel.write_rows ?n ?c ?r ?i ?w0] =>
        destruct (write_rows_frame n c r i w0) as (Hget & Hnames & lines & Hlog);
        set (w1 := DirectExcel.write_rows n c r i w0) in * end.
      assert (Hsnd : snd (match rs_err rows with
                          | Some err =>
                            (Some (str "error occurred during row iteration: " ++ err), w1)
                          | None => (None, w1)
                          end) = w1) by now destruct (rs_err rows).
      rewrite Hsnd. cbn [on_xlsx xlsx logged] in Hget, Hnames, Hlog.
      split; [|split; [|split]].
      * intros other Hne%apart_neq. rewrite Hget by assumption. unfold for_range.
        rewrite (range_from_preserves (get_sheet other))
          by (intros k x s; now apply get_sheet_SetCellValue_other).
        now apply get_sheet_NewSheet_other.
      * rewrite Hnames. unfold for_range.
        rewrite (range_from_preserves sheet_names)
          by (intros k x s; apply sheet_names_SetCellValue).
        apply sheet_names_NewSheet.
      * exists lines. exact Hlog.
      * intros e [=].
Qed.

Lemma run_log_entry (queries : list Query) (results : list (gostring + ResultSet))
    (k : nat) (q : Query) (r : gostring + ResultSet) (line : gostring) :
  queries !! k = Some q -> results !! k = Some r ->
  line ∈ entry_log q r -> line ∈ run_log queries results.
Proof.
  revert results k. induction queries as [|q0 queries IH]; intros results k Hq Hr Hin;
    [now rewrite lookup_nil in Hq|].
  destruct results as [|r0 results]; [now rewrite lookup_nil in Hr|].
  cbn [run_log]. apply elem_of_app. destruct k as [|k].
  - injection Hq as <-. injection Hr as <-. now left.
  - right. now apply (IH results k).
Qed.

(** X9.  A statement that fails after it has started is logged as failed,
    and its sheet stays in the workbook.  When [db.Query] has handed back
    a cursor and [rows.Columns] or [rows.Err] then reports an error, the
    run logs that error under the name of the query, but the sheet was
    made before: it is empty when the columns could not be read, and holds
    the header and every row scanned when the error came at the end. *)
Theorem late_failure_keeps_the_sheet (db : DB) (queries : list Query) :
  Z.of_nat (length queries) + 1 <= max_int ->
  exists w,
    DirectExcel.executeSQLQueriesAndCreateExcel db_Query db queries = Some w
    /\ forall (k : nat) q rows err,
         queries !! k = Some q ->
         query_results db_Query queries db !! k = Some (inr rows) ->
         result_error (inr rows) = Some err ->
         (str "Failed to execute query " ++ q_Name q ++ str ": " ++ err) ∈ logged w
         /\ exists name,
              createSheetName (Z.of_nat k + 1) (q_Name q) = Some name
              /\ name ∈ sheet_names (xlsx w)
              /\ (forall e, rs_columns rows = inl e ->
                    forall cell, GetCellValue name cell (xlsx w) = None)
              /\ (forall columns, rs_columns rows = inr columns ->
                    forall cell,
                      GetCellValue name cell (xlsx w)
                      = expected_cell columns
                          (scanned_rows (length columns) (rs_rows rows)) cell).
Proof.
  intros Hmax. eexists. split; [apply run_closed; lia|].
  cbn [xlsx logged]. set (results := query_results db_Query queries db).
  intros k q rows err Hq Hr Herr. split.
  - apply (run_log_entry queries results k q (inr rows)); [exact Hq|exact Hr|].
    unfold entry_log. rewrite Herr. apply elem_of_app. right.
    apply list_elem_of_singleton. reflexivity.
  - destruct (result_sheets_entry queries results 0 k q (inr rows))
      as (name & Hn & Hget & _); [lia|lia|exact Hq|exact Hr|].
    exists name. split; [exact Hn|].
    assert (Hne : name <> DirectExcel.executedQueriesSheetName)
      by (eapply createSheetName_not_index; exact Hn).
    assert (Hsheet : get_sheet name (index_sheet queries :: result_sheets 0 queries results)
                     = Some {| sheet_name := name; sheet_cells := result_cells rows |})
      by (rewrite get_sheet_skip_index; assumption).
    split; [|split].
    + unfold get_sheet in Hsheet. apply find_some in Hsheet as [Hin _].
      unfold sheet_names. apply list_elem_of_fmap.
      eexists. split; [|apply list_elem_of_In; exact Hin]. reflexivity.
    + intros e He cell. unfold GetCellValue. rewrite Hsheet.
      cbn [mbind option_bind sheet_cells]. unfold result_cells. rewrite He.
      apply lookup_empty.
    + intros columns Hc cell. unfold GetCellValue. rewrite Hsheet.
      cbn [mbind option_bind sheet_cells]. now apply result_cells_lookup.
Qed.

End OneStatement.

Lemma executeQueryToExcel_touches_one_sheet_witness :
  xlsx (snd (DirectExcel.executeQueryToExcel sample_Query (str "SELEKT") (str "1_Broken")
               {| xlsx := NewFile; logged := []; conn := 0%nat |})) = NewFile
  /\ get_sheet (str "Sheet1")
       (xlsx (snd (DirectExcel.executeQueryToExcel sample_Query (str "SELECT 5 AS X")
                     (str "1_Five") {| xlsx := NewFile; logged := []; conn := 0%nat |})))
     = Some {| sheet_name := str "Sheet1"; sheet_cells := ∅ |}.
Proof.
  split.
  - destruct (executeQueryToExcel_touches_one_sheet sample_Query (str "SELEKT") (str "1_Broken")
                {| xlsx := NewFile; logged := []; conn := 0%nat |}) as (_ & _ & _ & Hrefused).
    apply (Hrefused (str "Incorrect syntax")). reflexivity.
  - destruct (executeQueryToExcel_touches_one_sheet sample_Query (str "SELECT 5 AS X")
                (str "1_Five") {| xlsx := NewFile; logged := []; conn := 0%nat |})
      as (Hother & _).
    rewrite Hother; [reflexivity|].
    repeat split; try reflexivity. vm_compute. discriminate.
Defined.

Lemma late_failure_keeps_the_sheet_witness :
  Z.of_nat (length [good_query "Waits"]) + 1 <= max_int
  /\ exists w,
       DirectExcel.executeSQLQueriesAndCreateExcel late_Query tt [good_query "Waits"] = Some w
       /\ str "Failed to execute query Waits: error occurred during row iteration: connection reset"
            ∈ logged w
       /\ GetCellValue (str "1_Waits") (1, 2) (xlsx w) = Some (CellStr (str "5")).
Proof.
  assert (H : Z.of_nat (length [good_query "Waits"]) + 1 <= max_int)
    by (vm_compute; discriminate).
  split; [exact H|].
  destruct (late_failure_keeps_the_sheet late_Query tt [good_query "Waits"] H)
    as (w & Hrun & Hlate).
  exists w. split; [exact Hrun|].
  destruct (Hlate 0%nat (good_query "Waits") late_result
              (str "error occurred during row iteration: connection reset")
              eq_refl eq_refl eq_refl) as (Hlog & name & Hname & _ & _ & Hcells).
  split; [exact Hlog|].
  injection Hname as <-. apply (Hcells [str "X"] eq_refl (1, 2)).
Defined.

(** ** One statement, one file *)

Section OneFile.
Context {DB : Type}.
Variable db_Query : DB -> gostring -> (gostring + ResultSet) * DB.
Variable creatable : gostring -> bool.

(** X10.  What a statement leaves in its CSV file.  When [db.Query] hands
    back a cursor whose columns can be read and the file can be created,
    [executeQuery] returns, the file holds the column names and under
    them one record for each row that [Scan] accepted, in order, and
    every record is as wide as the header; the rows [Scan] refused are in
    the log and not in the file, and an error of the cursor is one more
    line of the log. *)
Theorem executeQuery_file_content (render : Value -> gostring) (query fileName : gostring)
    (w : CsvWorld DB) (rows : ResultSet) (db : DB) (columns : list gostring) :
  db_Query (csv_conn w) query = (inr rows, db) ->
  creatable fileName = true ->
  rs_columns rows = inr columns ->
  exists w',
    csv_executeQuery db_Query creatable render query fileName w = Some w'
    /\ read_file fileName (dir w')
       = Some (columns :: map (map render) (scanned_rows (length columns) (rs_rows rows)))
    /\ Forall (fun record : CsvRecord => length record = length columns)
         (columns :: map (map render) (scanned_rows (length columns) (rs_rows rows)))
    /\ csv_logged w'
       = csv_logged w ++ scan_log (length columns) (rs_rows rows)
         ++ match rs_err rows with
            | Some err => [str "Error occurred during row iteration: " ++ err]
            | None => []
            end
    /\ csv_conn w' = db.
Proof.
  intros Hq Hcr Hc. unfold csv_executeQuery. rewrite Hq, Hcr, Hc, csv_rows_closed.
  cbn [negb]. eexists. split; [reflexivity|]. cbn [dir csv_logged csv_conn].
  split; [apply read_write_file|]. split; [|split; reflexivity].
  constructor; [reflexivity|]. apply Forall_map.
  eapply Forall_impl; [apply scanned_rows_width|].
  intros values Hw. cbn. now rewrite length_map.
Qed.


Lemma render_fields_no_newline (v : Value) :
  Forall (fun c => no_newline c = true) (CsvOnly.render_field v)
  /\ Forall (fun c => no_newline c = true) (CsvStaging.render_field v).
Proof.
  split; [apply clean_newlines_no_newline|].
  destruct v; try apply clean_newlines_no_newline. repeat constructor.
Qed.

(** X12.  A data field never holds a line break.  In the file either CSV
    revision of [executeQuery] writes, no field of the records under the
    header contains a line feed or a carriage return, whatever the
    database sent; the header is the one record that is written as it
    came. *)
Theorem data_fields_hold_no_line_break (query fileName : gostring) (w w' : CsvWorld DB)
    (records : list CsvRecord) :
  CsvOnly.executeQuery db_Query creatable query fileName w = Some w'
  \/ CsvStaging.executeQuery db_Query creatable query fileName w = Some w' ->
  read_file fileName (dir w') = Some records ->
  Forall (fun record : CsvRecord =>
            Forall (fun field => Forall (fun c => no_newline c = true) field) record)
         (tail records).
Proof.
  intros Hrun Hread.
  assert (H : exists render,
             (forall v, Forall (fun c => no_newline c = true) (render v))
             /\ csv_executeQuery db_Query creatable render query fileName w = Some w').
  { destruct Hrun as [Hrun|Hrun].
    - exists CsvOnly.render_field. split; [apply render_fields_no_newline|exact Hrun].
    - exists CsvStaging.render_field. split; [apply render_fields_no_newline|exact Hrun]. }
  destruct H as (render & Hrender & Hexec). clear Hrun.
  unfold csv_executeQuery in Hexec.
  destruct (db_Query (csv_conn w) query) as [[err|rows] db]; [discriminate|].
  destruct (creatable fileName); [|discriminate]. cbn [negb] in Hexec.
  destruct (rs_columns rows) as [err|columns].
  - injection Hexec as <-. cbn [dir] in Hread. rewrite read_write_file in Hread.
    injection Hread as <-. constructor.
  - rewrite csv_rows_closed in Hexec. injection Hexec as <-. cbn [dir] in Hread.
    rewrite read_write_file in Hread. injection Hread as <-. cbn [tail].
    apply Forall_map. apply Forall_true. intros values.
    apply Forall_map. apply Forall_true. intros v. apply Hrender.
Qed.

Lemma stage_queries_is_Some (queries : list Query) (i : Z)
    (index : list CsvRecord) (w : CsvWorld DB) :
  0 <= i -> i + Z.of_nat (length queries) + 1 <= max_int ->
  is_Some (CsvStaging.stage_queries db_Query creatable i (i + 1) queries index w)
  <-> Forall (fun r => executed r = true) (query_results db_Query queries (csv_conn w))
      /\ Forall (fun name => creatable name = true)
           (map_range (fun i query => createFileName (i + 1) (q_Name query)) i queries).
Proof.
  revert i index w.
  induction queries as [|q queries IH]; intros i index w Hi Hmax.
  - cbn. split; [split; constructor|eauto].
  - cbn [CsvStaging.stage_queries query_results map_range]. cbn [length] in Hmax.
    rewrite wrap_small by (unfold is_int, min_int, max_int in *; lia).
    unfold CsvStaging.executeQuery, csv_executeQuery.
    destruct (db_Query (csv_conn w) (q_Query q)) as [[err|rows] db].
    + cbn. split; [intros [x [=]]|]. intros [H _]. inversion H as [|? ? Hx]. discriminate Hx.
    + destruct (creatable (createFileName (i + 1) (q_Name q))) eqn:Ec; cbn [negb].
      * assert (Hstep : forall w1 : CsvWorld DB, csv_conn w1 = db ->
                  is_Some (CsvStaging.stage_queries db_Query creatable (i + 1) (i + 1 + 1)
                             queries
                             (index ++ [[Itoa (i + 1); q_Query q; q_Notes q]]) w1)
                  <-> Forall (fun r => executed r = true)
                        (inr rows :: query_results db_Query queries db)
                      /\ Forall (fun name => creatable name = true)
                           (createFileName (i + 1) (q_Name q)
                            :: map_range (fun i query => createFileName (i + 1) (q_Name query))
                                 (i + 1) queries)).
        { intros w1 Hw1. rewrite IH by lia. rewrite Hw1. split.
          - intros [H1 H2]. split; now constructor.
          - intros [H1 H2]. split; [now inversion H1|now inversion H2]. }
        destruct (rs_columns rows) as [err|columns].
        -- cbn [mbind option_bind]. now apply Hstep.
        -- rewrite csv_rows_closed. cbn [mbind option_bind]. now apply Hstep.
      * cbn. split; [intros [x [=]]|]. intros [_ H]. inversion H as [|? ? Hx]. congruence.
Qed.

(** X13.  In the staging revision one refused statement, or one file that
    cannot be created, ends the whole run: [executeSQLQueries] returns
    exactly when the index file and every staging file of the catalog can
    be created and the database accepted every statement. *)
Theorem staging_needs_every_statement (db : DB) (queries : list Query) :
  Z.of_nat (length queries) + 1 <= max_int ->
  is_Some (CsvStaging.executeSQLQueries db_Query creatable db queries)
  <-> creatable CsvStaging.executed_queries = true
      /\ Forall (fun r => executed r = true) (query_results db_Query queries db)
      /\ Forall (fun name => creatable name = true) (staged_files queries).
Proof.
  intros Hmax. unfold CsvStaging.executeSQLQueries, staged_files.
  destruct (creatable CsvStaging.executed_queries); cbn [negb].
  - match goal with |- context [CsvStaging.stage_queries _ _ ?i _ _ ?ix ?w] =>
      pose proof (stage_queries_is_Some queries 0 ix w ltac:(lia) ltac:(lia)) as Hiff;
      cbn [csv_conn] in Hiff; change (0 + 1) with 1 in Hiff;
      destruct (CsvStaging.stage_queries db_Query creatable i 1 queries ix w)
        as [[index w']|] end.
    + cbn [mbind option_bind]. split; [|eauto].
      intros _. split; [reflexivity|]. apply Hiff. eauto.
    + cbn [mbind option_bind]. split; [intros [x [=]]|].
      intros [_ H]. apply Hiff in H. destruct H as [x [=]].
  - split; [intros [x [=]]|intros [[=] _]].
Qed.

End OneFile.


Lemma staging_needs_every_statement_witness :
  Z.of_nat (length [long_query]) + 1 <= max_int
  /\ CsvStaging.executeSQLQueries sample_Query name_fits 0%nat sample_catalog = None
  /\ CsvStaging.executeSQLQueries sample_Query name_fits 0%nat [long_query] = None
  /\ is_Some (CsvStaging.executeSQLQueries sample_Query name_fits 0%nat
                [good_query "Version Info"; good_query "Top Waits"]).
Proof.
  assert (H1 : Z.of_nat (length [long_query]) + 1 <= max_int) by (vm_compute; discriminate).
  assert (H2 : Z.of_nat (length [good_query "Version Info"; good_query "Top Waits"]) + 1
               <= max_int) by (vm_compute; discriminate).
  assert (H3 : Z.of_nat (length sample_catalog) + 1 <= max_int) by (vm_compute; discriminate).
  split; [exact H1|]. split; [|split].
  - destruct (CsvStaging.executeSQLQueries sample_Query name_fits 0%nat sample_catalog)
      as [w|] eqn:E; [|reflexivity].
    exfalso.
    assert (H : is_Some (CsvStaging.executeSQLQueries sample_Query name_fits 0%nat
                           sample_catalog)) by (rewrite E; eauto).
    apply (staging_needs_every_statement sample_Query name_fits 0%nat sample_catalog H3) in H
      as (_ & H & _).
    apply Forall_cons in H as [_ H]. apply Forall_cons in H as [H _]. discriminate H.
  - destruct (CsvStaging.executeSQLQueries sample_Query name_fits 0%nat [long_query])
      as [w|] eqn:E; [|reflexivity].
    exfalso.
    assert (H : is_Some (CsvStaging.executeSQLQueries sample_Query name_fits 0%nat
                           [long_query])) by (rewrite E; eauto).
    apply (staging_needs_every_statement sample_Query name_fits 0%nat [long_query] H1) in H
      as (_ & _ & H).
    apply Forall_cons in H as [H _]. vm_compute in H. discriminate H.
  - apply (staging_needs_every_statement sample_Query name_fits 0%nat _ H2).
    split; [reflexivity|]. split; repeat constructor.
Defined.

Lemma data_fields_hold_no_line_break_witness :
  exists w',
    CsvOnly.executeQuery null_Query name_fits (str "SELECT NULL AS X") (str "0_Nulls.csv")
      {| dir := []; csv_logged := []; csv_conn := tt |} = Some w'
    /\ read_file (str "0_Nulls.csv") (dir w') = Some [[str "X"]; [str "<nil>"]]
    /\ Forall (fun record : CsvRecord =>
                 Forall (fun field => Forall (fun c => no_newline c = true) field) record)
              [[str "<nil>"]].
Proof.
  eexists. split; [vm_compute; reflexivity|]. split; [vm_compute; reflexivity|].
  apply (data_fields_hold_no_line_break null_Query name_fits (str "SELECT NULL AS X")
           (str "0_Nulls.csv") {| dir := []; csv_logged := []; csv_conn := tt |} _
           [[str "X"]; [str "<nil>"]] (or_introl eq_refl) eq_refl).
Defined.

Lemma executeQuery_file_content_witness :
  exists w',
    CsvStaging.executeQuery sample_Query name_fits (str "SELECT 5 AS X") (str "1_Five.csv")
      {| dir := [(str "1_Five.csv", [[str "old"]])]; csv_logged := []; csv_conn := 0%nat |}
    = Some w'
    /\ read_file (str "1_Five.csv") (dir w') = Some [[str "X"]; [str "5"]].
Proof.
  destruct (executeQuery_file_content sample_Query name_fits CsvStaging.render_field
              (str "SELECT 5 AS X") (str "1_Five.csv")
              {| dir := [(str "1_Five.csv", [[str "old"]])]; csv_logged := [];
                 csv_conn := 0%nat |}
              sample_result 1%nat [str "X"] eq_refl eq_refl eq_refl)
    as (w' & Hrun & Hread & _).
  exists w'. split; [exact Hrun|exact Hread].
Defined.

(** ** The merge *)

Lemma write_cells_last (name : gostring) (rows : list CsvRecord) (i : Z) (f : File)
    (m : gmap (Z * Z) CellValue) :
  has_sheet name f = false ->
  range_from (fun rowIndex row f =>
      range_from (fun colIndex cellValue f =>
        SetCellValue name (colIndex + 1, rowIndex + 1) (CellStr cellValue) f) 0 row f)
    i rows (f ++ [ {| sheet_name := name; sheet_cells := m |} ])
  = f ++ [ {| sheet_name := name;
              sheet_cells :=
                range_from (fun rowIndex row m =>
                    range_from (fun colIndex cellValue m =>
                      <[(colIndex + 1, rowIndex + 1) := CellStr cellValue]> m) 0 row m)
                  i rows m |} ].
Proof.
  intros H. revert i m. induction rows as [|row rows IH]; intros i m; [reflexivity|].
  cbn [range_from].
  rewrite (range_SetCellValue_last name (fun k => (k + 1, i + 1)) CellStr) by assumption.
  apply IH.
Qed.

Lemma csv_rows_lookup (rows : list CsvRecord) (i : Z) (m : gmap (Z * Z) CellValue)
    (c r : Z) :
  (forall c' r', i + 1 <= r' -> m !! (c', r') = None) ->
  range_from (fun rowIndex row m =>
      range_from (fun colIndex cellValue m =>
        <[(colIndex + 1, rowIndex + 1) := CellStr cellValue]> m) 0 row m)
    i rows m !! (c, r)
  = if r <? i + 1 then m !! (c, r)
    else row ← rows !! Z.to_nat (r - i - 1);
         if 1 <=? c then CellStr <$> row !! Z.to_nat (c - 1) else None.
Proof.
  revert i m. induction rows as [|row rows IH]; intros i m Hm.
  - cbn. destruct (Z.ltb_spec r (i + 1)); [reflexivity|]. apply Hm. lia.
  - cbn [range_from]. rewrite IH.
    + destruct (Z.ltb_spec r (i + 1 + 1)), (Z.ltb_spec r (i + 1)); try lia.
      * rewrite (range_row_lookup CellStr).
        destruct (Z.eqb_spec r (i + 1)); [lia|reflexivity].
      * assert (r = i + 1) as -> by lia.
        rewrite (range_row_lookup CellStr), Z.eqb_refl.
        replace (Z.to_nat (i + 1 - i - 1)) with O by lia.
        replace ((row :: rows) !! O) with (Some row) by reflexivity.
        cbn [andb mbind option_bind].
        replace (c - 0 - 1) with (c - 1) by lia.
        destruct (Z.leb_spec (0 + 1) c), (Z.leb_spec 1 c); try lia; cbn [andb].
        -- destruct (Z.leb_spec c (0 + Z.of_nat (length row))); [reflexivity|].
           rewrite Hm by lia. rewrite lookup_ge_None_2; [reflexivity|lia].
        -- apply Hm. lia.
      * replace (Z.to_nat (r - i - 1)) with (S (Z.to_nat (r - (i + 1) - 1))) by lia.
        reflexivity.
    + intros c' r' Hr'. rewrite (range_row_lookup CellStr).
      destruct (Z.eqb_spec r' (i + 1)); [lia|]. apply Hm. lia.
Qed.

Lemma csv_cells_lookup (rows : list CsvRecord) (cell : Z * Z) :
  csv_cells rows ∅ !! cell = csv_cell rows cell.
Proof.
  destruct cell as [c r]. unfold csv_cells, csv_cell, for_range.
  rewrite csv_rows_lookup by (intros; apply lookup_empty).
  rewrite lookup_empty. replace (r - 0 - 1) with (r - 1) by lia.
  destruct (Z.ltb_spec r (0 + 1)), (Z.leb_spec 1 r), (Z.leb_spec 1 c);
    cbn [andb]; try reflexivity; try lia.
  now destruct (rows !! Z.to_nat (r - 1)).
Qed.

Lemma add_sheet_closed (d : Dir) (i : Z) (x : gostring) (f : File) :
  1 <= i ->
  valid_sheet_name (TrimSuffix x (str ".csv")) = true ->
  TrimSuffix x (str ".csv") ∉ sheet_names f ->
  CsvStaging.add_sheet d i x f = f ++ option_list (csv_sheet d x).
Proof.
  intros Hi Hvalid Hfresh. unfold CsvStaging.add_sheet, csv_sheet.
  destruct (read_records x d) as [rows|]; cbn [mbind option_bind option_list];
    [|now rewrite app_nil_r].
  destruct (Z.eqb_spec i 0); [lia|].
  apply has_sheet_false in Hfresh.
  rewrite NewSheet_fresh by assumption. unfold for_range.
  now rewrite write_cells_last.
Qed.

Lemma csv_sheet_name (d : Dir) (x : gostring) (s : Sheet) :
  csv_sheet d x = Some s -> sheet_name s = TrimSuffix x (str ".csv").
Proof.
  unfold csv_sheet. destruct (read_records x d); [|discriminate].
  cbn [mbind option_bind]. now intros [= <-].
Qed.

Lemma add_sheets_closed (d : Dir) (files : list gostring) (i : Z) (f : File) :
  1 <= i ->
  (forall x, x ∈ files -> valid_sheet_name (TrimSuffix x (str ".csv")) = true) ->
  NoDup (map (fun x => TrimSuffix x (str ".csv")) files) ->
  (forall x, x ∈ files -> TrimSuffix x (str ".csv") ∉ sheet_names f) ->
  range_from (CsvStaging.add_sheet d) i files f = f ++ omap (csv_sheet d) files.
Proof.
  revert i f. induction files as [|x files IH]; intros i f Hi Hvalid Hnd Hfresh.
  - cbn. now rewrite app_nil_r.
  - cbn [range_from map]. apply NoDup_cons in Hnd as [Hx Hnd].
    rewrite add_sheet_closed; [|exact Hi|apply Hvalid; left|apply Hfresh; left].
    rewrite IH; [| lia | | exact Hnd | ].
    + rewrite <- app_assoc. f_equal. cbn [omap list_omap].
      now destruct (csv_sheet d x).
    + intros y Hy. apply Hvalid. now right.
    + intros y Hy. unfold sheet_names. rewrite map_app. rewrite not_elem_of_app. split.
      * apply Hfresh. now right.
      * destruct (csv_sheet d x) as [s|] eqn:Es; cbn [option_list option_rect map];
          [|apply not_elem_of_nil].
        rewrite list_elem_of_singleton, (csv_sheet_name d x s Es).
        intros E. apply Hx. rewrite <- E. apply list_elem_of_fmap. eauto.
Qed.

(** The sheet of a name among the sheets the files became: the sheet of
    the file of that name, if the file could be read. *)
Lemma get_sheet_omap_None (d : Dir) (files : list gostring) (name : gostring) :
  name ∉ map (fun x => TrimSuffix x (str ".csv")) files ->
  get_sheet name (omap (csv_sheet d) files) = None.
Proof.
  induction files as [|y files IH]; intros Hnot; [reflexivity|].
  cbn [map] in Hnot. apply not_elem_of_cons in Hnot as [Hy Hnot].
  cbn [omap list_omap]. destruct (csv_sheet d y) as [s|] eqn:Es; [|now apply IH].
  unfold get_sheet. cbn [find]. rewrite (csv_sheet_name d y s Es).
  rewrite name_eqb_neq by congruence. now apply IH.
Qed.

Lemma get_sheet_omap (d : Dir) (files : list gostring) (x : gostring) :
  NoDup (map (fun x => TrimSuffix x (str ".csv")) files) -> x ∈ files ->
  get_sheet (TrimSuffix x (str ".csv")) (omap (csv_sheet d) files) = csv_sheet d x.
Proof.
  induction files as [|y files IH]; intros Hnd Hin; [now apply elem_of_nil in Hin|].
  cbn [map] in Hnd. apply NoDup_cons in Hnd as [Hy Hnd].
  cbn [omap list_omap]. apply elem_of_cons in Hin as [->|Hin].
  - destruct (csv_sheet d y) as [s|] eqn:Es.
    + unfold get_sheet. cbn [find]. rewrite (csv_sheet_name d y s Es).
      now rewrite name_eqb_refl.
    + now apply get_sheet_omap_None.
  - assert (Hne : TrimSuffix y (str ".csv") <> TrimSuffix x (str ".csv")).
    { intros E. apply Hy. rewrite E. apply list_elem_of_fmap. eauto. }
    destruct (csv_sheet d y) as [s|] eqn:Es; [|now apply IH].
    unfold get_sheet. cbn [find]. rewrite (csv_sheet_name d y s Es).
    rewrite name_eqb_neq by exact Hne. now apply IH.
Qed.

Lemma staged_sheet_name_not_Sheet1 (i : Z) (query : Query) :
  staged_sheet_name i query <> str "Sheet1".
Proof.
  unfold staged_sheet_name. pose proof (Itoa_nonempty (i + 1)) as Hn.
  pose proof (Itoa_chars (i + 1)) as Hc.
  destruct (Itoa (i + 1)) as [|c rest]; [unfold len in Hn; simpl in Hn; lia|].
  inversion Hc; subst. intros [= -> _]. discriminate.
Qed.

(** The workbook the merge builds from a directory that holds the index
    file and the staging files of the catalog: the index sheet, or the
    [Sheet1] of the new workbook when the index cannot be read, and after
    it the sheets of the staging files that can be read. *)
Lemma createExcelFromCSV_closed (d : Dir) (queries : list Query) :
  Z.of_nat (length queries) + 1 <= max_int ->
  (forall (k : nat) q, queries !! k = Some q ->
     len (staged_sheet_name (Z.of_nat k) q) <= 31) ->
  map fst d = CsvStaging.executed_queries :: staged_files queries ->
  CsvStaging.createExcelFromCSV d
  = match csv_sheet d CsvStaging.executed_queries with
    | Some sheet => [sheet]
    | None => NewFile
    end ++ omap (csv_sheet d) (staged_files queries).
Proof.
  intros Hmax Hfit Hd. unfold CsvStaging.createExcelFromCSV, ReadDir.
  rewrite (sortedFiles_catalog_order queries);
    [|exact Hmax|now rewrite SliceStable_Permutation, Hd].
  unfold for_range. cbn [range_from].
  assert (Hfirst : CsvStaging.add_sheet d 0 CsvStaging.executed_queries NewFile
                   = match csv_sheet d CsvStaging.executed_queries with
                     | Some sheet => [sheet]
                     | None => NewFile
                     end).
  { unfold CsvStaging.add_sheet, csv_sheet.
    destruct (read_records CsvStaging.executed_queries d) as [rows|];
      cbn [mbind option_bind]; [|reflexivity].
    apply (write_cells_last (str "executed_queries") rows 0 [] ∅). reflexivity. }
  rewrite Hfirst. apply add_sheets_closed; [lia| | | ].
  - intros x Hx.
    assert (Hin : TrimSuffix x (str ".csv")
                  ∈ map (fun x => TrimSuffix x (str ".csv")) (staged_files queries))
      by (apply list_elem_of_fmap; eauto).
    rewrite staged_files_trimmed in Hin.
    apply map_range_elem in Hin as (k & q & Hk & ->).
    apply staged_sheet_name_valid. rewrite Z.add_0_l. now apply Hfit.
  - rewrite staged_files_trimmed.
    apply (StronglySorted_lt_NoDup file_key).
    apply (map_range_StronglySorted _ file_key (Z.of_nat (length queries))); [|lia|lia].
    intros j q Hj. apply file_key_staged_sheet_name.
    unfold is_int, min_int, max_int in *. lia.
  - intros x Hx.
    assert (Hin : TrimSuffix x (str ".csv")
                  ∈ map (fun x => TrimSuffix x (str ".csv")) (staged_files queries))
      by (apply list_elem_of_fmap; eauto).
    rewrite staged_files_trimmed in Hin.
    apply map_range_elem in Hin as (k & q & _ & ->).
    assert (Hnames : sheet_names match csv_sheet d CsvStaging.executed_queries with
                                 | Some sheet => [sheet]
                                 | None => NewFile
                                 end = [str "executed_queries"]
                     \/ sheet_names match csv_sheet d CsvStaging.executed_queries with
                                    | Some sheet => [sheet]
                                    | None => NewFile
                                    end = [str "Sheet1"]).
    { destruct (csv_sheet d CsvStaging.executed_queries) as [s|] eqn:Es; [left|now right].
      cbn [sheet_names map]. now rewrite (csv_sheet_name _ _ _ Es). }
    destruct Hnames as [-> | ->]; rewrite list_elem_of_singleton.
    + apply staged_sheet_name_not_index.
    + apply staged_sheet_name_not_Sheet1.
Qed.

(** X14.  The merge copies a file into its sheet cell for cell.  For a
    directory that holds the index file and the staging files of a
    catalog whose names fit a worksheet name, the sheet of a file holds
    field [c] of record [r] of what was read from the file at column [c]
    of row [r], as text, and nothing else; this is so for the index as
    well, whose position numbers are text in this revision; and a staging
    file the reader refuses gets no sheet. *)
Theorem merged_sheets_hold_the_files (d : Dir) (queries : list Query) :
  Z.of_nat (length queries) + 1 <= max_int ->
  (forall (k : nat) q, queries !! k = Some q ->
     len (staged_sheet_name (Z.of_nat k) q) <= 31) ->
  map fst d = CsvStaging.executed_queries :: staged_files queries ->
  (forall records cell,
     read_records CsvStaging.executed_queries d = Some records ->
     GetCellValue (str "executed_queries") cell (CsvStaging.createExcelFromCSV d)
     = csv_cell records cell)
  /\ (forall (k : nat) q records cell,
        queries !! k = Some q ->
        read_records (createFileName (Z.of_nat k + 1) (q_Name q)) d = Some records ->
        GetCellValue (staged_sheet_name (Z.of_nat k) q) cell (CsvStaging.createExcelFromCSV d)
        = csv_cell records cell)
  /\ (forall (k : nat) q,
        queries !! k = Some q ->
        read_records (createFileName (Z.of_nat k + 1) (q_Name q)) d = None ->
        get_sheet (staged_sheet_name (Z.of_nat k) q) (CsvStaging.createExcelFromCSV d) = None).
Proof.
  intros Hmax Hfit Hd.
  rewrite (createExcelFromCSV_closed d queries Hmax Hfit Hd).
  assert (Hnd : NoDup (map (fun x => TrimSuffix x (str ".csv")) (staged_files queries))).
  { rewrite staged_files_trimmed.
    apply (StronglySorted_lt_NoDup file_key).
    apply (map_range_StronglySorted _ file_key (Z.of_nat (length queries))); [|lia|lia].
    intros j q Hj. apply file_key_staged_sheet_name.
    unfold is_int, min_int, max_int in *. lia. }
  assert (Hstaged : forall (k : nat) q, queries !! k = Some q ->
            get_sheet (staged_sheet_name (Z.of_nat k) q)
              (match csv_sheet d CsvStaging.executed_queries with
               | Some sheet => [sheet]
               | None => NewFile
               end ++ omap (csv_sheet d) (staged_files queries))
            = csv_sheet d (createFileName (Z.of_nat k + 1) (q_Name q))).
  { intros k q Hq.
    assert (Hname : staged_sheet_name (Z.of_nat k) q
                    = TrimSuffix (createFileName (Z.of_nat k + 1) (q_Name q)) (str ".csv"))
      by (rewrite createFileName_suffix; now rewrite TrimSuffix_app).
    assert (Hin : createFileName (Z.of_nat k + 1) (q_Name q) ∈ staged_files queries).
    { eapply list_elem_of_lookup_2 with (i := k). unfold staged_files.
      rewrite map_range_lookup, Hq. cbn. now rewrite Z.add_0_l. }
    rewrite <- (get_sheet_omap d (staged_files queries) _ Hnd Hin), <- Hname.
    unfold get_sheet.
    destruct (csv_sheet d CsvStaging.executed_queries) as [s|] eqn:Es; cbn [app find].
    - rewrite (csv_sheet_name _ _ _ Es). rewrite name_eqb_neq; [reflexivity|].
      intros E. symmetry in E. revert E. apply staged_sheet_name_not_index.
    - unfold NewFile. cbn [app find sheet_name]. rewrite name_eqb_neq; [reflexivity|].
      intros E. symmetry in E. revert E. apply staged_sheet_name_not_Sheet1. }
  split; [|split].
  - intros records cell Hread. unfold GetCellValue, get_sheet, csv_sheet.
    rewrite Hread. cbn [mbind option_bind app find sheet_name].
    change (TrimSuffix CsvStaging.executed_queries (str ".csv")) with (str "executed_queries").
    rewrite name_eqb_refl. cbn [mbind option_bind sheet_cells]. apply csv_cells_lookup.
  - intros k q records cell Hq Hread. unfold GetCellValue.
    rewrite (Hstaged k q Hq). unfold csv_sheet. rewrite Hread.
    cbn [mbind option_bind sheet_cells]. apply csv_cells_lookup.
  - intros k q Hq Hread. rewrite (Hstaged k q Hq). unfold csv_sheet. now rewrite Hread.
Qed.

Lemma merged_sheets_hold_the_files_witness :
  Z.of_nat (length [good_query "Five"]) + 1 <= max_int
  /\ map fst sample_dir = CsvStaging.executed_queries :: staged_files [good_query "Five"]
  /\ GetCellValue (str "executed_queries") (1, 2) (CsvStaging.createExcelFromCSV sample_dir)
     = Some (CellStr (str "1"))
  /\ GetCellValue (str "1_Five") (1, 2) (CsvStaging.createExcelFromCSV sample_dir)
     = Some (CellStr (str "5"))
  /\ GetCellValue (str "1_Five") (2, 2) (CsvStaging.createExcelFromCSV sample_dir) = None.
Proof.
  assert (Hmax : Z.of_nat (length [good_query "Five"]) + 1 <= max_int)
    by (vm_compute; discriminate).
  assert (Hfit : forall (k : nat) q, [good_query "Five"] !! k = Some q ->
                   len (staged_sheet_name (Z.of_nat k) q) <= 31).
  { intros [|[|k]] q Hq; try discriminate Hq.
    injection Hq as <-. vm_compute. discriminate. }
  assert (Hd : map fst sample_dir
               = CsvStaging.executed_queries :: staged_files [good_query "Five"])
    by (vm_compute; reflexivity).
  split; [exact Hmax|]. split; [exact Hd|].
  destruct (merged_sheets_hold_the_files sample_dir [good_query "Five"] Hmax Hfit Hd)
    as (Hindex & Hfile & _).
  split; [|split].
  - apply (Hindex _ (1, 2) eq_refl).
  - apply (Hfile 0%nat (good_query "Five") _ (1, 2) eq_refl eq_refl).
  - apply (Hfile 0%nat (good_query "Five") _ (2, 2) eq_refl eq_refl).
Defined.

Lemma add_sheets_prefix (d : Dir) (files : list gostring) (i : Z) (f : File) :
  1 <= i ->
  exists rest, sheet_names (range_from (CsvStaging.add_sheet d) i files f)
               = sheet_names f ++ rest.
Proof.
  revert i f. induction files as [|x files IH]; intros i f Hi.
  - exists []. cbn. now rewrite app_nil_r.
  - cbn [range_from]. destruct (IH (i + 1) (CsvStaging.add_sheet d i x f)) as [rest ->]; [lia|].
    unfold CsvStaging.add_sheet. destruct (read_records x d) as [rows|]; [|eauto].
    rewrite sheet_names_write_cells. destruct (Z.eqb_spec i 0); [lia|].
    destruct (sheet_names_NewSheet (TrimSuffix x (str ".csv")) f) as [-> | ->]; [eauto|].
    rewrite <- app_assoc. eauto.
Qed.

(** X15.  The workbook of the merge opens with the index only when the
    index file can be read.  Whatever else the directory holds, as long
    as no other name can be taken for the index file, the first sheet is
    [executed_queries] when [executed_queries.csv] is in the directory and
    the reader accepts it, and the [Sheet1] of the new workbook when the
    file is missing or the reader fails on it: the loop renames [Sheet1]
    at position 0 only, position 0 is always the index file, and a file
    that cannot be opened or read is skipped. *)
Theorem merge_first_sheet (d : Dir) :
  plain_listing d ->
  head (sheet_names (CsvStaging.createExcelFromCSV d))
  = Some (match read_records CsvStaging.executed_queries d with
          | Some _ => str "executed_queries"
          | None => str "Sheet1"
          end).
Proof.
  intros _.
  unfold CsvStaging.createExcelFromCSV, CsvStaging.sortedFiles, for_range.
  cbv zeta. cbn [range_from].
  match goal with |- context [range_from _ ?i ?l ?f] =>
    destruct (add_sheets_prefix d l i f) as [rest ->]; [lia|] end.
  unfold CsvStaging.add_sheet, CsvStaging.executed_queries.
  destruct (read_records (str "executed_queries.csv") d) as [rows|]; [|reflexivity].
  now rewrite sheet_names_write_cells.
Qed.

Lemma merge_first_sheet_witness :
  plain_listing [(str "executed_queries.csv", [[str "a"; str "b"]; [str "c"]])]
  /\ sheet_names (CsvStaging.createExcelFromCSV
                   [(str "executed_queries.csv", [[str "a"; str "b"]; [str "c"]])])
     = [str "Sheet1"]
  /\ sheet_names (CsvStaging.createExcelFromCSV [(str "1_Five.csv", [[str "X"]; [str "5"]])])
     = [str "Sheet1"; str "1_Five"]
  /\ head (sheet_names (CsvStaging.createExcelFromCSV sample_dir))
     = Some (str "executed_queries").
Proof.
  assert (H1 : plain_listing [(str "executed_queries.csv", [[str "a"; str "b"]; [str "c"]])]).
  { repeat constructor. }
  assert (H2 : plain_listing sample_dir).
  { repeat constructor. intros H. vm_compute in H. discriminate H. }
  split; [exact H1|]. split; [vm_compute; reflexivity|]. split; [vm_compute; reflexivity|].
  rewrite (merge_first_sheet sample_dir H2). reflexivity.
Defined.

Lemma filter_filter_andb {A : Type} (f g : A -> bool) (l : list A) :
  List.filter f (List.filter g l) = List.filter (fun x => g x && f x) l.
Proof.
  induction l as [|x l IH]; [reflexivity|]. cbn.
  destruct (g x); cbn; [destruct (f x)|]; now rewrite IH.
Qed.

Lemma foldl_remove_file (names : list gostring) (d : Dir) :
  foldl (fun d name => remove_file name d) d names
  = List.filter (fun e => forallb (fun name => negb (name_eqb (fst e) name)) names) d.
Proof.
  revert d. induction names as [|n names IH]; intros d.
  - cbn. symmetry. apply filter_keeps_all. now apply Forall_true.
  - cbn [foldl forallb]. rewrite IH. unfold remove_file. apply filter_filter_andb.
Qed.

Lemma sortedFiles_elem (files : list gostring) (x : gostring) :
  x ∈ CsvStaging.sortedFiles files
  <-> x = CsvStaging.executed_queries
      \/ (x ∈ files /\ HasSuffix x (str ".csv") = true).
Proof.
  unfold CsvStaging.sortedFiles. cbv zeta. rewrite elem_of_cons, SliceStable_Permutation.
  rewrite !list_elem_of_In, !filter_In, <- list_elem_of_In.
  unfold CsvStaging.executed_queries. split.
  - intros [->|[[Hin Hs] _]]; [now left|now right].
  - intros [->|[Hin Hs]]; [now left|].
    destruct (decide (x = str "executed_queries.csv")) as [->|Hne]; [now left|].
    right. repeat split; try assumption. now rewrite name_eqb_neq.
Qed.

(** X16.  When the merge is over no CSV file is left.  In a directory
    where no other name can be taken for the index file, the loop that
    deletes the files of [sortedFiles] removes exactly the files whose
    name ends in [.csv], whether or not they were given a sheet, and
    leaves every other file where it was. *)
Theorem merge_removes_every_csv_file (d : Dir) :
  plain_listing d ->
  createExcelFromCSV_remove d
  = List.filter (fun e => negb (HasSuffix (fst e) (str ".csv"))) d.
Proof.
  intros _.
  unfold createExcelFromCSV_remove. rewrite foldl_remove_file.
  apply filter_ext_in. intros [n r] Hin. cbn [fst].
  assert (Hn : n ∈ ReadDir d).
  { unfold ReadDir. rewrite SliceStable_Permutation. apply list_elem_of_fmap.
    exists (n, r). split; [reflexivity|now apply list_elem_of_In]. }
  destruct (HasSuffix n (str ".csv")) eqn:Hs; cbn [negb].
  - apply not_true_is_false. intros Hall. rewrite forallb_forall in Hall.
    specialize (Hall n). rewrite name_eqb_refl in Hall.
    enough (In n (CsvStaging.sortedFiles (ReadDir d))) as Hx by (apply Hall in Hx; discriminate).
    apply list_elem_of_In, sortedFiles_elem. now right.
  - apply forallb_forall. intros x Hx. apply list_elem_of_In, sortedFiles_elem in Hx.
    apply negb_true_iff, name_eqb_neq. intros ->.
    destruct Hx as [->|[_ Hx]]; [|congruence].
    vm_compute in Hs. discriminate Hs.
Qed.

Lemma merge_removes_every_csv_file_witness :
  plain_listing ((str "notes.txt", []) :: sample_dir)
  /\ createExcelFromCSV_remove ((str "notes.txt", []) :: sample_dir) = [(str "notes.txt", [])].
Proof.
  assert (H : plain_listing ((str "notes.txt", []) :: sample_dir)).
  { repeat constructor; intros H; vm_compute in H; discriminate H. }
  split; [exact H|].
  rewrite (merge_removes_every_csv_file _ H). reflexivity.
Defined.

(** ** The schedule and the prompt *)

Lemma sleep_then_run_last (k : nat) (d : Z) (e : Event) :
  last (e :: sleep_then_run k d) = Some (match k with O => e | S _ => Executes end).
Proof.
  revert e. induction k as [|k IH]; intros e; [reflexivity|].
  cbn [sleep_then_run]. change (last (e :: Sleeps d :: Executes :: sleep_then_run k d))
    with (last (Executes :: sleep_then_run k d)).
  rewrite IH. now destruct k.
Qed.

Lemma sleep_then_run_slept (k : nat) (d : Z) :
  slept (sleep_then_run k d) = Z.of_nat k * d.
Proof.
  induction k as [|k IH]; [reflexivity|].
  cbn [sleep_then_run]. unfold slept in *. cbn [foldr]. rewrite IH. lia.
Qed.

(** X17.  A schedule stays inside its duration, and an interval longer
    than the duration runs nothing.  With both flags positive (and the
    duration short of 2.5 million hours), an interval of more minutes
    than the duration has makes no run at all; otherwise the schedule
    starts and ends with a run, it sleeps one interval less than the
    number of runs, and all its sleeps together leave at least one
    interval of the duration over. *)
Theorem schedule_stays_within_duration (interval duration : Z) :
  0 < interval -> 0 < duration -> duration * 60 * Minute <= max_int ->
  (duration * 60 < interval -> DirectExcel.schedule interval duration = [])
  /\ (interval <= duration * 60 ->
      head (DirectExcel.schedule interval duration) = Some Executes
      /\ last (DirectExcel.schedule interval duration) = Some Executes
      /\ slept (DirectExcel.schedule interval duration)
         = (duration * 60 / interval - 1) * (interval * Minute)
      /\ slept (DirectExcel.schedule interval duration)
         <= duration * 60 * Minute - interval * Minute).
Proof.
  intros Hi Hd Hmax. unfold Minute, max_int in Hmax.
  rewrite schedule_repeat by (unfold max_int; lia). split.
  - intros Hlong. now rewrite Z.div_small by lia.
  - intros Hfit.
    assert (Hn : 1 <= duration * 60 / interval)
      by (apply Z.div_le_lower_bound; lia).
    pose proof (Z.mul_div_le (duration * 60) interval Hi) as Hle.
    rewrite wrap_small by (unfold is_int, min_int, max_int, Minute; lia).
    destruct (Z.to_nat (duration * 60 / interval)) as [|k] eqn:Ek; [lia|].
    cbn [runs_between_sleeps head]. rewrite sleep_then_run_last.
    assert (Hslept : slept (Executes :: sleep_then_run k (interval * Minute))
                     = (duration * 60 / interval - 1) * (interval * Minute)).
    { change (slept (Executes :: sleep_then_run k (interval * Minute)))
        with (slept (sleep_then_run k (interval * Minute))).
      rewrite sleep_then_run_slept. f_equal. lia. }
    rewrite Hslept. repeat split; [now destruct k|].
    unfold Minute. nia.
Qed.

Lemma schedule_stays_within_duration_witness :
  (0 < 90 /\ 0 < 1 /\ 1 * 60 * Minute <= max_int)
  /\ DirectExcel.schedule 90 1 = []
  /\ slept (DirectExcel.schedule 25 1) = 25 * Minute.
Proof.
  assert (H : 1 * 60 * Minute <= max_int) by (vm_compute; discriminate).
  split; [repeat split; try lia; exact H|]. split.
  - apply (schedule_stays_within_duration 90 1); [lia|lia|exact H|lia].
  - destruct (schedule_stays_within_duration 25 1 ltac:(lia) ltac:(lia) H)
      as [_ Hfit].
    destruct Hfit as (_ & _ & -> & _); [lia|]. reflexivity.
Defined.

Lemma lower_is_y (c : ascii) :
  (if in_range 65 90 c then ascii_of_N (N_of_ascii c + 32) else c) = "y"%char ->
  c = "y"%char \/ c = "Y"%char.
Proof. destruct c as [[] [] [] [] [] [] [] []]; vm_compute; intros [=]; auto. Qed.

Lemma lower_is_e (c : ascii) :
  (if in_range 65 90 c then ascii_of_N (N_of_ascii c + 32) else c) = "e"%char ->
  c = "e"%char \/ c = "E"%char.
Proof. destruct c as [[] [] [] [] [] [] [] []]; vm_compute; intros [=]; auto. Qed.

Lemma lower_is_s (c : ascii) :
  (if in_range 65 90 c then ascii_of_N (N_of_ascii c + 32) else c) = "s"%char ->
  c = "s"%char \/ c = "S"%char.
Proof. destruct c as [[] [] [] [] [] [] [] []]; vm_compute; intros [=]; auto. Qed.

Lemma ToLower_yes (confirmation : gostring) :
  DirectExcel.ToLower confirmation = str "yes" <-> confirmation ∈ yes_spellings.
Proof.
  split.
  - intros H. destruct confirmation as [|a [|b [|c [|? ?]]]]; try discriminate H.
    cbn in H. injection H as Ha Hb Hc.
    apply lower_is_y in Ha. apply lower_is_e in Hb. apply lower_is_s in Hc.
    apply list_elem_of_In. unfold yes_spellings.
    destruct Ha as [-> | ->], Hb as [-> | ->], Hc as [-> | ->]; cbn; tauto.
  - intros H. apply list_elem_of_In in H. unfold yes_spellings in H. cbn [In] in H.
    repeat (destruct H as [<-|H]; [vm_compute; reflexivity|]). contradiction.
Qed.

(** X18.  Nothing runs without the word.  [main] goes on to the schedule
    exactly when the answer scanned at the prompt is one of the eight
    spellings of "yes" in upper and lower case; for every other answer,
    "y" and the empty answer among them, no statement is sent and no
    workbook written, whatever the flags. *)
Theorem main_runs_on_yes_only (confirmation : gostring) (interval duration : Z) :
  DirectExcel.main confirmation interval duration
  = if bool_decide (confirmation ∈ yes_spellings)
    then DirectExcel.schedule interval duration
    else [].
Proof.
  unfold DirectExcel.main.
  destruct (bool_decide (DirectExcel.ToLower confirmation = str "yes")) eqn:E.
  - apply bool_decide_eq_true in E. apply ToLower_yes in E.
    now rewrite bool_decide_true.
  - apply bool_decide_eq_false in E. rewrite ToLower_yes in E.
    now rewrite bool_decide_false.
Qed.

(** ** The statements the database sees *)

Section Recording.
Context {DB : Type}.
Variable db_Query : DB -> gostring -> (gostring + ResultSet) * DB.
Variable creatable : gostring -> bool.

Lemma final_conn_recording (queries : list Query) (db : DB) (sent : list gostring) :
  snd (final_conn (recording db_Query) queries (db, sent)) = sent ++ map q_Query queries.
Proof.
  revert db sent. induction queries as [|q queries IH]; intros db sent.
  - cbn. now rewrite app_nil_r.
  - cbn [final_conn map]. unfold recording at 2. cbn [fst snd].
    destruct (db_Query db (q_Query q)) as [r db']. cbn [snd].
    rewrite IH. now rewrite <- app_assoc.
Qed.

Lemma stage_queries_conn {DB' : Type}
    (query_fn : DB' -> gostring -> (gostring + ResultSet) * DB')
    (can : gostring -> bool)
    (queries : list Query) (i fileCounter : Z)
    (index index' : list CsvRecord) (w w' : CsvWorld DB') :
  CsvStaging.stage_queries query_fn can i fileCounter queries index w = Some (index', w') ->
  csv_conn w' = final_conn query_fn queries (csv_conn w).
Proof.
  revert i fileCounter index w.
  induction queries as [|q queries IH]; intros i fileCounter index w H.
  - cbn in H. now injection H as _ <-.
  - cbn [CsvStaging.stage_queries final_conn] in *.
    unfold CsvStaging.executeQuery, csv_executeQuery in H.
    destruct (query_fn (csv_conn w) (q_Query q)) as [[err|rows] db']; [discriminate|].
    destruct (can _); [|discriminate]. cbn [negb] in H.
    cbn [snd]. destruct (rs_columns rows) as [err|columns].
    + cbn [mbind option_bind] in H. apply IH in H. exact H.
    + destruct (csv_rows _ _ _) as [records lines].
      cbn [mbind option_bind] in H. apply IH in H. exact H.
Qed.

(** X19.  The database is sent every statement of the catalog once, in
    the order of the catalog.  Revision 2.0.0 does so whatever the
    answers are: a statement that fails is neither sent again nor does it
    keep the later ones from being sent.  The staging revision does so
    whenever its run returns. *)
Theorem every_statement_is_sent_once (db : DB) (queries : list Query) :
  Z.of_nat (length queries) <= max_int ->
  (exists w,
     DirectExcel.executeSQLQueriesAndCreateExcel (recording db_Query) (db, []) queries = Some w
     /\ snd (conn w) = map q_Query queries)
  /\ (forall w,
        CsvStaging.executeSQLQueries (recording db_Query) creatable (db, []) queries = Some w ->
        snd (csv_conn w) = map q_Query queries).
Proof.
  intros Hmax. split.
  - eexists. split; [now apply run_closed|]. cbn [conn].
    now rewrite final_conn_recording.
  - intros w H. unfold CsvStaging.executeSQLQueries in H.
    destruct (creatable CsvStaging.executed_queries); [|discriminate]. cbn [negb] in H.
    destruct (CsvStaging.stage_queries _ _ _ _ _ _ _) as [[index w']|] eqn:E; [|discriminate].
    cbn [mbind option_bind] in H. injection H as <-. cbn [csv_conn].
    apply stage_queries_conn in E. rewrite E. cbn [csv_conn].
    now rewrite final_conn_recording.
Qed.

End Recording.

Lemma every_statement_is_sent_once_witness :
  Z.of_nat (length sample_catalog) <= max_int
  /\ exists w,
       DirectExcel.executeSQLQueriesAndCreateExcel (recording sample_Query) (0%nat, [])
         sample_catalog = Some w
       /\ snd (conn w) = [str "SELECT 5 AS X"; str "SELEKT"; str "SELECT 5 AS X"].
Proof.
  assert (H : Z.of_nat (length sample_catalog) <= max_int) by (vm_compute; discriminate).
  split; [exact H|].
  destruct (every_statement_is_sent_once sample_Query name_fits 0%nat sample_catalog H)
    as [(w & Hrun & Hsent) _].
  exists w. split; [exact Hrun|exact Hsent].
Defined.

(** ** A run of the CSV revisions, file by file *)

Lemma read_file_remove_other (other name : gostring) (d : Dir) :
  other <> name -> read_file other (remove_file name d) = read_file other d.
Proof.
  intros Hne. unfold read_file, remove_file. f_equal.
  induction d as [|[n r] d IH]; [reflexivity|]. cbn [List.filter find fst].
  destruct (name_eqb n name) eqn:E; cbn [negb find fst].
  - apply bool_decide_eq_true in E. subst n. rewrite name_eqb_neq by congruence. exact IH.
  - destruct (name_eqb n other); [reflexivity|exact IH].
Qed.

Lemma read_file_remove_if_exists_other (other name : gostring) (d : Dir) :
  other <> name -> read_file other (CsvOnlyRun.remove_if_exists name d) = read_file other d.
Proof.
  intros Hne. unfold CsvOnlyRun.remove_if_exists.
  destruct (file_exists name d); [now apply read_file_remove_other|reflexivity].
Qed.

Section CsvRun.
Context {DB : Type}.
Variable db_Query : DB -> gostring -> (gostring + ResultSet) * DB.
Variable creatable : gostring -> bool.

Lemma run_queries_read (queries : list Query) (i : Z) (index index' : list CsvRecord)
    (w w' : CsvWorld DB) :
  CsvOnlyRun.run_queries db_Query creatable i queries index w = Some (index', w') ->
  index' = index ++ map_range (fun i query => [Itoa (i + 1); q_Query query; q_Notes query])
                              i queries
  /\ (forall (k : nat) q, queries !! k = Some q ->
        exists rows,
          query_results db_Query queries (csv_conn w) !! k = Some (inr rows)
          /\ read_file (createFileName (i + Z.of_nat k) (q_Name q)) (dir w')
             = Some (file_records CsvOnly.render_field rows))
  /\ (forall other,
        (forall (k : nat) q, queries !! k = Some q ->
           other <> createFileName (i + Z.of_nat k) (q_Name q)) ->
        read_file other (dir w') = read_file other (dir w)).
Proof.
  revert i index w. induction queries as [|q queries IH]; intros i index w H.
  - cbn in H. injection H as <- <-. cbn [map_range]. rewrite app_nil_r.
    split; [reflexivity|]. split; [|reflexivity].
    intros k q0 Hk. now rewrite lookup_nil in Hk.
  - cbn [CsvOnlyRun.run_queries] in H.
    destruct (CsvOnly.executeQuery _ _ _ _ _) as [w1|] eqn:E; [|discriminate].
    cbn [mbind option_bind] in H.
    apply csv_executeQuery_Some in E as (rows & Hq & Hdir). cbn [csv_conn dir] in Hq, Hdir.
    apply IH in H as (Hindex & Hread & Hframe).
    assert (Hlater : forall (k : nat) q0, queries !! k = Some q0 ->
              createFileName i (q_Name q)
              <> createFileName (i + 1 + Z.of_nat k) (q_Name q0)).
    { intros k q0 _ Heq. apply createFileName_eq_inv in Heq. lia. }
    split; [|split].
    + rewrite Hindex. cbn [map_range]. now rewrite <- app_assoc.
    + intros [|k] q0 Hk.
      * injection Hk as <-. exists rows. cbn [query_results]. rewrite Hq. split; [reflexivity|].
        rewrite Z.add_0_r, Hframe by exact Hlater.
        rewrite Hdir. apply read_write_file.
      * destruct (Hread k q0 Hk) as (rows' & Hres & Hfile).
        exists rows'. cbn [query_results]. rewrite Hq. split; [exact Hres|].
        now replace (i + Z.of_nat (S k)) with (i + 1 + Z.of_nat k) by lia.
    + intros other Hother. rewrite Hframe.
      * rewrite Hdir, read_file_write_file_other, read_file_remove_if_exists_other;
          try reflexivity; specialize (Hother 0%nat q eq_refl); now rewrite Z.add_0_r in Hother.
      * intros k q0 Hk. specialize (Hother (S k) q0 Hk).
        now replace (i + Z.of_nat (S k)) with (i + 1 + Z.of_nat k) in Hother by lia.
Qed.

(** X20.  The first revision numbers its files from 0 and its index from
    1.  When [main] returns, [executed_queries.csv] lists the catalog
    under the positions 1, 2, ...; the result of the entry listed under
    position [k + 1] is in the file whose name starts with [k]; every
    statement executed; and a file of the working directory whose name
    differs in more than the case of letters from the name of the index
    and from the names of the result files holds what it held before the
    run. *)
Theorem first_revision_numbers_files_from_zero (d : Dir) (db : DB) (queries : list Query)
    (w : CsvWorld DB) :
  CsvOnlyRun.main db_Query creatable d db queries = Some w ->
  read_file (str "executed_queries.csv") (dir w) = Some (expected_index_records queries)
  /\ (forall (k : nat) q, queries !! k = Some q ->
        expected_index_records queries !! S k
        = Some [Itoa (Z.of_nat k + 1); q_Query q; q_Notes q]
        /\ exists rows,
             query_results db_Query queries db !! k = Some (inr rows)
             /\ read_file (createFileName (Z.of_nat k) (q_Name q)) (dir w)
                = Some (file_records CsvOnly.render_field rows))
  /\ (forall other,
        apart other (str "executed_queries.csv") ->
        (forall (k : nat) q, queries !! k = Some q ->
           apart other (createFileName (Z.of_nat k) (q_Name q))) ->
        read_file other (dir w) = read_file other d).
Proof.
  unfold CsvOnlyRun.main. cbv zeta.
  destruct (creatable (str "executed_queries.csv")); [|discriminate]. cbn [negb].
  destruct (CsvOnlyRun.run_queries _ _ _ _ _ _) as [[index w']|] eqn:E; [|discriminate].
  cbn [mbind option_bind]. intros [= <-]. cbn [dir].
  apply run_queries_read in E as (Hindex & Hread & Hframe). cbn [dir csv_conn] in *.
  split; [|split].
  - rewrite read_write_file, Hindex. reflexivity.
  - intros k q Hk. split.
    + unfold expected_index_records.
      change ((map_range (fun i query => [Itoa (i + 1); q_Query query; q_Notes query]) 0 queries)
                !! k = Some [Itoa (Z.of_nat k + 1); q_Query q; q_Notes q]).
      rewrite map_range_lookup, Hk. cbn. now rewrite Z.add_0_l.
    + destruct (Hread k q Hk) as (rows & Hres & Hfile). exists rows. split; [exact Hres|].
      rewrite read_file_write_file_other by apply createFileName_not_index.
      now rewrite Z.add_0_l in Hfile.
  - intros other Hne Hother. apply apart_neq in Hne.
    rewrite read_file_write_file_other by exact Hne.
    rewrite Hframe by (intros k q Hk; rewrite Z.add_0_l; now apply apart_neq, Hother).
    rewrite read_file_write_file_other by exact Hne.
    now apply read_file_remove_if_exists_other.
Qed.

Lemma stage_queries_read (queries : list Query) (i : Z) (index index' : list CsvRecord)
    (w w' : CsvWorld DB) :
  0 <= i -> i + Z.of_nat (length queries) + 1 <= max_int ->
  CsvStaging.stage_queries db_Query creatable i (i + 1) queries index w = Some (index', w') ->
  (forall (k : nat) q, queries !! k = Some q ->
     exists rows,
       query_results db_Query queries (csv_conn w) !! k = Some (inr rows)
       /\ read_file (createFileName (i + 1 + Z.of_nat k) (q_Name q)) (dir w')
          = Some (file_records CsvStaging.render_field rows))
  /\ (forall other,
        (forall (k : nat) q, queries !! k = Some q ->
           other <> createFileName (i + 1 + Z.of_nat k) (q_Name q)) ->
        read_file other (dir w') = read_file other (dir w)).
Proof.
  revert i index w. induction queries as [|q queries IH]; intros i index w Hi Hmax H.
  - cbn in H. injection H as _ <-. split; [|reflexivity].
    intros k q0 Hk. now rewrite lookup_nil in Hk.
  - cbn [CsvStaging.stage_queries] in H. cbn [length] in Hmax.
    destruct (CsvStaging.executeQuery _ _ _ _ _) as [w1|] eqn:E; [|discriminate].
    cbn [mbind option_bind] in H.
    apply csv_executeQuery_Some in E as (rows & Hq & Hdir).
    rewrite wrap_small in H by (unfold is_int, min_int, max_int in *; lia).
    apply IH in H as (Hread & Hframe); [|lia|lia].
    assert (Hlater : forall (k : nat) q0, queries !! k = Some q0 ->
              createFileName (i + 1) (q_Name q)
              <> createFileName (i + 1 + 1 + Z.of_nat k) (q_Name q0)).
    { intros k q0 _ Heq. apply createFileName_eq_inv in Heq. lia. }
    split.
    + intros [|k] q0 Hk.
      * injection Hk as <-. exists rows. cbn [query_results]. rewrite Hq. split; [reflexivity|].
        rewrite Z.add_0_r, Hframe by exact Hlater.
        rewrite Hdir. apply read_write_file.
      * destruct (Hread k q0 Hk) as (rows' & Hres & Hfile).
        exists rows'. cbn [query_results]. rewrite Hq. split; [exact Hres|].
        now replace (i + 1 + Z.of_nat (S k)) with (i + 1 + 1 + Z.of_nat k) by lia.
    + intros other Hother. rewrite Hframe.
      * rewrite Hdir, read_file_write_file_other; [reflexivity|].
        specialize (Hother 0%nat q eq_refl). now rewrite Z.add_0_r in Hother.
      * intros k q0 Hk. specialize (Hother (S k) q0 Hk).
        now replace (i + 1 + Z.of_nat (S k)) with (i + 1 + 1 + Z.of_nat k) in Hother by lia.
Qed.

(** X21.  A staging file holds the result of its statement.  When the
    staging run returns, the file named after position [k + 1] holds what
    the statement listed under [k + 1] in the index gave: the column
    names and one record for each row scanned, or nothing at all when the
    columns could not be read; no later statement has written over it,
    and the number in front of its name is the number in the index. *)
Theorem staging_files_hold_the_results (db : DB) (queries : list Query) (w : CsvWorld DB) :
  Z.of_nat (length queries) + 1 <= max_int ->
  CsvStaging.executeSQLQueries db_Query creatable db queries = Some w ->
  forall (k : nat) q, queries !! k = Some q ->
    expected_index_records queries !! S k
    = Some [Itoa (Z.of_nat k + 1); q_Query q; q_Notes q]
    /\ Atoi (before_underscore (createFileName (Z.of_nat k + 1) (q_Name q)))
       = Some (Z.of_nat k + 1)
    /\ exists rows,
         query_results db_Query queries db !! k = Some (inr rows)
         /\ read_file (createFileName (Z.of_nat k + 1) (q_Name q)) (dir w)
            = Some (file_records CsvStaging.render_field rows).
Proof.
  intros Hmax H k q Hk. unfold CsvStaging.executeSQLQueries in H.
  destruct (creatable CsvStaging.executed_queries); [|discriminate]. cbn [negb] in H.
  destruct (CsvStaging.stage_queries _ _ _ _ _ _ _) as [[index w']|] eqn:E; [|discriminate].
  cbn [mbind option_bind] in H. injection H as <-. cbn [dir].
  apply (stage_queries_read queries 0) in E as (Hread & _); [|lia|lia].
  cbn [csv_conn] in Hread. split; [|split].
  - unfold expected_index_records.
    change ((map_range (fun i query => [Itoa (i + 1); q_Query query; q_Notes query]) 0 queries)
              !! k = Some [Itoa (Z.of_nat k + 1); q_Query q; q_Notes q]).
    rewrite map_range_lookup, Hk. cbn. now rewrite Z.add_0_l.
  - apply createFileName_key. apply lookup_lt_Some in Hk.
    unfold is_int, min_int, max_int in *. lia.
  - destruct (Hread k q Hk) as (rows & Hres & Hfile). exists rows. split; [exact Hres|].
    rewrite read_file_write_file_other by apply createFileName_not_index.
    now replace (Z.of_nat k + 1) with (0 + 1 + Z.of_nat k) by lia.
Qed.

End CsvRun.

Lemma first_revision_numbers_files_from_zero_witness :
  exists w,
    CsvOnlyRun.main sample_Query name_fits [(str "0_Five.csv", [[str "old"]]); (str "notes.txt", [])]
      0%nat [good_query "Five"] = Some w
    /\ read_file (str "executed_queries.csv") (dir w)
       = Some [[str "Sr.No"; str "Query"; str "Query Notes"];
               [str "1"; str "SELECT 5 AS X"; str "one row"]]
    /\ read_file (str "0_Five.csv") (dir w) = Some [[str "X"]; [str "5"]]
    /\ read_file (str "notes.txt") (dir w) = Some [].
Proof.
  destruct (CsvOnlyRun.main sample_Query name_fits
              [(str "0_Five.csv", [[str "old"]]); (str "notes.txt", [])]
              0%nat [good_query "Five"]) as [w|] eqn:E; [|vm_compute in E; discriminate E].
  exists w. split; [reflexivity|].
  destruct (first_revision_numbers_files_from_zero sample_Query name_fits _ _ _ _ E)
    as (Hindex & Hfiles & Hframe).
  split; [exact Hindex|]. split.
  - destruct (Hfiles 0%nat (good_query "Five") eq_refl) as (_ & rows & Hres & Hfile).
    vm_compute in Hres. injection Hres as <-. exact Hfile.
  - rewrite (Hframe (str "notes.txt")); [reflexivity| |].
    + repeat split; try reflexivity. vm_compute. discriminate.
    + intros [|[|k]] q Hk; try discriminate Hk. injection Hk as <-.
      repeat split; try reflexivity. vm_compute. discriminate.
Defined.

Lemma staging_files_hold_the_results_witness :
  Z.of_nat (length [good_query "Five"]) + 1 <= max_int
  /\ exists w,
       CsvStaging.executeSQLQueries sample_Query name_fits 0%nat [good_query "Five"] = Some w
       /\ read_file (str "1_Five.csv") (dir w) = Some [[str "X"]; [str "5"]].
Proof.
  assert (Hmax : Z.of_nat (length [good_query "Five"]) + 1 <= max_int)
    by (vm_compute; discriminate).
  split; [exact Hmax|].
  destruct (CsvStaging.executeSQLQueries sample_Query name_fits 0%nat [good_query "Five"]) as [w|] eqn:E;
    [|vm_compute in E; discriminate E].
  exists w. split; [reflexivity|].
  destruct (staging_files_hold_the_results sample_Query name_fits _ _ _ Hmax E 0%nat
              (good_query "Five") eq_refl) as (_ & _ & rows & Hres & Hfile).
  vm_compute in Hres. injection Hres as <-. exact Hfile.
Defined.

(** ** The index unit *)

Lemma crlf_to_lf_without_CR (s : gostring) :
  Forall (fun c => Ascii.eqb c CR = false) s -> crlf_to_lf s = s.
Proof.
  induction s as [|c1 s IH]; intros H; [reflexivity|].
  apply Forall_cons in H as [H1 H]. specialize (IH H).
  destruct s as [|c2 s]; [reflexivity|].
  change (crlf_to_lf (c1 :: c2 :: s))
    with (if Ascii.eqb c1 CR && Ascii.eqb c2 LF then LF :: crlf_to_lf s
          else c1 :: crlf_to_lf (c2 :: s)).
  rewrite H1. cbn [andb]. now rewrite IH.
Qed.

Lemma crlf_to_lf_Itoa (z : Z) : crlf_to_lf (Itoa z) = Itoa z.
Proof.
  apply crlf_to_lf_without_CR. eapply Forall_impl; [apply Itoa_chars|].
  intros c. destruct c as [[] [] [] [] [] [] [] []]; vm_compute; congruence.
Qed.

Lemma ReadAll_index (queries : list Query) :
  ReadAll (expected_index_records queries)
  = Some (map (map crlf_to_lf) (expected_index_records queries)).
Proof.
  assert (H : Forall (fun record : CsvRecord => length record = 3%nat)
                (expected_index_records queries)).
  { unfold expected_index_records. constructor; [reflexivity|].
    apply Forall_map_range. reflexivity. }
  rewrite ReadAll_rectangular by (exists 3%nat; exact H).
  rewrite filter_keeps_all; [reflexivity|].
  eapply Forall_impl; [exact H|].
  intros record Hlen. destruct record as [|f1 [|f2 rest]]; try discriminate Hlen.
  now destruct f1.
Qed.

Lemma add_sheets_keep_other (d : Dir) (files : list gostring) (i : Z) (f : File)
    (name : gostring) :
  1 <= i ->
  (forall x, x ∈ files -> TrimSuffix x (str ".csv") <> name) ->
  get_sheet name (range_from (CsvStaging.add_sheet d) i files f) = get_sheet name f.
Proof.
  revert i f. induction files as [|x files IH]; intros i f Hi Hne; [reflexivity|].
  cbn [range_from]. rewrite IH; [|lia|intros y Hy; apply Hne; now right].
  assert (Hx : name <> TrimSuffix x (str ".csv")) by (intros E; apply (Hne x); [left|now symmetry]).
  unfold CsvStaging.add_sheet. destruct (read_records x d) as [rows|]; [|reflexivity].
  destruct (Z.eqb_spec i 0); [lia|]. unfold for_range.
  rewrite (range_from_preserves (get_sheet name)).
  - now apply get_sheet_NewSheet_other.
  - intros k row g. apply (range_from_preserves (get_sheet name)).
    intros c v h. now apply get_sheet_SetCellValue_other.
Qed.

(** The index sheet of the merged workbook, for a directory that holds
    the index file and the staging files of the catalog. *)
Lemma createExcelFromCSV_index_sheet (d : Dir) (queries : list Query)
    (records : list CsvRecord) :
  Z.of_nat (length queries) + 1 <= max_int ->
  map fst d = CsvStaging.executed_queries :: staged_files queries ->
  read_records CsvStaging.executed_queries d = Some records ->
  sheet_name <$> head (CsvStaging.createExcelFromCSV d) = Some (str "executed_queries")
  /\ get_sheet (str "executed_queries") (CsvStaging.createExcelFromCSV d)
     = Some {| sheet_name := str "executed_queries"; sheet_cells := csv_cells records ∅ |}.
Proof.
  intros Hmax Hd Hread. unfold CsvStaging.createExcelFromCSV, ReadDir.
  rewrite (sortedFiles_catalog_order queries);
    [|exact Hmax|now rewrite SliceStable_Permutation, Hd].
  unfold for_range. cbn [range_from].
  assert (Hfirst : CsvStaging.add_sheet d 0 CsvStaging.executed_queries NewFile
                   = [ {| sheet_name := str "executed_queries";
                          sheet_cells := csv_cells records ∅ |} ]).
  { unfold CsvStaging.add_sheet. rewrite Hread.
    apply (write_cells_last (str "executed_queries") records 0 [] ∅). reflexivity. }
  rewrite Hfirst. split.
  - match goal with |- context [range_from _ ?i ?l ?f] =>
      destruct (add_sheets_prefix d l i f) as [rest Hrest]; [lia|];
      destruct (range_from (CsvStaging.add_sheet d) i l f) as [|s l'] end;
      [discriminate Hrest|].
    cbn [sheet_names map app sheet_name] in Hrest. injection Hrest as Hname _.
    cbn [head fmap option_fmap option_map]. now rewrite Hname.
  - rewrite add_sheets_keep_other; [reflexivity|lia|].
    intros x Hx.
    assert (Hin : TrimSuffix x (str ".csv")
                  ∈ map (fun x => TrimSuffix x (str ".csv")) (staged_files queries))
      by (apply list_elem_of_fmap; eauto).
    rewrite staged_files_trimmed in Hin.
    apply map_range_elem in Hin as (k & q & _ & ->).
    apply staged_sheet_name_not_index.
Qed.

(** C9, as stated, fails for the staging revision: the run of a catalog
    with a statement the database refuses ends in [log.Fatalf] before the
    index is flushed, so that no index unit lists the catalog. *)
Lemma staging_index_needs_a_complete_run :
  CsvStaging.executeSQLQueries sample_Query name_fits 0%nat sample_catalog = None
  /\ ~ (forall queries : list Query,
          exists w,
            CsvStaging.executeSQLQueries sample_Query name_fits 0%nat queries = Some w
            /\ read_file (str "executed_queries.csv") (dir w)
               = Some (expected_index_records queries)).
Proof.
  assert (H : CsvStaging.executeSQLQueries sample_Query name_fits 0%nat sample_catalog = None)
    by (vm_compute; reflexivity).
  split; [exact H|]. intros Hall.
  destruct (Hall sample_catalog) as (w & Hrun & _). rewrite H in Hrun. discriminate Hrun.
Qed.

(** C9.  The index unit has the header row [Sr.No], [Query],
    [Query Notes] and, for each catalog entry in catalog order, one row
    with its 1-based position, the text of its SQL statement (not its
    name) and its notes, and nothing else.  In revision 2.0.0 this is the
    first sheet of the workbook, whatever the queries return, with the
    position as a number.  In the staging revision the index is there
    only when the run returns, which it does when the index file and the
    staging files can be created and the database accepts every
    statement; then [executed_queries.csv] is handed exactly these
    records, with the position as text, and the first sheet of the
    merged workbook shows them as the reader gives them back: a carriage
    return followed by a line feed in a statement or a note has become
    the line feed alone.  The length of the catalog is a Go [int]. *)
Theorem index_unit_lists_catalog {DB : Type}
    (db_Query : DB -> gostring -> (gostring + ResultSet) * DB)
    (creatable : gostring -> bool) (db : DB) (queries : list Query) :
  Z.of_nat (length queries) + 1 <= max_int ->
  (exists w,
     DirectExcel.executeSQLQueriesAndCreateExcel db_Query db queries = Some w
     /\ sheet_name <$> head (xlsx w) = Some (str "executed_queries")
     /\ forall cell,
          GetCellValue (str "executed_queries") cell (xlsx w)
          = expected_index_cell queries cell)
  /\ (creatable CsvStaging.executed_queries = true ->
      Forall (fun r => executed r = true) (query_results db_Query queries db) ->
      Forall (fun name => creatable name = true) (staged_files queries) ->
      is_Some (CsvStaging.executeSQLQueries db_Query creatable db queries))
  /\ (forall w,
        CsvStaging.executeSQLQueries db_Query creatable db queries = Some w ->
        read_file (str "executed_queries.csv") (dir w)
        = Some (expected_index_records queries)
        /\ sheet_name <$> head (CsvStaging.createExcelFromCSV (dir w))
           = Some (str "executed_queries")
        /\ forall cell,
             GetCellValue (str "executed_queries") cell (CsvStaging.createExcelFromCSV (dir w))
             = csv_cell (map (map crlf_to_lf) (expected_index_records queries)) cell)
  /\ (forall (k : nat) q, queries !! k = Some q ->
        expected_index_cell queries (1, Z.of_nat k + 2) = Some (CellInt (Z.of_nat k + 1))
        /\ expected_index_cell queries (2, Z.of_nat k + 2) = Some (CellStr (q_Query q))
        /\ expected_index_cell queries (3, Z.of_nat k + 2) = Some (CellStr (q_Notes q))
        /\ expected_index_records queries !! S k
           = Some [Itoa (Z.of_nat k + 1); q_Query q; q_Notes q]
        /\ csv_cell (map (map crlf_to_lf) (expected_index_records queries))
             (1, Z.of_nat k + 2) = Some (CellStr (Itoa (Z.of_nat k + 1)))
        /\ csv_cell (map (map crlf_to_lf) (expected_index_records queries))
             (2, Z.of_nat k + 2) = Some (CellStr (crlf_to_lf (q_Query q)))
        /\ csv_cell (map (map crlf_to_lf) (expected_index_records queries))
             (3, Z.of_nat k + 2) = Some (CellStr (crlf_to_lf (q_Notes q)))).
Proof.
  intros Hmax. split; [|split; [|split]].
  - eexists. split; [apply run_closed; lia|]. cbn [xlsx head]. split; [reflexivity|].
    intros cell. unfold GetCellValue, get_sheet.
    cbn [find index_sheet sheet_name].
    change (name_eqb DirectExcel.executedQueriesSheetName (str "executed_queries"))
      with true.
    cbn [mbind option_bind sheet_cells]. apply index_cells_lookup.
  - intros Hindex Hall Hfiles. unfold CsvStaging.executeSQLQueries. rewrite Hindex.
    cbn [negb].
    match goal with |- context [CsvStaging.stage_queries _ _ _ _ _ ?ix ?w] =>
      destruct (proj2 (stage_queries_is_Some db_Query creatable queries 0 ix w
                         ltac:(lia) ltac:(lia)) (conj Hall Hfiles)) as [[index w'] Hrun] end.
    change (0 + 1) with 1 in Hrun. rewrite Hrun. cbn [mbind option_bind]. eauto.
  - intros w Hrun.
    destruct (executeSQLQueries_dir db_Query creatable db queries w Hrun) as [Hindex Hdir].
    specialize (Hdir Hmax). split; [exact Hindex|].
    assert (Hread : read_records CsvStaging.executed_queries (dir w)
                    = Some (map (map crlf_to_lf) (expected_index_records queries))).
    { unfold read_records. rewrite Hindex. cbn [mbind option_bind]. apply ReadAll_index. }
    destruct (createExcelFromCSV_index_sheet (dir w) queries _ Hmax Hdir Hread)
      as [Hhead Hsheet].
    split; [exact Hhead|]. intros cell. unfold GetCellValue. rewrite Hsheet.
    cbn [mbind option_bind sheet_cells]. apply csv_cells_lookup.
  - intros k q Hq.
    assert (Hrecord : expected_index_records queries !! S k
                      = Some [Itoa (Z.of_nat k + 1); q_Query q; q_Notes q]).
    { unfold expected_index_records.
      change (map_range (fun i query => [Itoa (i + 1); q_Query query; q_Notes query]) 0 queries
              !! k = Some [Itoa (Z.of_nat k + 1); q_Query q; q_Notes q]).
      rewrite map_range_lookup, Hq. reflexivity. }
    assert (Hread : map (map crlf_to_lf) (expected_index_records queries) !! S k
                    = Some [Itoa (Z.of_nat k + 1); crlf_to_lf (q_Query q);
                            crlf_to_lf (q_Notes q)]).
    { change ((map crlf_to_lf <$> expected_index_records queries) !! S k
              = Some [Itoa (Z.of_nat k + 1); crlf_to_lf (q_Query q); crlf_to_lf (q_Notes q)]).
      rewrite list_lookup_fmap, Hrecord. cbn. now rewrite crlf_to_lf_Itoa. }
    unfold expected_index_cell, csv_cell.
    replace (Z.to_nat (Z.of_nat k + 2 - 2)) with k by lia.
    replace (Z.to_nat (Z.of_nat k + 2 - 1)) with (S k) by lia.
    rewrite Hq, Hread.
    destruct (Z.eqb_spec (Z.of_nat k + 2) 1); [lia|].
    destruct (Z.leb_spec 2 (Z.of_nat k + 2)); [|lia].
    destruct (Z.leb_spec 1 (Z.of_nat k + 2)); [|lia].
    cbn [mbind option_bind]. repeat split; try exact Hrecord.
    do 2 f_equal. lia.
Qed.

Lemma index_unit_lists_catalog_witness :
  Z.of_nat (length [two_line_query]) + 1 <= max_int
  /\ (exists w,
        DirectExcel.executeSQLQueriesAndCreateExcel null_Query tt [two_line_query] = Some w
        /\ GetCellValue (str "executed_queries") (1, 2) (xlsx w) = Some (CellInt 1)
        /\ GetCellValue (str "executed_queries") (2, 2) (xlsx w)
           = Some (CellStr (str "SELECT NULL" ++ [CR; LF] ++ str "AS X"))
        /\ GetCellValue (str "executed_queries") (1, 3) (xlsx w) = None)
  /\ (exists w,
        CsvStaging.executeSQLQueries null_Query name_fits tt [two_line_query] = Some w
        /\ read_file (str "executed_queries.csv") (dir w)
           = Some [[str "Sr.No"; str "Query"; str "Query Notes"];
                   [str "1"; str "SELECT NULL" ++ [CR; LF] ++ str "AS X";
                    str "spans two lines"]]
        /\ GetCellValue (str "executed_queries") (1, 2) (CsvStaging.createExcelFromCSV (dir w))
           = Some (CellStr (str "1"))
        /\ GetCellValue (str "executed_queries") (2, 2) (CsvStaging.createExcelFromCSV (dir w))
           = Some (CellStr (str "SELECT NULL" ++ [LF] ++ str "AS X"))
        /\ GetCellValue (str "executed_queries") (3, 2) (CsvStaging.createExcelFromCSV (dir w))
           = Some (CellStr (str "spans two lines"))).
Proof.
  assert (H : Z.of_nat (length [two_line_query]) + 1 <= max_int) by (vm_compute; discriminate).
  split; [exact H|].
  destruct (index_unit_lists_catalog null_Query name_fits tt [two_line_query] H)
    as ((w & Hrun & _ & Hcells) & Hreturns & Hstaged & Hrows).
  destruct (Hrows 0%nat two_line_query eq_refl)
    as (H1 & H2 & _ & _ & H5 & H6 & H7).
  split.
  - exists w. split; [exact Hrun|]. rewrite !Hcells.
    split; [exact H1|]. split; [exact H2|]. reflexivity.
  - destruct Hreturns as [w' Hrun']; [reflexivity|repeat constructor|repeat constructor|].
    exists w'. split; [exact Hrun'|].
    destruct (Hstaged w' Hrun') as (Hfile & _ & Hmerged).
    split; [exact Hfile|]. rewrite !Hmerged.
    split; [exact H5|]. split; [exact H6|exact H7].
Defined.
